(** * Digital human pipeline: wire codec, stream registry, join coordinator,
      STT sequence counter and avatar disconnect.

    Shallow embedding of [python_sdk/tts_client.py], [python_sdk/stt_client.py],
    [python_sdk/backend_server.py] and [python_sdk/digital_human_client.py].

    Conventions.
    - Python [bytes] are lists of integers; a byte is an integer in [0, 256).
    - Python [int] is [Z]; fixed-width packing is written out with its range
      check, and a raised exception is an explicit result.
    - Dictionaries are [gmap]s, Python [set]s are [gset]s.
    - The clock values of [join_room] are IEEE 754 binary64 numbers, as
      Python's [float] is; their arithmetic is that of [PrimFloat].
    - Everything the code awaits from the network is an explicit oracle
      argument of the embedded function. *)

From Stdlib Require Import ZArith QArith Lia Floats.
From stdpp Require Import gmap strings list.

Local Open Scope Z_scope.

(* ===================================================================== *)
(** ** Python primitives used by the codecs *)
(* ===================================================================== *)

Module Py.

Abbreviation bytes := (list Z).

Definition byte_ok (b : Z) : bool := (0 <=? b) && (b <? 256).

(** [bytes([...])]: every element must be in range(256), else ValueError. *)
Definition bytes_of_ints (l : list Z) : option bytes :=
  if forallb byte_ok l then Some l else None.

Definition len {A} (l : list A) : Z := Z.of_nat (length l).

(** Index normalisation of a slice bound for a sequence of length [n]. *)
Definition slice_bound (n i : Z) : Z :=
  if i <? 0 then Z.max (i + n) 0 else Z.min i n.

(** [l[a:b]] with Python's clamping and negative-index rules. *)
Definition slice {A} (l : list A) (a b : Z) : list A :=
  let n := len l in
  let a' := slice_bound n a in
  let b' := slice_bound n b in
  take (Z.to_nat (b' - a')) (drop (Z.to_nat a') l).

(** [l[i]]: IndexError ([None]) outside [-n, n). *)
Definition index {A} (l : list A) (i : Z) : option A :=
  let n := len l in
  if (0 <=? i) && (i <? n) then l !! Z.to_nat i
  else if (- n <=? i) && (i <? 0) then l !! Z.to_nat (i + n)
  else None.

(** Big-endian base-256 digits of a value in [0, 2^32). *)
Definition be4 (u : Z) : bytes :=
  [ Z.land (Z.shiftr u 24) 255; Z.land (Z.shiftr u 16) 255;
    Z.land (Z.shiftr u 8) 255; Z.land u 255 ].

(** [x.to_bytes(4, "big", signed=True)] and [struct.pack('>i', x)]:
    OverflowError / struct.error ([None]) outside [-2^31, 2^31). *)
Definition to_bytes4_signed (x : Z) : option bytes :=
  if (- 2 ^ 31 <=? x) && (x <? 2 ^ 31) then Some (be4 (x mod 2 ^ 32)) else None.

(** [struct.pack('>I', x)]: struct.error outside [0, 2^32). *)
Definition pack_u32 (x : Z) : option bytes :=
  if (0 <=? x) && (x <? 2 ^ 32) then Some (be4 x) else None.

Definition from_bytes_unsigned (bs : bytes) : Z :=
  fold_left (fun acc b => acc * 256 + b) bs 0.

(** [int.from_bytes(bs, "big", signed=True)], any length (0 for [b'']). *)
Definition from_bytes_signed (bs : bytes) : Z :=
  let u := from_bytes_unsigned bs in
  let bits := 8 * len bs in
  if bits =? 0 then 0
  else if 2 ^ (bits - 1) <=? u then u - 2 ^ bits else u.

(** Truthiness of an [int] in a boolean context. *)
Definition truthy (z : Z) : bool := negb (z =? 0).

End Py.

(* ===================================================================== *)
(** ** TTS wire codec ([tts_client.py]) *)
(* ===================================================================== *)

Module TTS.

Definition PROTOCOL_VERSION : Z := 1.
Definition DEFAULT_HEADER_SIZE : Z := 1.

Definition FULL_CLIENT_REQUEST : Z := 1.
Definition AUDIO_ONLY_RESPONSE : Z := 11.
Definition FULL_SERVER_RESPONSE : Z := 9.
Definition ERROR_INFORMATION : Z := 15.

Definition MsgTypeFlagNoSeq : Z := 0.
Definition MsgTypeFlagPositiveSeq : Z := 1.
Definition MsgTypeFlagLastNoSeq : Z := 2.
Definition MsgTypeFlagNegativeSeq : Z := 3.
Definition MsgTypeFlagWithEvent : Z := 4.

Definition NO_SERIALIZATION : Z := 0.
Definition JSON : Z := 1.
Definition COMPRESSION_NO : Z := 0.
Definition COMPRESSION_GZIP : Z := 1.

Definition EVENT_NONE : Z := 0.
Definition EVENT_Start_Connection : Z := 1.
Definition EVENT_FinishConnection : Z := 2.
Definition EVENT_ConnectionStarted : Z := 50.
Definition EVENT_ConnectionFailed : Z := 51.
Definition EVENT_ConnectionFinished : Z := 52.
Definition EVENT_StartSession : Z := 100.
Definition EVENT_FinishSession : Z := 102.
Definition EVENT_SessionStarted : Z := 150.
Definition EVENT_SessionFinished : Z := 152.
Definition EVENT_SessionFailed : Z := 153.
Definition EVENT_TaskRequest : Z := 200.
Definition EVENT_TTSSentenceStart : Z := 350.
Definition EVENT_TTSSentenceEnd : Z := 351.
Definition EVENT_TTSResponse : Z := 352.

(** [class Header].  The last three fields are the attributes that only
    [_parse_response] assigns ([serialization_method], [message_compression],
    [reserved]); they do not exist on a freshly built header. *)
Record Header := mkHeader {
  protocol_version : Z;
  header_size : Z;
  message_type : Z;
  message_type_specific_flags : Z;
  serial_method : Z;
  compression_type : Z;
  reserved_data : Z;
  serialization_method : option Z;
  message_compression : option Z;
  reserved : option Z
}.

(** [Header(...)] with the constructor's defaults. *)
Definition new_Header (mt flags sm : Z) : Header :=
  mkHeader PROTOCOL_VERSION DEFAULT_HEADER_SIZE mt flags sm COMPRESSION_NO 0
           None None None.

Definition Header_as_bytes (h : Header) : option Py.bytes :=
  Py.bytes_of_ints
    [ Z.lor (Z.shiftl (protocol_version h) 4) (header_size h);
      Z.lor (Z.shiftl (message_type h) 4) (message_type_specific_flags h);
      Z.lor (Z.shiftl (serial_method h) 4) (compression_type h);
      reserved_data h ].

Definition four_bit (z : Z) : bool := (0 <=? z) && (z <? 16).

(** Every header field fits the bits the frame gives it. *)
Definition header_fits (h : Header) : bool :=
  four_bit (protocol_version h) && four_bit (header_size h)
  && four_bit (message_type h) && four_bit (message_type_specific_flags h)
  && four_bit (serial_method h) && four_bit (compression_type h)
  && Py.byte_ok (reserved_data h).

(** An event code that fits 32 bits and for which [_parse_response] reads
    a session id followed by a payload (its last [else]). *)
Definition generic_event (ev : Z) : bool :=
  (- 2 ^ 31 <=? ev) && (ev <? 2 ^ 31)
  && negb ((ev =? EVENT_NONE) || (ev =? EVENT_ConnectionStarted)
           || (ev =? EVENT_ConnectionFailed) || (ev =? EVENT_SessionStarted)
           || (ev =? EVENT_SessionFailed) || (ev =? EVENT_SessionFinished)).

(** The ASCII fragment of the UTF-8 codec, for concrete frames: a string
    is its code points, and outside the fragment nothing is defined. *)
Definition is_ascii (c : Z) : bool := (0 <=? c) && (c <? 128).
Definition ascii_encode (s : list Z) : option Py.bytes :=
  if forallb is_ascii s then Some s else None.
Definition ascii_decode (b : Py.bytes) : option (list Z) :=
  if forallb is_ascii b then Some b else None.

Section Codec.

(** Python [str] and the UTF-8 codec ([str.encode], [bytes.decode('utf-8')])
    are taken as given; both can raise. *)
Context {pystr : Type}.
Context (str_encode : pystr -> option Py.bytes).
Context (bytes_decode : Py.bytes -> option pystr).

(** [class Optional]. *)
Record Optional := mkOptional {
  event : Z;
  sessionId : option pystr;
  errorCode : Z;
  connectionId : option pystr;
  response_meta_json : option pystr;
  sequence : option Z
}.

Definition new_Optional (ev : Z) (sid : option pystr) (seq : option Z) : Optional :=
  mkOptional ev sid 0 None None seq.

Definition Optional_as_bytes (o : Optional) : option Py.bytes :=
  ev ← (if event o =? EVENT_NONE then Some []
        else Py.to_bytes4_signed (event o));
  sid ← match sessionId o with
        | None => Some []
        | Some s =>
            session_id_bytes ← str_encode s;
            size ← Py.to_bytes4_signed (Py.len session_id_bytes);
            Some (size ++ session_id_bytes)
        end;
  sq ← match sequence o with
       | None => Some []
       | Some n => Py.to_bytes4_signed n
       end;
  Some (ev ++ sid ++ sq).

(** The bytes handed to [websocket.send] by [_send_event_with_protocol]. *)
Definition _send_event_with_protocol
    (header : Py.bytes) (optional payload : option Py.bytes) : option Py.bytes :=
  let full_client_request := header ++ default [] optional in
  match payload with
  | None => Some full_client_request
  | Some p =>
      payload_size ← Py.to_bytes4_signed (Py.len p);
      Some (full_client_request ++ payload_size ++ p)
  end.

(** What every [_send_*] method does with its header, optional block and
    payload: build both byte strings, then frame them. *)
Definition encode (h : Header) (o : Optional) (payload : Py.bytes) : option Py.bytes :=
  hb ← Header_as_bytes h;
  ob ← Optional_as_bytes o;
  _send_event_with_protocol hb (Some ob) (Some payload).

Record Response := mkResponse {
  header : Header;
  optional : Optional;
  payload : option Py.bytes
}.

Inductive ws_message :=
| Text (s : pystr)
| Binary (b : Py.bytes).

Inductive parse_error :=
| RuntimeError
| IndexError
| UnicodeDecodeError.

Definition _read_res_content (res : Py.bytes) (offset : Z)
  : parse_error + (pystr * Z) :=
  let content_size := Py.from_bytes_signed (Py.slice res offset (offset + 4)) in
  let offset := offset + 4 in
  match bytes_decode (Py.slice res offset (offset + content_size)) with
  | None => inl UnicodeDecodeError
  | Some content => inr (content, offset + content_size)
  end.

Definition _read_res_payload (res : Py.bytes) (offset : Z) : Py.bytes * Z :=
  let payload_size := Py.from_bytes_signed (Py.slice res offset (offset + 4)) in
  let offset := offset + 4 in
  (Py.slice res offset (offset + payload_size), offset + payload_size).

Definition set_event (o : Optional) (v : Z) : Optional :=
  mkOptional v (sessionId o) (errorCode o) (connectionId o)
             (response_meta_json o) (sequence o).
Definition set_sessionId (o : Optional) (v : pystr) : Optional :=
  mkOptional (event o) (Some v) (errorCode o) (connectionId o)
             (response_meta_json o) (sequence o).
Definition set_connectionId (o : Optional) (v : pystr) : Optional :=
  mkOptional (event o) (sessionId o) (errorCode o) (Some v)
             (response_meta_json o) (sequence o).
Definition set_response_meta_json (o : Optional) (v : pystr) : Optional :=
  mkOptional (event o) (sessionId o) (errorCode o) (connectionId o)
             (Some v) (sequence o).
Definition set_errorCode (o : Optional) (v : Z) : Optional :=
  mkOptional (event o) (sessionId o) v (connectionId o)
             (response_meta_json o) (sequence o).

(** [TTSClient._parse_response].  The first test is the source's
    [header.message_type == FULL_SERVER_RESPONSE or AUDIO_ONLY_RESPONSE]:
    the right operand is the constant itself, read for its truth value. *)
Definition _parse_response (msg : ws_message) : parse_error + Response :=
  match msg with
  | Text _ => inl RuntimeError
  | Binary res =>
    match Py.index res 0, Py.index res 1, Py.index res 2, Py.index res 3 with
    | Some r0, Some r1, Some r2, Some r3 =>
      let h := mkHeader (Z.land (Z.shiftr r0 4) 15) (Z.land r0 15)
                        (Z.land (Z.shiftr r1 4) 15) (Z.land r1 15)
                        NO_SERIALIZATION COMPRESSION_NO 0
                        (Some (Z.shiftr r2 15)) (Some (Z.land r2 15)) (Some r3) in
      let o := new_Optional EVENT_NONE None None in
      let offset := 4 in
      if (message_type h =? FULL_SERVER_RESPONSE) || Py.truthy AUDIO_ONLY_RESPONSE then
        if message_type_specific_flags h =? MsgTypeFlagWithEvent then
          let ev := Py.from_bytes_signed (Py.slice res offset (offset + 4)) in
          let o := set_event o ev in
          let offset := offset + 4 in
          if ev =? EVENT_NONE then inr (mkResponse h o None)
          else if ev =? EVENT_ConnectionStarted then
            match _read_res_content res offset with
            | inl e => inl e
            | inr (c, _) => inr (mkResponse h (set_connectionId o c) None)
            end
          else if ev =? EVENT_ConnectionFailed then
            match _read_res_content res offset with
            | inl e => inl e
            | inr (c, _) => inr (mkResponse h (set_response_meta_json o c) None)
            end
          else if (ev =? EVENT_SessionStarted) || (ev =? EVENT_SessionFailed)
                  || (ev =? EVENT_SessionFinished) then
            match _read_res_content res offset with
            | inl e => inl e
            | inr (sid, offset) =>
              match _read_res_content res offset with
              | inl e => inl e
              | inr (meta, _) =>
                inr (mkResponse h (set_response_meta_json (set_sessionId o sid) meta) None)
              end
            end
          else
            match _read_res_content res offset with
            | inl e => inl e
            | inr (sid, offset) =>
              let '(p, _) := _read_res_payload res offset in
              inr (mkResponse h (set_sessionId o sid) (Some p))
            end
        else inr (mkResponse h o None)
      else if message_type h =? ERROR_INFORMATION then
        let code := Py.from_bytes_signed (Py.slice res offset (offset + 4)) in
        let offset := offset + 4 in
        let '(p, _) := _read_res_payload res offset in
        inr (mkResponse h (set_errorCode o code) (Some p))
      else inr (mkResponse h o None)
    | _, _, _, _ => inl IndexError
    end
  end.

End Codec.

End TTS.

(* ===================================================================== *)
(** ** STT wire format and client ([stt_client.py]) *)
(* ===================================================================== *)

Module STT.

Definition PROTOCOL_VERSION : Z := 1.
Definition DEFAULT_HEADER_SIZE : Z := 1.

Definition CLIENT_FULL_REQUEST : Z := 1.
Definition CLIENT_AUDIO_ONLY_REQUEST : Z := 2.
Definition SERVER_FULL_RESPONSE : Z := 9.
Definition SERVER_ERROR_RESPONSE : Z := 15.

Definition NO_SEQUENCE : Z := 0.
Definition POS_SEQUENCE : Z := 1.
Definition NEG_SEQUENCE : Z := 2.
Definition NEG_WITH_SEQUENCE : Z := 3.

Definition NO_SERIALIZATION : Z := 0.
Definition JSON : Z := 1.
Definition COMPRESSION_NO : Z := 0.
Definition COMPRESSION_GZIP : Z := 1.

Record Header := mkHeader {
  protocol_version : Z;
  header_size : Z;
  message_type : Z;
  message_type_specific_flags : Z;
  serial_method : Z;
  compression_type : Z;
  reserved_data : Z
}.

Definition Header_as_bytes (h : Header) : option Py.bytes :=
  Py.bytes_of_ints
    [ Z.lor (Z.shiftl (protocol_version h) 4) (header_size h);
      Z.lor (Z.shiftl (message_type h) 4) (message_type_specific_flags h);
      Z.lor (Z.shiftl (serial_method h) 4) (compression_type h);
      reserved_data h ].

(** Little-endian [struct.pack('<I', x)] and [struct.pack('<H', x)]. *)
Definition pack_le_u32 (x : Z) : option Py.bytes :=
  if (0 <=? x) && (x <? 2 ^ 32) then
    Some [ Z.land x 255; Z.land (Z.shiftr x 8) 255;
           Z.land (Z.shiftr x 16) 255; Z.land (Z.shiftr x 24) 255 ]
  else None.

Definition pack_le_u16 (x : Z) : option Py.bytes :=
  if (0 <=? x) && (x <? 2 ^ 16) then
    Some [ Z.land x 255; Z.land (Z.shiftr x 8) 255 ]
  else None.

Definition RIFF : Py.bytes := [82; 73; 70; 70].
Definition WAVE : Py.bytes := [87; 65; 86; 69].
Definition fmt_ : Py.bytes := [102; 109; 116; 32].
Definition data : Py.bytes := [100; 97; 116; 97].

(** [CommonUtils.pcm_to_wav]; [None] is a struct.error. *)
Definition pcm_to_wav (pcm_data : Py.bytes) (sample_rate channels bits : Z)
  : option Py.bytes :=
  file_size ← pack_le_u32 (36 + Py.len pcm_data);
  fmt_size ← pack_le_u32 16;
  audio_format ← pack_le_u16 1;
  ch ← pack_le_u16 channels;
  sr ← pack_le_u32 sample_rate;
  byte_rate ← pack_le_u32 (sample_rate * channels * bits / 8);
  block_align ← pack_le_u16 (channels * bits / 8);
  depth ← pack_le_u16 bits;
  data_size ← pack_le_u32 (Py.len pcm_data);
  Some (RIFF ++ file_size ++ WAVE ++ fmt_ ++ fmt_size ++ audio_format ++ ch
        ++ sr ++ byte_rate ++ block_align ++ depth ++ data ++ data_size
        ++ pcm_data).

(** [CommonUtils.validate_pcm_audio]. *)
Definition validate_pcm_audio (audio_data : Py.bytes) (sample_rate channels : Z) : bool :=
  if negb (Py.len audio_data mod 2 =? 0) then false
  else
    let expected_bytes_per_second := sample_rate * channels * 2 in
    let max_expected_length := expected_bytes_per_second * 10 in
    if max_expected_length <? Py.len audio_data then false else true.

(** A compressor that stores its input unchanged, for concrete frames. *)
Definition stored (b : Py.bytes) : Py.bytes := b.

Section Wire.

(** [gzip.compress] is the library's; any function on bytes will do. *)
Context (gzip_compress : Py.bytes -> Py.bytes).

(** [RequestBuilder.new_audio_only_request]; [None] is the exception a
    failing [bytes(...)] or [struct.pack] raises. *)
Definition new_audio_only_request (seq : Z) (segment : Py.bytes) (is_last : bool)
  : option Py.bytes :=
  let header :=
    mkHeader PROTOCOL_VERSION DEFAULT_HEADER_SIZE CLIENT_AUDIO_ONLY_REQUEST
             (if is_last then NEG_WITH_SEQUENCE else POS_SEQUENCE)
             NO_SERIALIZATION COMPRESSION_GZIP 0 in
  hb ← Header_as_bytes header;
  sq ← Py.to_bytes4_signed (if is_last then - seq else seq);
  let compressed_segment := gzip_compress segment in
  sz ← Py.pack_u32 (Py.len compressed_segment);
  Some (hb ++ sq ++ sz ++ compressed_segment).

(** [RequestBuilder.new_full_client_request], applied to the already
    serialised JSON payload ([json.dumps(payload).encode('utf-8')]). *)
Definition new_full_client_request (seq : Z) (payload_bytes : Py.bytes)
  : option Py.bytes :=
  let header :=
    mkHeader PROTOCOL_VERSION DEFAULT_HEADER_SIZE CLIENT_FULL_REQUEST
             POS_SEQUENCE JSON COMPRESSION_GZIP 0 in
  hb ← Header_as_bytes header;
  let compressed_payload := gzip_compress payload_bytes in
  sq ← Py.to_bytes4_signed seq;
  sz ← Py.pack_u32 (Py.len compressed_payload);
  Some (hb ++ sq ++ sz ++ compressed_payload).

(** The sequence field of a built request: the four bytes after the
    header, read back as [struct.unpack('>i', ...)] does. *)
Definition encoded_sequence (request : Py.bytes) : Z :=
  Py.from_bytes_signed (Py.slice request 4 8).

Definition encoded_flags (request : Py.bytes) : option Z :=
  b ← Py.index request 1; Some (Z.land b 15).

(** *** Client state *)

Inductive ws_state := CONNECTING | OPEN | CLOSING | CLOSED.

#[global] Instance ws_state_eq_dec : EqDecision ws_state.
Proof. solve_decision. Defined.

Inductive STTStatus :=
| DISCONNECTED | ST_CONNECTING | CONNECTED | RECOGNIZING | ERROR.

Record STTConfig := mkConfig {
  sample_rate : Z;
  channels : Z;
  bits : Z
}.

Record STTSession := mkSession {
  session_id : string;
  config : STTConfig;
  total_audio_bytes : Z
}.

(** Python exceptions, as far as the handlers tell them apart:
    [CancelledError] derives from BaseException only, the others from
    Exception. *)
Inductive exn :=
| StructError
| AttributeError
| ConnectionClosed
| OtherException (tag : Z)
| CancelledError.

Definition is_Exception (e : exn) : bool :=
  match e with CancelledError => false | _ => true end.

(** What a user callback does when called: it returns, or it raises. *)
Inductive cb_result := CbReturn | CbRaise (e : exn).

Record STTClient := mkClient {
  websocket : option ws_state;
  status : STTStatus;
  is_connected : bool;
  current_session : option STTSession;
  audio_buffer : list Py.bytes;
  buffer_size : Z;
  seq : Z;
  stats_total_audio_bytes : Z;
  stats_last_activity : Q;
  on_error : option (exn -> cb_result)
}.

(** [STTClient.__init__]. *)
Definition init : STTClient :=
  mkClient None DISCONNECTED false None [] 0 1 0 0%Q None.

Definition set_seq (c : STTClient) (v : Z) : STTClient :=
  mkClient (websocket c) (status c) (is_connected c) (current_session c)
           (audio_buffer c) (buffer_size c) v (stats_total_audio_bytes c)
           (stats_last_activity c) (on_error c).

Definition set_last_activity (c : STTClient) (t : Q) : STTClient :=
  mkClient (websocket c) (status c) (is_connected c) (current_session c)
           (audio_buffer c) (buffer_size c) (seq c) (stats_total_audio_bytes c)
           t (on_error c).

(** [deque(maxlen=1000).append]. *)
Definition deque_append (d : list Py.bytes) (x : Py.bytes) : list Py.bytes :=
  let d' := d ++ [x] in
  if 1000 <? Py.len d' then drop 1 d' else d'.

(** The four counters [send_audio] bumps once the audio is accepted. *)
Definition account_audio (c : STTClient) (cs : STTSession) (audio_data : Py.bytes)
  : STTClient :=
  let n := Py.len audio_data in
  mkClient (websocket c) (status c) (is_connected c)
           (Some (mkSession (session_id cs) (config cs) (total_audio_bytes cs + n)))
           (deque_append (audio_buffer c) audio_data) (buffer_size c + n) (seq c)
           (stats_total_audio_bytes c + n) (stats_last_activity c) (on_error c).

Inductive outcome :=
| Returned (b : bool)
| Raised (e : exn).

(** The [except Exception as e] clause of [send_audio]: a BaseException
    passes through; otherwise [on_error], if set, is called, and what it
    raises is raised to the caller. *)
Definition send_audio_except (e : exn) (c : STTClient) : outcome :=
  if is_Exception e then
    match on_error c with
    | Some cb =>
        match cb e with
        | CbReturn => Returned false
        | CbRaise e' => Raised e'
        end
    | None => Returned false
    end
  else Raised e.

(** The three guards before the lock is taken. *)
Definition send_audio_checks (c : STTClient) : bool :=
  is_connected c
  && bool_decide (is_Some (current_session c))
  && bool_decide (websocket c = Some OPEN).

(** Where the locked body of [send_audio] stands when it stops running:
    finished, or suspended in [await self.websocket.send(request)]. *)
Inductive locked_point :=
| Finished (r : outcome) (c : STTClient)
| AwaitSend (current_seq : Z) (request : Py.bytes) (c : STTClient).

(** The body under [async with self._seq_lock], up to the send. *)
Definition send_audio_locked (c : STTClient) (audio_data : Py.bytes) (is_last : bool)
  : locked_point :=
  match current_session c with
  | None => Finished (send_audio_except AttributeError c) c
  | Some cs =>
    match pcm_to_wav audio_data (sample_rate (config cs)) (channels (config cs))
                     (bits (config cs)) with
    | None => Finished (send_audio_except StructError c) c
    | Some wav_audio_data =>
      if negb (validate_pcm_audio audio_data (sample_rate (config cs))
                                  (channels (config cs)))
      then Finished (Returned false) c
      else
        let c1 := account_audio c cs audio_data in
        let current_seq := seq c1 in
        match new_audio_only_request current_seq wav_audio_data is_last with
        | None => Finished (send_audio_except StructError c1) c1
        | Some request =>
          match websocket c1 with
          | None => Finished (send_audio_except AttributeError c1) c1
          | Some _ => AwaitSend current_seq request c1
          end
        end
    end
  end.

(** What [websocket.send] does: it completes, or it raises. *)
Inductive send_result := SendOk | SendRaise (e : exn).

(** The rest of the locked body once the send has resolved. *)
Definition send_audio_resume (c : STTClient) (r : send_result) (now : Q)
  : outcome * STTClient :=
  match r with
  | SendOk => (Returned true, set_last_activity (set_seq c (seq c + 1)) now)
  | SendRaise e => (send_audio_except e c, c)
  end.

(** [STTClient.send_audio] run alone (the lock is free when it is
    reached): result, final client, and the frames handed to the socket. *)
Definition send_audio (c : STTClient) (audio_data : Py.bytes) (is_last : bool)
    (net : send_result) (now : Q) : outcome * STTClient * list Py.bytes :=
  if negb (send_audio_checks c) then (Returned false, c, [])
  else
    match send_audio_locked c audio_data is_last with
    | Finished r c' => (r, c', [])
    | AwaitSend _ request c' =>
        let '(r, c'') := send_audio_resume c' net now in
        (r, c'', [request])
    end.

(** [STTClient._send_full_client_request]: no handler of its own, so
    every exception reaches the caller.  The method returns nothing; its
    normal return is written [Returned true]. *)
Definition full_request_locked (c : STTClient) (payload_bytes : Py.bytes)
  : locked_point :=
  let current_seq := seq c in
  match new_full_client_request current_seq payload_bytes with
  | None => Finished (Raised StructError) c
  | Some request =>
    match websocket c with
    | None => Finished (Raised AttributeError) c
    | Some _ => AwaitSend current_seq request c
    end
  end.

Definition full_request_resume (c : STTClient) (r : send_result)
  : outcome * STTClient :=
  match r with
  | SendOk => (Returned true, set_seq c (seq c + 1))
  | SendRaise e => (Raised e, c)
  end.

(** Concrete situations: a connected client in a recognition session of
    the default format (16 kHz, mono, 16 bit), and the same with an
    [on_error] callback that raises. *)
Definition online : STTClient :=
  mkClient (Some OPEN) RECOGNIZING true
           (Some (mkSession "stt_session_0" (mkConfig 16000 1 16) 0))
           [] 0 1 0 0%Q None.

Definition online_raising_callback : STTClient :=
  mkClient (Some OPEN) RECOGNIZING true
           (Some (mkSession "stt_session_0" (mkConfig 16000 1 16) 0))
           [] 0 1 0 0%Q (Some (fun _ => CbRaise (OtherException 0))).

(** *** Concurrent callers on one event loop

    A coroutine runs without interruption up to its next suspension point.
    The callers of [send_audio] and [_send_full_client_request] suspend in
    two places only: waiting for [_seq_lock], and inside
    [await self.websocket.send(request)] with the lock held. *)

Inductive op :=
| OpSendAudio (audio_data : Py.bytes) (is_last : bool)
| OpFullRequest (payload_bytes : Py.bytes).

Inductive pc :=
| Ready (o : op)
| WaitLock (o : op)
| Sending (o : op) (current_seq : Z) (request : Py.bytes)
| Done (r : outcome).

Record world := mkWorld {
  client : STTClient;
  seq_lock : option nat;
  callers : list pc;
  wire : list (Z * Py.bytes)
}.


Definition locked_body (o : op) (c : STTClient) : locked_point :=
  match o with
  | OpSendAudio a l => send_audio_locked c a l
  | OpFullRequest p => full_request_locked c p
  end.

Definition resume (o : op) (c : STTClient) (r : send_result) (now : Q)
  : outcome * STTClient :=
  match o with
  | OpSendAudio _ _ => send_audio_resume c r now
  | OpFullRequest _ => full_request_resume c r
  end.

(** Caller [i] has the lock and runs the locked body up to its end or to
    the send. *)
Definition enter_locked (i : nat) (o : op) (w : world) : world :=
  match locked_body o (client w) with
  | Finished r c' => mkWorld c' None (<[i := Done r]> (callers w)) (wire w)
  | AwaitSend cur req c' =>
      mkWorld c' (Some i) (<[i := Sending o cur req]> (callers w)) (wire w)
  end.

Definition passes_checks (o : op) (c : STTClient) : bool :=
  match o with
  | OpSendAudio _ _ => send_audio_checks c
  | OpFullRequest _ => true
  end.

Inductive step : world -> world -> Prop :=
| step_call w o :
    step w (mkWorld (client w) (seq_lock w) (callers w ++ [Ready o]) (wire w))
| step_rejected w i o :
    callers w !! i = Some (Ready o) ->
    passes_checks o (client w) = false ->
    step w (mkWorld (client w) (seq_lock w)
                    (<[i := Done (Returned false)]> (callers w)) (wire w))
| step_wait w i o :
    callers w !! i = Some (Ready o) ->
    passes_checks o (client w) = true ->
    is_Some (seq_lock w) ->
    step w (mkWorld (client w) (seq_lock w) (<[i := WaitLock o]> (callers w)) (wire w))
| step_enter w i o :
    callers w !! i = Some (Ready o) ->
    passes_checks o (client w) = true ->
    seq_lock w = None ->
    step w (enter_locked i o w)
| step_wake w i o :
    callers w !! i = Some (WaitLock o) ->
    seq_lock w = None ->
    step w (enter_locked i o w)
| step_sent w i o cur req r now :
    callers w !! i = Some (Sending o cur req) ->
    step w (let '(res, c') := resume o (client w) r now in
            mkWorld c' None (<[i := Done res]> (callers w))
                    (match r with
                     | SendOk => wire w ++ [(cur, req)]
                     | SendRaise _ => wire w
                     end))
| step_other w c' :
    seq c' = seq (client w) ->
    step w (mkWorld c' (seq_lock w) (callers w) (wire w)).


End Wire.





End STT.

(* ===================================================================== *)
(** ** Avatar control client ([digital_human_client.py]) *)
(* ===================================================================== *)

Module Avatar.

Inductive ws_state := CONNECTING | OPEN | CLOSING | CLOSED.

#[global] Instance ws_state_eq_dec : EqDecision ws_state.
Proof. solve_decision. Defined.

Record DigitalHumanClient := mkClient {
  websocket : option ws_state;
  live_id : option string
}.

(** [DigitalHumanClient.__init__]. *)
Definition init : DigitalHumanClient := mkClient None None.

(** The socket object, if there is one, is now in state [s]. *)
Definition socket_becomes (s : ws_state) (ws : option ws_state) : option ws_state :=
  match ws with Some _ => Some s | None => None end.

(** Truth value of [self.live_id]: [None] and the empty string are false. *)
Definition live_bound (c : DigitalHumanClient) : bool :=
  match live_id c with
  | Some s => negb (String.eqb s "")
  | None => false
  end.

Definition is_connected (c : DigitalHumanClient) : bool :=
  bool_decide (websocket c = Some OPEN).

(** Exceptions as the handlers of [stop_live] and [disconnect] sort them. *)
Inductive exn :=
| TimeoutError
| ConnectionClosed
| OtherException
| CancelledError.

Definition is_Exception (e : exn) : bool :=
  match e with CancelledError => false | _ => true end.

Inductive await_result := Ok | Raise (e : exn).

(** What the client asked of the socket and of the event loop. *)
Inductive action :=
| ASend (frame : string)
| ASleep
| AClose.

Definition STOP_FRAME : string := "|CTL|01|".

Inductive outcome := Returned | Raised (e : exn).

(** [stop_live]: the result, the client, the actions. *)
Definition stop_live (c : DigitalHumanClient) (send : await_result)
  : outcome * DigitalHumanClient * list action :=
  match websocket c with
  | None => (Returned, mkClient (websocket c) None, [])
  | Some _ =>
    if negb (live_bound c) then (Returned, c, [])
    else
      match send with
      | Ok => (Returned, mkClient (websocket c) None, [ASend STOP_FRAME])
      | Raise e =>
          if is_Exception e
          then (Returned, mkClient (websocket c) None, [ASend STOP_FRAME])
          else (Raised e, c, [ASend STOP_FRAME])
      end
  end.

(** Everything [disconnect] awaits: the send inside [stop_live], the
    sleep, the socket's state when line 497 reads it after those two
    awaits, and the close. *)
Record net := mkNet {
  send_stop : await_result;
  sleep : await_result;
  state_after_stop : ws_state;
  close : await_result
}.

(** The [try] body of [disconnect]. *)
Definition disconnect_body (c : DigitalHumanClient) (n : net)
  : outcome * DigitalHumanClient * list action :=
  let '(r1, c1, t1) :=
    if live_bound c then
      match stop_live c (send_stop n) with
      | (Raised e, c', t) => (Raised e, c', t)
      | (Returned, c', t) =>
          match sleep n with
          | Ok =>
              (Returned, mkClient (socket_becomes (state_after_stop n) (websocket c')) (live_id c'),
               t ++ [ASleep])
          | Raise e => (Raised e, c', t ++ [ASleep])
          end
      end
    else (Returned, c, []) in
  match r1 with
  | Raised e => (Raised e, c1, t1)
  | Returned =>
      match websocket c1 with
      | Some s =>
          if bool_decide (s = CLOSED) then (Returned, c1, t1)
          else
            match close n with
            | Ok => (Returned, c1, t1 ++ [AClose])
            | Raise e => (Raised e, c1, t1 ++ [AClose])
            end
      | None => (Returned, c1, t1)
      end
  end.

(** [disconnect]: the three [except] clauses swallow every Exception,
    [finally] clears both attributes, a BaseException goes on to the
    caller. *)
Definition disconnect (c : DigitalHumanClient) (n : net)
  : outcome * DigitalHumanClient * list action :=
  match websocket c with
  | None => (Returned, c, [])
  | Some _ =>
      let '(r, _, t) := disconnect_body c n in
      let r' := match r with
                | Raised e => if is_Exception e then Returned else Raised e
                | Returned => Returned
                end in
      (r', mkClient None None, t)
  end.

(** Every way the program changes [websocket] and [live_id] of the avatar
    client: a [connect] strategy assigning a fresh socket, the socket
    changing state under the client, [_start_live_internal] (which raises
    before binding when there is no socket), [stop_live], [disconnect],
    and the server's own [digital_human_client.live_id = None]. *)
Inductive client_op :=
| OpConnectAssign (s : ws_state)
| OpSocketState (s : ws_state)
| OpStartLive (id : string)
| OpStopLive (send : await_result)
| OpDisconnect (n : net)
| OpClearLiveId.

Definition run_op (c : DigitalHumanClient) (o : client_op) : DigitalHumanClient :=
  match o with
  | OpConnectAssign s => mkClient (Some s) (live_id c)
  | OpSocketState s => mkClient (socket_becomes s (websocket c)) (live_id c)
  | OpStartLive id =>
      match websocket c with
      | None => c
      | Some _ => mkClient (websocket c) (Some id)
      end
  | OpStopLive send => (stop_live c send).1.2
  | OpDisconnect n => (disconnect c n).1.2
  | OpClearLiveId => mkClient (websocket c) None
  end.

Definition run_ops (ops : list client_op) : DigitalHumanClient :=
  fold_left run_op ops init.

(** A room is bound only on a client that has a socket. *)
Definition bound_has_socket (c : DigitalHumanClient) : Prop :=
  websocket c = None -> live_id c = None.

End Avatar.

(* ===================================================================== *)
(** ** Stream session registry ([backend_server.py], lines 139-201) *)
(* ===================================================================== *)

Module Registry.

(** Truth value of an [Optional[str]]. *)
Definition truthy_str (o : option string) : bool :=
  match o with
  | Some s => negb (String.eqb s "")
  | None => false
  end.

(** One entry of [active_streams].  The [asyncio.Event] is an object shared
    with the pipeline that polls it, so the entry holds a reference into
    the heap of events. *)
Record stream := mkStream {
  stream_live_id : option string;
  cancel_event : nat
}.

Record registry := mkRegistry {
  active_streams : gmap string stream;
  live_to_sessions : gmap string (gset string);
  events : gmap nat bool;
  next_event : nat
}.

Definition empty : registry := mkRegistry ∅ ∅ ∅ 0%nat.

(** [cancel_event.is_set()]. *)
Definition is_set (r : registry) (e : nat) : bool := default false (events r !! e).

Definition register_stream_session (session_id : string) (live_id : option string)
    (r : registry) : nat * registry :=
  let e := next_event r in
  let streams := <[session_id := mkStream live_id e]> (active_streams r) in
  let index :=
    match live_id with
    | Some l =>
        if truthy_str live_id then
          <[l := {[session_id]} ∪ default ∅ (live_to_sessions r !! l)]>
            (live_to_sessions r)
        else live_to_sessions r
    | None => live_to_sessions r
    end in
  (e, mkRegistry streams index (<[e := false]> (events r)) (S e)).

Definition cancel_stream_by_session (session_id : string) (r : registry)
  : Z * registry :=
  match active_streams r !! session_id with
  | None => (0, r)
  | Some stream =>
      let e := cancel_event stream in
      let r' :=
        if negb (is_set r e)
        then mkRegistry (active_streams r) (live_to_sessions r)
                        (<[e := true]> (events r)) (next_event r)
        else r in
      (1, r')
  end.

Definition cancel_streams_by_live_id (live_id : string) (r : registry)
  : Z * registry :=
  let session_ids := elements (default ∅ (live_to_sessions r !! live_id)) in
  fold_left
    (fun '(triggered, r) sid =>
       let '(n, r') := cancel_stream_by_session sid r in (triggered + n, r'))
    session_ids (0, r).

Definition cleanup_stream_session (session_id : string) (r : registry) : registry :=
  match active_streams r !! session_id with
  | None => r
  | Some stream =>
      let streams := delete session_id (active_streams r) in
      let index :=
        match stream_live_id stream with
        | Some l =>
            if truthy_str (stream_live_id stream) then
              match live_to_sessions r !! l with
              | Some sessions =>
                  if bool_decide (session_id ∈ sessions) then
                    let sessions' := sessions ∖ {[session_id]} in
                    if bool_decide (sessions' = ∅)
                    then delete l (live_to_sessions r)
                    else <[l := sessions']> (live_to_sessions r)
                  else live_to_sessions r
              | None => live_to_sessions r
              end
            else live_to_sessions r
        | None => live_to_sessions r
        end in
      mkRegistry streams index (events r) (next_event r)
  end.

(** The session is known to the room index, under any room. *)
Definition indexed (session_id : string) (r : registry) : Prop :=
  exists l sessions, live_to_sessions r !! l = Some sessions /\ session_id ∈ sessions.

(** Every session of the room index is in the primary table, under the
    room that indexes it. *)
Definition consistent (r : registry) : Prop :=
  forall l sessions sid,
    live_to_sessions r !! l = Some sessions -> sid ∈ sessions ->
    exists st, active_streams r !! sid = Some st
               /\ stream_live_id st = Some l /\ truthy_str (Some l) = true.

End Registry.

(* ===================================================================== *)
(** ** Streaming pipeline ([backend_server.py], [stream_pipeline] and
       [safe_tts_synthesize]) *)
(* ===================================================================== *)

Module Pipeline.

Import Registry.

(** A Python [str] as its code points. *)
Abbreviation pystr := (list Z).

(** The sentence-terminal marks tested by [stream_pipeline]:
    U+3002, U+FF01, U+FF1F, and [.], [!], [?]. *)
Definition PUNCT : list Z := [12290; 65281; 65311; 46; 33; 63].

Definition contains (s : pystr) (c : Z) : bool := existsb (Z.eqb c) s.

Definition has_sentence_end (sentence_buffer : pystr) : bool :=
  existsb (contains sentence_buffer) PUNCT.

(** [str.isspace] on one code point. *)
Definition is_space (c : Z) : bool :=
  ((9 <=? c) && (c <=? 13)) || ((28 <=? c) && (c <=? 32))
  || (c =? 133) || (c =? 160) || (c =? 5760)
  || ((8192 <=? c) && (c <=? 8202))
  || (c =? 8232) || (c =? 8233) || (c =? 8239) || (c =? 8287) || (c =? 12288).

Fixpoint lstrip (s : pystr) : pystr :=
  match s with
  | c :: s' => if is_space c then lstrip s' else s
  | [] => []
  end.

Definition strip (s : pystr) : pystr := rev (lstrip (rev (lstrip s))).

(** The [type] of each server-sent event, with the fields the pipeline
    fills in. *)
Inductive event :=
| EvStart (session_id : string) (query : pystr)
| EvCancelled (session_id : string)
| EvTextChunk (content accumulated_text : pystr)
| EvSentenceComplete (sentence : pystr)
| EvAudioChunk (sentence : pystr) (audio_size : Z)
| EvSentenceProcessed (sentence : pystr)
| EvTtsError (sentence : pystr)
| EvFinalSentence (sentence : pystr)
| EvFinalAudioChunk (sentence : pystr) (audio_size : Z)
| EvFinalTtsError (sentence : pystr)
| EvComplete (full_text : pystr) (session_id : string)
| EvError (session_id : string).

(** What another handler of the server does to the registry while the
    pipeline is suspended. *)
Inductive other :=
| CancelSession (session_id : string)
| CancelLive (live_id : string).

Definition run_other (r : registry) (o : other) : registry :=
  match o with
  | CancelSession s => (cancel_stream_by_session s r).2
  | CancelLive l => (cancel_streams_by_live_id l r).2
  end.

(** How [ensure_tts_connection] goes: the socket is open (nothing is
    awaited), or it reconnects, or the reconnect raises. *)
Inductive ensure_result := EnsureOpen | EnsureReconnected | EnsureFailed.

(** One run of [tts_client.synthesize_text]: the chunks it yields, and
    whether the stream then ends or raises. *)
Record tts_attempt := mkAttempt {
  ensure : ensure_result;
  chunks : list Py.bytes;
  stream_ends : bool
}.

Record env := mkEnv {
  session_id : string;
  query : pystr;
  live_id : option string;
  dh_websocket : bool;
  llm : list (option pystr);
  llm_raises : bool;
  tts_reconnect : nat -> ensure_result;
  tts : nat -> tts_attempt;
  drive_ok : nat -> bool;
  others : nat -> list other
}.

Record pstate := mkState {
  reg : registry;
  tick : nat;
  emitted : list event;
  avatar_calls : list Py.bytes;
  tts_calls : list pystr;
  attempts : nat;
  sentences : nat;
  finish_calls : nat
}.

(** A suspension point ([await] of something pending, or [yield]): the
    other handlers scheduled for this tick run. *)
Definition pause (E : env) (s : pstate) : pstate :=
  mkState (fold_left run_other (others E (tick s)) (reg s)) (S (tick s))
          (emitted s) (avatar_calls s) (tts_calls s) (attempts s) (sentences s)
          (finish_calls s).

(** [yield f"data: ..."]. *)
Definition emit (E : env) (ev : event) (s : pstate) : pstate :=
  pause E (mkState (reg s) (tick s) (emitted s ++ [ev]) (avatar_calls s)
                   (tts_calls s) (attempts s) (sentences s) (finish_calls s)).

Definition cancelled (ce : nat) (s : pstate) : bool := is_set (reg s) ce.

(** How [safe_tts_synthesize] ends.  [asyncio.CancelledError] derives from
    BaseException (Python 3.8 and later; the nested quotes in this
    module's f-strings need 3.12), so no [except Exception] clause
    catches it. *)
Inductive tts_result :=
| TtsChunks (audio_chunks : list Py.bytes)
| TtsException
| TtsCancelledError.

(** The [async for] of [safe_tts_synthesize]: each chunk is awaited, then
    the cancel flag is polled before the chunk is kept. *)
Fixpoint collect_chunks (E : env) (ce : nat) (incoming acc : list Py.bytes)
    (s : pstate) : option (list Py.bytes) * pstate :=
  match incoming with
  | [] => (Some acc, pause E s)
  | ch :: rest =>
      let s := pause E s in
      if cancelled ce s then (None, s)
      else collect_chunks E ce rest (acc ++ [ch]) s
  end.

Definition next_attempt (s : pstate) : pstate :=
  mkState (reg s) (tick s) (emitted s) (avatar_calls s) (tts_calls s)
          (S (attempts s)) (sentences s) (finish_calls s).

(** The [while retry_count < max_retries] loop of [safe_tts_synthesize];
    [fuel] is [max_retries - retry_count]. *)
Fixpoint tts_retry (E : env) (ce : nat) (fuel : nat) (s : pstate)
  : tts_result * pstate :=
  match fuel with
  | O => (TtsChunks [], s)
  | S fuel' =>
      if cancelled ce s then (TtsCancelledError, s)
      else
        let a := tts E (attempts s) in
        let s := next_attempt s in
        let failed (s : pstate) :=
          match fuel' with
          | O => (TtsException, s)
          | S _ => tts_retry E ce fuel' (pause E s)
          end in
        match ensure a with
        | EnsureFailed => failed (pause E s)
        | e =>
            let s := match e with EnsureReconnected => pause E s | _ => s end in
            let s := pause E s in
            match collect_chunks E ce (chunks a) [] s with
            | (None, s) => (TtsCancelledError, s)
            | (Some audio_chunks, s) =>
                if negb (stream_ends a) then failed s
                else if Py.len audio_chunks =? 0 then failed s
                else (TtsChunks audio_chunks, s)
            end
        end
  end.

Definition safe_tts_synthesize (E : env) (ce : nat) (text : pystr) (s : pstate)
  : tts_result * pstate :=
  tts_retry E ce 3
    (mkState (reg s) (tick s) (emitted s) (avatar_calls s) (tts_calls s ++ [text])
             (attempts s) (sentences s) (finish_calls s)).

(** [await digital_human_client.drive_with_streaming_audio(audio_chunk)],
    guarded by [digital_human_client.websocket and request.live_id];
    [false] when the call raises. *)
Definition drive (E : env) (audio_chunk : Py.bytes) (s : pstate) : bool * pstate :=
  if dh_websocket E && truthy_str (live_id E) then
    let ok := drive_ok E (length (avatar_calls s)) in
    (ok, pause E (mkState (reg s) (tick s) (emitted s)
                          (avatar_calls s ++ [audio_chunk]) (tts_calls s)
                          (attempts s) (sentences s) (finish_calls s)))
  else (true, s).

(** The loop over [sentence_audio_chunks]; [false] when an exception
    leaves it. *)
Fixpoint deliver (E : env) (ce : nat) (sentence : pystr)
    (audio_chunks : list Py.bytes) (s : pstate) : bool * pstate :=
  match audio_chunks with
  | [] => (true, s)
  | audio_chunk :: rest =>
      if cancelled ce s then (true, emit E (EvCancelled (session_id E)) s)
      else
        match drive E audio_chunk s with
        | (false, s) => (false, s)
        | (true, s) =>
            deliver E ce sentence rest
                    (emit E (EvAudioChunk sentence (Py.len audio_chunk)) s)
        end
  end.

(** The loop over [final_audio_chunks], which polls nothing. *)
Fixpoint deliver_final (E : env) (sentence : pystr)
    (audio_chunks : list Py.bytes) (s : pstate) : bool * pstate :=
  match audio_chunks with
  | [] => (true, s)
  | audio_chunk :: rest =>
      match drive E audio_chunk s with
      | (false, s) => (false, s)
      | (true, s) =>
          deliver_final E sentence rest
                        (emit E (EvFinalAudioChunk sentence (Py.len audio_chunk)) s)
      end
  end.

Definition next_sentence (s : pstate) : pstate :=
  mkState (reg s) (tick s) (emitted s) (avatar_calls s) (tts_calls s)
          (attempts s) (S (sentences s)) (finish_calls s).

(** How control leaves a block. *)
Inductive flow := Normal | RaisedCancelled | RaisedException.

(** The [try] around one completed sentence (lines 845-990);
    a CancelledError is not an Exception and goes through. *)
Definition speak_sentence (E : env) (ce : nat) (sentence : pystr) (s : pstate)
  : flow * pstate :=
  let r := tts_reconnect E (sentences s) in
  let s := next_sentence s in
  match r with
  | EnsureFailed => (Normal, emit E (EvTtsError sentence) (pause E s))
  | _ =>
      let s := match r with EnsureReconnected => pause E s | _ => s end in
      match safe_tts_synthesize E ce sentence s with
      | (TtsCancelledError, s) => (RaisedCancelled, s)
      | (TtsException, s) => (Normal, emit E (EvTtsError sentence) s)
      | (TtsChunks audio_chunks, s) =>
          match deliver E ce sentence audio_chunks s with
          | (false, s) => (Normal, emit E (EvTtsError sentence) s)
          | (true, s) => (Normal, emit E (EvSentenceProcessed sentence) s)
          end
      end
  end.

(** The [for llm_response in llm_client.chat_stream(...)] loop. *)
Fixpoint llm_loop (E : env) (ce : nat) (responses : list (option pystr))
    (text_buffer sentence_buffer : pystr) (s : pstate)
  : flow * pystr * pystr * pstate :=
  match responses with
  | [] =>
      (if llm_raises E then RaisedException else Normal,
       text_buffer, sentence_buffer, s)
  | llm_response :: rest =>
      if cancelled ce s then
        (Normal, text_buffer, sentence_buffer, emit E (EvCancelled (session_id E)) s)
      else
        match llm_response with
        | None => llm_loop E ce rest text_buffer sentence_buffer s
        | Some text_chunk =>
            let text_buffer := text_buffer ++ text_chunk in
            let sentence_buffer := sentence_buffer ++ text_chunk in
            let s := emit E (EvTextChunk text_chunk text_buffer) s in
            if has_sentence_end sentence_buffer then
              let s := emit E (EvSentenceComplete (strip sentence_buffer)) s in
              match speak_sentence E ce (strip sentence_buffer) s with
              | (Normal, s) => llm_loop E ce rest text_buffer [] s
              | (f, s) => (f, text_buffer, sentence_buffer, s)
              end
            else llm_loop E ce rest text_buffer sentence_buffer s
        end
  end.

(** "Process any remaining text" (lines 994-1062). *)
Definition speak_remaining (E : env) (ce : nat) (sentence_buffer : pystr)
    (s : pstate) : flow * pstate :=
  if negb (Py.len (strip sentence_buffer) =? 0) && negb (cancelled ce s) then
    let sentence := strip sentence_buffer in
    let s := emit E (EvFinalSentence sentence) s in
    let r := tts_reconnect E (sentences s) in
    let s := next_sentence s in
    match r with
    | EnsureFailed => (Normal, emit E (EvFinalTtsError sentence) (pause E s))
    | _ =>
        let s := match r with EnsureReconnected => pause E s | _ => s end in
        match safe_tts_synthesize E ce sentence s with
        | (TtsCancelledError, s) => (RaisedCancelled, s)
        | (TtsException, s) => (Normal, emit E (EvFinalTtsError sentence) s)
        | (TtsChunks audio_chunks, s) =>
            match deliver_final E sentence audio_chunks s with
            | (false, s) => (Normal, emit E (EvFinalTtsError sentence) s)
            | (true, s) => (Normal, s)
            end
        end
    end
  else (Normal, s).

(** [await digital_human_client.finish_streaming_audio()], whose
    exceptions are logged and dropped. *)
Definition finish_audio (E : env) (ce : nat) (s : pstate) : pstate :=
  if dh_websocket E && truthy_str (live_id E) && negb (cancelled ce s) then
    pause E (mkState (reg s) (tick s) (emitted s) (avatar_calls s) (tts_calls s)
                     (attempts s) (sentences s) (S (finish_calls s)))
  else s.

(** The outer [try] body of [stream_pipeline]. *)
Definition pipeline_body (E : env) (ce : nat) (s : pstate) : flow * pstate :=
  let s := emit E (EvStart (session_id E) (query E)) s in
  if cancelled ce s then (Normal, emit E (EvCancelled (session_id E)) s)
  else
    match llm_loop E ce (llm E) [] [] s with
    | (Normal, text_buffer, sentence_buffer, s) =>
        match speak_remaining E ce sentence_buffer s with
        | (Normal, s) =>
            let s := finish_audio E ce s in
            (Normal, emit E (EvComplete text_buffer (session_id E)) s)
        | (f, s) => (f, s)
        end
    | (f, _, _, s) => (f, s)
    end.

(** [stream_pipeline]: body, the two [except] clauses, and [finally]. *)
Definition stream_pipeline (E : env) (ce : nat) (s : pstate) : pstate :=
  let '(f, s) := pipeline_body E ce s in
  let s :=
    match f with
    | Normal => s
    | RaisedCancelled => emit E (EvCancelled (session_id E)) s
    | RaisedException => emit E (EvError (session_id E)) s
    end in
  mkState (cleanup_stream_session (session_id E) (reg s)) (tick s) (emitted s)
          (avatar_calls s) (tts_calls s) (attempts s) (sentences s)
          (finish_calls s).

(** What [process_query_stream] meets before the generator exists:
    whether the three clients are initialised, whether
    [llm_client.create_conversation] returns or raises, whether
    [tts_client.websocket] is there, and, when it is not, how
    [await tts_client.connect()] ends and which other handlers run while
    it is awaited. *)
Record prelude := mkPrelude {
  clients_ready : bool;
  conversation_ok : bool;
  tts_websocket : bool;
  tts_connect : Avatar.await_result;
  connecting : list other
}.

(** How [process_query_stream] ends: the [except Exception] clause turns
    an Exception into an HTTPException 500, a CancelledError goes on to
    the caller, and otherwise the response streams the generator, run
    here to its end.  The registry is given in the first two cases. *)
Inductive answer :=
| Http500 (r : registry)
| Cancelled (r : registry)
| Streaming (s : pstate).

(** [process_query_stream] (lines 710-1136).  The session is registered
    before [create_conversation] and the TTS connect; only the generator's
    [finally] removes it again. *)
Definition process_query_stream (P : prelude) (E : env) (r : registry) : answer :=
  if negb (clients_ready P) then Http500 r
  else
    let '(ce, r) := register_stream_session (session_id E) (live_id E) r in
    if negb (conversation_ok P) then Http500 r
    else if tts_websocket P then
      Streaming (stream_pipeline E ce (mkState r 0 [] [] [] 0 0 0))
    else
      let r := fold_left run_other (connecting P) r in
      match tts_connect P with
      | Avatar.Ok =>
          Streaming (stream_pipeline E ce (mkState r 0 [] [] [] 0 0 0))
      | Avatar.Raise e =>
          if Avatar.is_Exception e then Http500 r else Cancelled r
      end.

(** A request that finds the clients initialised and the TTS socket
    open, and whose conversation is created. *)
Definition started : prelude := mkPrelude true true true Avatar.Ok [].

(** The run of the generator for such a request. *)
Definition run_query (E : env) (r : registry) : pstate :=
  match process_query_stream started E r with
  | Streaming s => s
  | Http500 r | Cancelled r => mkState r 0 [] [] [] 0 0 0
  end.

(** A query answered with the one sentence "Hi.", synthesised as two audio
    chunks, in room "room"; [schedule] says which handlers run at which
    suspension of the pipeline. *)
Definition one_sentence (schedule : nat -> list other) : env :=
  mkEnv "s1" [72; 105; 63] (Some "room") true
        [Some [72; 105; 46]] false
        (fun _ => EnsureOpen)
        (fun _ => mkAttempt EnsureOpen [[1; 2]; [3; 4]] true)
        (fun _ => true)
        schedule.

(** The session is cancelled at suspension [k] and at no other. *)
Definition cancel_at (k : nat) : nat -> list other :=
  fun t => if Nat.eqb t k then [CancelSession "s1"] else [].

End Pipeline.

(* ===================================================================== *)
(** ** Join-room coordinator ([backend_server.py], [join_room]) *)
(* ===================================================================== *)

Module Coordinator.

Import Avatar.

(** [asyncio.get_event_loop().time()] is a Python [float] of seconds, an
    IEEE 754 binary64 number: [PrimFloat.sub a b] is the rounded
    difference [a - b], and [PrimFloat.ltb a b] the test [a < b], false
    when either side is NaN. *)
Definition COOLDOWN_PERIOD : float := 10%float.

(** [int(x)] on a float: truncation toward zero; OverflowError on an
    infinity and ValueError on NaN ([None]). *)
Definition py_int (x : float) : option Z :=
  match Prim2SF x with
  | S754_zero _ => Some 0
  | S754_finite s m e =>
      let v := if 0 <=? e then Z.pos m * 2 ^ e else Z.pos m / 2 ^ (- e) in
      Some (if s then - v else v)
  | S754_infinity _ | S754_nan => None
  end.

(** The real number a finite float stands for, as a fraction (0 for the
    zeros, the infinities and NaN). *)
Definition float_value (x : float) : Q :=
  match Prim2SF x with
  | S754_finite s m e =>
      let v := if 0 <=? e then inject_Z (Z.pos m * 2 ^ e)
               else Qmake (Z.pos m) (2 ^ Z.to_pos (- e)) in
      if s then Qopp v else v
  | _ => 0%Q
  end.

(** The [detail] of each HTTPException [join_room] raises. *)
Inductive detail :=
| NotInitialized
| InProgress
| CooldownWait (seconds : Z)
| ConnectTimeout
| ConnectFailed
| StartLiveTimeout
| RequestTimeout
| FriendlyMessage.

Record HTTPException := mkHTTP {
  status_code : Z;
  http_detail : detail
}.

(** An entry of [active_sessions], by its ["status"]. *)
Record session := mkSession { status : string }.

Record state := mkState {
  digital_human_client : option DigitalHumanClient;
  active_sessions : gmap string session;
  pending_requests : gmap string nat;
  tasks : list bool;
  failed_requests : gmap string float;
  connection_lock : bool;
  connect_calls : nat
}.

Definition set_client (c : option DigitalHumanClient) (s : state) : state :=
  mkState c (active_sessions s) (pending_requests s) (tasks s)
          (failed_requests s) (connection_lock s) (connect_calls s).
Definition set_active (a : gmap string session) (s : state) : state :=
  mkState (digital_human_client s) a (pending_requests s) (tasks s)
          (failed_requests s) (connection_lock s) (connect_calls s).
Definition set_pending (p : gmap string nat) (s : state) : state :=
  mkState (digital_human_client s) (active_sessions s) p (tasks s)
          (failed_requests s) (connection_lock s) (connect_calls s).
Definition set_tasks (t : list bool) (s : state) : state :=
  mkState (digital_human_client s) (active_sessions s) (pending_requests s) t
          (failed_requests s) (connection_lock s) (connect_calls s).
Definition set_failed (f : gmap string float) (s : state) : state :=
  mkState (digital_human_client s) (active_sessions s) (pending_requests s)
          (tasks s) f (connection_lock s) (connect_calls s).
Definition set_lock (l : bool) (s : state) : state :=
  mkState (digital_human_client s) (active_sessions s) (pending_requests s)
          (tasks s) (failed_requests s) l (connect_calls s).
Definition count_connect (s : state) : state :=
  mkState (digital_human_client s) (active_sessions s) (pending_requests s)
          (tasks s) (failed_requests s) (connection_lock s) (S (connect_calls s)).

(** [pending_task.done()]. *)
Definition task_done (s : state) (t : nat) : bool := default true (tasks s !! t).

(** [live_id in pending_requests and not pending_requests[live_id].done()]. *)
Definition join_pending (s : state) (live : string) : bool :=
  match pending_requests s !! live with
  | Some t => negb (task_done s t)
  | None => false
  end.

Inductive response := AlreadyActive | Joined.

Inductive result :=
| Return (r : response)
| RaiseHTTP (e : HTTPException)
| RaiseCancelled.

(** How the part of [join_room] before [async with connection_lock] ends:
    it returns, raises an HTTPException, raises another Exception, or
    goes on to the lock. *)
Inductive entry :=
| EntryReturn (r : response)
| EntryRaise (e : HTTPException)
| EntryException
| EntryProceed.

(** Lines 414-451: an existing session is answered from, or dropped. *)
Definition check_existing (live : string) (c : DigitalHumanClient) (s : state)
  : option state :=
  match active_sessions s !! live with
  | None => Some s
  | Some sess =>
      if String.eqb (status sess) "active" then
        if is_connected c && bool_decide (live_id c = Some live) then None
        else
          let s := set_active (delete live (active_sessions s)) s in
          if bool_decide (live_id c = Some live)
          then Some (set_client (Some (mkClient (websocket c) None)) s)
          else Some s
      else Some (set_active (delete live (active_sessions s)) s)
  end.

(** The request is answered from [active_sessions]: the recorded session
    is active and the client is open on this very room. *)
Definition session_valid (live : string) (c : DigitalHumanClient) (s : state) : bool :=
  match active_sessions s !! live with
  | Some sess =>
      String.eqb (status sess) "active" && is_connected c
      && bool_decide (live_id c = Some live)
  | None => false
  end.

(** How the cooldown test ends: with the HTTPException 429, with the
    exception that [int(remaining_cooldown)] raises while the detail is
    formatted, or with the request going on. *)
Inductive cooldown :=
| CooldownReject (e : HTTPException)
| CooldownIntRaises
| CooldownOver (s : state).

(** Lines 462-477: the cooldown test at clock value [now]. *)
Definition check_cooldown (now : float) (live : string) (s : state) : cooldown :=
  match failed_requests s !! live with
  | None => CooldownOver s
  | Some failure_time =>
      let time_since_failure := PrimFloat.sub now failure_time in
      if PrimFloat.ltb time_since_failure COOLDOWN_PERIOD then
        let remaining_cooldown :=
          PrimFloat.sub COOLDOWN_PERIOD time_since_failure in
        match py_int remaining_cooldown with
        | Some seconds => CooldownReject (mkHTTP 429 (CooldownWait seconds))
        | None => CooldownIntRaises
        end
      else CooldownOver (set_failed (delete live (failed_requests s)) s)
  end.

(** Lines 409-477. *)
Definition join_room_entry (now : float) (live : string) (s : state)
  : entry * state :=
  match digital_human_client s with
  | None => (EntryRaise (mkHTTP 500 NotInitialized), s)
  | Some c =>
      match check_existing live c s with
      | None => (EntryReturn AlreadyActive, s)
      | Some s =>
          if join_pending s live then (EntryRaise (mkHTTP 429 InProgress), s)
          else
            match check_cooldown now live s with
            | CooldownReject e => (EntryRaise e, s)
            | CooldownIntRaises => (EntryException, s)
            | CooldownOver s => (EntryProceed, s)
            end
      end
  end.

(** Lines 480-490 and 660-662, run with the lock just acquired: the second
    pending test, then [asyncio.create_task] and its registration.  On
    [inr t] the handler is suspended in [wait_for(task)], lock held. *)
Definition join_room_locked (live : string) (s : state)
  : HTTPException + nat * state :=
  if join_pending s live then inl (mkHTTP 429 InProgress)
  else
    let t := length (tasks s) in
    inr (t, set_lock true
              (set_pending (<[live := t]> (pending_requests s))
                 (set_tasks (tasks s ++ [false]) s))).

(** What the avatar service does during one pass of the retry loop. *)
Inductive connect_result := ConnOk | ConnTimeout | ConnError.
Inductive health_result := HealthTrue | HealthFalse | HealthTimeout | HealthError.
Inductive start_result := StartOk | StartTimeout | StartError.

Record attempt := mkAttempt {
  conn : connect_result;
  socket_after_failure : option ws_state;
  health : health_result;
  cleanup : net
}.

Record task_net := mkTaskNet {
  attempts : nat -> attempt;
  start_live : start_result;
  overall_timeout : option DigitalHumanClient
}.

Inductive task_result :=
| TaskReturn
| TaskHTTP (e : HTTPException)
| TaskException
| TaskCancelled.

Inductive pass_result := PassBreak | PassTimeout | PassException.

(** One pass of the [while retry_count < max_retries] body, up to the
    [break] or to the exception that leaves the inner [try]. *)
Definition connect_pass (a : attempt) (c : DigitalHumanClient) (calls : nat)
  : pass_result * DigitalHumanClient * nat :=
  let needs_connect :=
    match websocket c with
    | None => true
    | Some st => bool_decide (st = CLOSED)
    end in
  let '(r, c, calls) :=
    if needs_connect then
      match conn a with
      | ConnOk => (PassBreak, mkClient (Some OPEN) (live_id c), S calls)
      | ConnTimeout =>
          (PassTimeout, mkClient (socket_after_failure a) (live_id c), S calls)
      | ConnError =>
          (PassException, mkClient (socket_after_failure a) (live_id c), S calls)
      end
    else (PassBreak, c, calls) in
  match r with
  | PassBreak =>
      if negb (is_connected c) then (PassException, c, calls)
      else
        match health a with
        | HealthTrue => (PassBreak, c, calls)
        | _ => (PassException, c, calls)
        end
  | _ => (r, c, calls)
  end.

(** The retry loop; [fuel] is [max_retries - retry_count]. *)
Fixpoint connect_loop (N : task_net) (fuel retry_count : nat)
    (c : DigitalHumanClient) (calls : nat)
  : task_result * DigitalHumanClient * nat :=
  match fuel with
  | O => (TaskReturn, c, calls)
  | S fuel' =>
      let a := attempts N retry_count in
      match connect_pass a c calls with
      | (PassBreak, c, calls) => (TaskReturn, c, calls)
      | (PassTimeout, c, calls) =>
          match fuel' with
          | O => (TaskHTTP (mkHTTP 408 ConnectTimeout), c, calls)
          | S _ => connect_loop N fuel' (S retry_count) c calls
          end
      | (PassException, c, calls) =>
          match disconnect c (cleanup a) with
          | (Raised _, c, _) => (TaskCancelled, c, calls)
          | (Returned, c, _) =>
              match fuel' with
              | O => (TaskHTTP (mkHTTP 503 ConnectFailed), c, calls)
              | S _ => connect_loop N fuel' (S retry_count) c calls
              end
          end
      end
  end.

(** [join_room_task], run to its end; [finally] drops the pending entry
    and the task is done. *)
Definition join_room_task (N : task_net) (live : string) (t : nat)
    (c : DigitalHumanClient) (s : state) : task_result * state :=
  let '(r, c, calls) := connect_loop N 3 0 c (connect_calls s) in
  let s := mkState (Some c) (active_sessions s) (pending_requests s) (tasks s)
                   (failed_requests s) (connection_lock s) calls in
  let '(r, s) :=
    match r with
    | TaskReturn =>
        match websocket c with
        | None => (TaskException, s)
        | Some _ =>
            let s := set_client (Some (mkClient (websocket c) (Some live))) s in
            match start_live N with
            | StartOk =>
                (TaskReturn,
                 set_active (<[live := mkSession "active"]> (active_sessions s)) s)
            | StartTimeout => (TaskHTTP (mkHTTP 408 StartLiveTimeout), s)
            | StartError => (TaskException, s)
            end
        end
    | _ => (r, s)
    end in
  (r, set_tasks (<[t := true]> (tasks s))
        (set_pending (delete live (pending_requests s)) s)).

(** The [except HTTPException] clause (lines 674-681). *)
Definition on_http (t_fail : float) (live : string) (e : HTTPException)
    (s : state)
  : result * state :=
  (RaiseHTTP e, set_failed (<[live := t_fail]> (failed_requests s)) s).

(** The [except Exception] clause (lines 682-707). *)
Definition on_exception (t_fail : float) (live : string) (s : state)
  : result * state :=
  let s := set_active (delete live (active_sessions s)) s in
  let s := set_pending (delete live (pending_requests s)) s in
  (RaiseHTTP (mkHTTP 500 FriendlyMessage),
   set_failed (<[live := t_fail]> (failed_requests s)) s).

(** Lines 664-672 and the handlers: the handler resumes from
    [wait_for(task, timeout=90.0)] and leaves the lock. *)
Definition join_room_resume (t_fail : float) (N : task_net) (live : string)
    (t : nat)
    (s : state) : result * state :=
  match digital_human_client s with
  | None => on_exception t_fail live (set_lock false s)
  | Some c =>
      match overall_timeout N with
      | Some c' =>
          let s := set_client (Some c') s in
          let s := set_tasks (<[t := true]> (tasks s))
                     (set_pending (delete live (pending_requests s)) s) in
          on_http t_fail live (mkHTTP 408 RequestTimeout) (set_lock false s)
      | None =>
          let '(r, s) := join_room_task N live t c s in
          let s := set_lock false s in
          match r with
          | TaskReturn => (Return Joined, s)
          | TaskHTTP e => on_http t_fail live e s
          | TaskException => on_exception t_fail live s
          | TaskCancelled => (RaiseCancelled, s)
          end
      end
  end.

(** [join_room] for one request that finds the lock free: [now] is the
    clock at line 463, [t_fail] the clock in the handlers. *)
Definition join_room (now t_fail : float) (N : task_net) (live : string)
    (s : state) : result * state :=
  match join_room_entry now live s with
  | (EntryReturn r, s) => (Return r, s)
  | (EntryRaise e, s) => on_http t_fail live e s
  | (EntryException, s) => on_exception t_fail live s
  | (EntryProceed, s) =>
      match join_room_locked live s with
      | inl e => on_http t_fail live e s
      | inr (t, s) => join_room_resume t_fail N live t s
      end
  end.

(** Concrete situations: a server whose avatar client has never connected;
    the same with room "room" failed at clock 0; and an avatar service
    that accepts everything. *)
Definition fresh_server : state :=
  mkState (Some Avatar.init) ∅ ∅ [] ∅ false 0.

Definition cooling_server : state :=
  set_failed {[ "room" := 0%float ]} fresh_server.

(** The fresh server once a first request for "room" has created task 0
    and waits for it, holding the lock. *)
Definition waiting_server : state :=
  set_lock true
    (set_pending (<[ "room" := 0%nat ]> ∅) (set_tasks ([] ++ [false]) fresh_server)).

Definition quiet : net := mkNet Ok Ok CLOSED Ok.

Definition obliging : task_net :=
  mkTaskNet (fun _ => mkAttempt ConnOk None HealthTrue quiet) StartOk None.

End Coordinator.

(* ===================================================================== *)
(** ** WAV helpers ([stt_client.py], [AudioProcessor]) *)
(* ===================================================================== *)

Module Wav.

(** Little-endian [struct.unpack('<H', b)] and [struct.unpack('<I', b)]:
    struct.error ([None]) unless [b] has exactly 2, resp. 4 bytes. *)
Definition unpack_le_u16 (b : Py.bytes) : option Z :=
  match b with
  | [b0; b1] => Some (b0 + 256 * b1)
  | _ => None
  end.

Definition unpack_le_u32 (b : Py.bytes) : option Z :=
  match b with
  | [b0; b1; b2; b3] => Some (b0 + 256 * (b1 + 256 * (b2 + 256 * b3)))
  | _ => None
  end.

(** [AudioProcessor.judge_wav]. *)
Definition judge_wav (data : Py.bytes) : bool :=
  if Py.len data <? 44 then false
  else bool_decide (Py.slice data 0 4 = STT.RIFF)
       && bool_decide (Py.slice data 8 12 = STT.WAVE).

Inductive wav_error := ValueError | StructError | ZeroDivisionError.

(** The tuple returned by [read_wav_info]. *)
Record wav_info := mkInfo {
  num_channels : Z;
  samp_width : Z;
  frame_rate : Z;
  num_frames : Z;
  wave_data : Py.bytes
}.

(** The [while pos < len(data) - 8] loop of [read_wav_info], one pass per
    unit of fuel; [None] when the fuel is used up.  On a byte string every
    pass moves [pos] forward by at least 8. *)
Fixpoint find_data (fuel : nat) (data : Py.bytes)
    (channels bits_per_sample sample_rate pos : Z)
  : option (wav_error + wav_info) :=
  match fuel with
  | O => None
  | S fuel' =>
      if pos <? Py.len data - 8 then
        let subchunk_id := Py.slice data pos (pos + 4) in
        match unpack_le_u32 (Py.slice data (pos + 4) (pos + 8)) with
        | None => Some (inl StructError)
        | Some subchunk_size =>
            if bool_decide (subchunk_id = STT.data) then
              let wave := Py.slice data (pos + 8) (pos + 8 + subchunk_size) in
              if channels * (bits_per_sample / 8) =? 0
              then Some (inl ZeroDivisionError)
              else Some (inr (mkInfo channels (bits_per_sample / 8) sample_rate
                            (subchunk_size / (channels * (bits_per_sample / 8)))
                            wave))
            else find_data fuel' data channels bits_per_sample sample_rate
                   (pos + (8 + subchunk_size))
        end
      else Some (inl ValueError)
  end.

(** [AudioProcessor.read_wav_info]. *)
Definition read_wav_info (data : Py.bytes) : option (wav_error + wav_info) :=
  if Py.len data <? 44 then Some (inl ValueError)
  else if negb (bool_decide (Py.slice data 0 4 = STT.RIFF))
  then Some (inl ValueError)
  else if negb (bool_decide (Py.slice data 8 12 = STT.WAVE))
  then Some (inl ValueError)
  else
    match unpack_le_u16 (Py.slice data 20 22),
          unpack_le_u16 (Py.slice data 22 24),
          unpack_le_u32 (Py.slice data 24 28),
          unpack_le_u16 (Py.slice data 34 36) with
    | Some _, Some channels, Some sample_rate, Some bits_per_sample =>
        find_data (S (length data)) data channels bits_per_sample sample_rate 36
    | _, _, _, _ => Some (inl StructError)
    end.

(** [AudioProcessor.get_segment_size]: the exception is logged and raised
    again. *)
Definition get_segment_size (content : Py.bytes) (segment_duration : Z)
  : option (wav_error + Z) :=
  match read_wav_info content with
  | None => None
  | Some (inl e) => Some (inl e)
  | Some (inr i) =>
      let size_per_sec := num_channels i * samp_width i * frame_rate i in
      Some (inr (size_per_sec * segment_duration / 1000))
  end.

(** [range(0, stop, step)] for a positive step. *)
Definition range_step (stop step : Z) : list Z :=
  (fun k => k * step) <$> seqZ 0 ((stop + step - 1) / step).

(** [AudioProcessor.split_audio]. *)
Definition split_audio (data : Py.bytes) (segment_size : Z) : list Py.bytes :=
  if segment_size <=? 0 then []
  else
    (fun i =>
       let end_ := i + segment_size in
       let end_ := if Py.len data <? end_ then Py.len data else end_ in
       Py.slice data i end_) <$> range_step (Py.len data) segment_size.

End Wav.

(* ===================================================================== *)
(** ** STT response parser and text extraction ([stt_client.py]) *)
(* ===================================================================== *)

Module STTParse.

(** What [json.loads] returns.  [JNull] is Python's [None]; a float is kept
    abstract, only its truth value is needed.  A [dict] is the list of its
    items, a key being looked up from the front. *)
#[warnings="-register-all"] Inductive value (pyfloat : Type) :=
| JNull
| JBool (b : bool)
| JInt (z : Z)
| JFloat (f : pyfloat)
| JStr (s : string)
| JList (l : list (value pyfloat))
| JDict (d : list (string * value pyfloat)).

Arguments JNull {pyfloat}.
Arguments JBool {pyfloat} b.
Arguments JInt {pyfloat} z.
Arguments JFloat {pyfloat} f.
Arguments JStr {pyfloat} s.
Arguments JList {pyfloat} l.
Arguments JDict {pyfloat} d.

(** [struct.unpack('>i', b)] and [struct.unpack('>I', b)]: struct.error
    unless [b] has exactly four bytes. *)
Definition unpack_be_i32 (b : Py.bytes) : option Z :=
  match b with
  | [_; _; _; _] => Some (Py.from_bytes_signed b)
  | _ => None
  end.

Definition unpack_be_u32 (b : Py.bytes) : option Z :=
  match b with
  | [_; _; _; _] => Some (Py.from_bytes_unsigned b)
  | _ => None
  end.

(** [l[a:]]. *)
Definition slice_from {A} (l : list A) (a : Z) : list A :=
  Py.slice l a (Py.len l).

Inductive parse_exn := IndexError | StructError.

Section Parser.

Context {pyfloat : Type}.
Context (float_truthy : pyfloat -> bool).
(** [gzip.decompress] and [json.loads(payload.decode('utf-8'))]; [None] is
    any exception they raise. *)
Context (gzip_decompress : Py.bytes -> option Py.bytes).
Context (json_loads : Py.bytes -> option (value pyfloat)).

Abbreviation value := (value pyfloat).

(** [d[k]] for a key that may be absent. *)
Fixpoint dict_get (d : list (string * value)) (k : string) : option value :=
  match d with
  | [] => None
  | (k', v) :: d' => if String.eqb k k' then Some v else dict_get d' k
  end.

(** Truth value of an object in a boolean context. *)
Definition truthy (v : value) : bool :=
  match v with
  | JNull => false
  | JBool b => b
  | JInt z => Py.truthy z
  | JFloat f => float_truthy f
  | JStr s => negb (String.eqb s "")
  | JList l => match l with [] => false | _ => true end
  | JDict d => match d with [] => false | _ => true end
  end.

(** [class STTResponse]. *)
Record STTResponse := mkResponse {
  code : Z;
  event : Z;
  is_last_package : bool;
  payload_sequence : Z;
  payload_size : Z;
  payload_msg : value;
  text : value;
  final : value
}.

Definition new_STTResponse : STTResponse :=
  mkResponse 0 0 false 0 0 JNull (JStr "") (JBool false).

Definition set_code (r : STTResponse) (v : Z) : STTResponse :=
  mkResponse v (event r) (is_last_package r) (payload_sequence r)
             (payload_size r) (payload_msg r) (text r) (final r).
Definition set_event (r : STTResponse) (v : Z) : STTResponse :=
  mkResponse (code r) v (is_last_package r) (payload_sequence r)
             (payload_size r) (payload_msg r) (text r) (final r).
Definition set_is_last_package (r : STTResponse) (v : bool) : STTResponse :=
  mkResponse (code r) (event r) v (payload_sequence r)
             (payload_size r) (payload_msg r) (text r) (final r).
Definition set_payload_sequence (r : STTResponse) (v : Z) : STTResponse :=
  mkResponse (code r) (event r) (is_last_package r) v
             (payload_size r) (payload_msg r) (text r) (final r).
Definition set_payload_size (r : STTResponse) (v : Z) : STTResponse :=
  mkResponse (code r) (event r) (is_last_package r) (payload_sequence r)
             v (payload_msg r) (text r) (final r).
Definition set_payload_msg (r : STTResponse) (v : value) : STTResponse :=
  mkResponse (code r) (event r) (is_last_package r) (payload_sequence r)
             (payload_size r) v (text r) (final r).
Definition set_text_final (r : STTResponse) (t f : value) : STTResponse :=
  mkResponse (code r) (event r) (is_last_package r) (payload_sequence r)
             (payload_size r) (payload_msg r) t f.

(** The part of [parse_response] that reads the optional sequence and event
    fields announced by the flags. *)
Definition read_flag_fields (flags : Z) (r : STTResponse) (payload : Py.bytes)
  : parse_exn + (STTResponse * Py.bytes) :=
  match
    (if Py.truthy (Z.land flags 1) then
       match unpack_be_i32 (Py.slice payload 0 4) with
       | Some s => inr (set_payload_sequence r s, slice_from payload 4)
       | None => inl StructError
       end
     else inr (r, payload))
  with
  | inl e => inl e
  | inr (r, payload) =>
      let r := if Py.truthy (Z.land flags 2)
               then set_is_last_package r true else r in
      if Py.truthy (Z.land flags 4) then
        match unpack_be_i32 (Py.slice payload 0 4) with
        | Some ev => inr (set_event r ev, slice_from payload 4)
        | None => inl StructError
        end
      else inr (r, payload)
  end.

(** The part that depends on the message type. *)
Definition read_type_fields (message_type : Z) (r : STTResponse)
    (payload : Py.bytes) : parse_exn + (STTResponse * Py.bytes) :=
  if message_type =? STT.SERVER_FULL_RESPONSE then
    match unpack_be_u32 (Py.slice payload 0 4) with
    | Some sz => inr (set_payload_size r sz, slice_from payload 4)
    | None => inl StructError
    end
  else if message_type =? STT.SERVER_ERROR_RESPONSE then
    match unpack_be_i32 (Py.slice payload 0 4) with
    | Some c =>
        match unpack_be_u32 (Py.slice payload 4 8) with
        | Some sz =>
            inr (set_payload_size (set_code r c) sz, slice_from payload 8)
        | None => inl StructError
        end
    | None => inl StructError
    end
  else inr (r, payload).

(** The [try] block that parses the payload; every exception in it is
    logged and the response returned as it stands. *)
Definition read_payload (serialization_method : Z) (r : STTResponse)
    (payload : Py.bytes) : STTResponse :=
  if serialization_method =? STT.JSON then
    match json_loads payload with
    | None => r
    | Some v =>
        let r := set_payload_msg r v in
        match v with
        | JDict d =>
            if truthy v then
              match dict_get d "result" with
              | Some (JDict result) =>
                  match dict_get result "text" with
                  | Some t =>
                      set_text_final r t
                        (default (JBool false) (dict_get result "final"))
                  | None => r
                  end
              | _ => r
              end
            else r
        | _ => r
        end
    end
  else r.

(** [ResponseParser.parse_response]. *)
Definition parse_response (msg : Py.bytes) : parse_exn + STTResponse :=
  match Py.index msg 0, Py.index msg 1, Py.index msg 2 with
  | Some m0, Some m1, Some m2 =>
      let header_size := Z.land m0 15 in
      let message_type := Z.shiftr m1 4 in
      let message_type_specific_flags := Z.land m1 15 in
      let serialization_method := Z.shiftr m2 4 in
      let message_compression := Z.land m2 15 in
      let payload := slice_from msg (header_size * 4) in
      match read_flag_fields message_type_specific_flags new_STTResponse
              payload with
      | inl e => inl e
      | inr (r, payload) =>
          match read_type_fields message_type r payload with
          | inl e => inl e
          | inr (r, payload) =>
              match payload with
              | [] => inr r
              | _ =>
                  if message_compression =? STT.COMPRESSION_GZIP then
                    match gzip_decompress payload with
                    | None => inr r
                    | Some payload =>
                        inr (read_payload serialization_method r payload)
                    end
                  else inr (read_payload serialization_method r payload)
              end
          end
      end
  | _, _, _ => inl IndexError
  end.

(** [x.get('text', '')]; [None] is the AttributeError of an object that is
    no [dict]. *)
Definition get_text (x : value) : option value :=
  match x with
  | JDict d => Some (default (JStr "") (dict_get d "text"))
  | _ => None
  end.

(** [SpeechToTextProcessor._extract_text].  An exception inside the [try]
    is logged and the empty string returned. *)
Definition _extract_text (response : STTResponse) : value :=
  if negb (truthy (payload_msg response)) then JStr ""
  else
    match payload_msg response with
    | JDict d =>
        let from_result :=
          match dict_get d "result" with
          | Some (JDict result) => dict_get result "text"
          | Some (JStr s) => Some (JStr s)
          | _ => None
          end in
        match from_result with
        | Some t => t
        | None =>
            match dict_get d "text" with
            | Some t => t
            | None =>
                let from_sentence :=
                  match dict_get d "sentence" with
                  | Some (JList (x :: _)) =>
                      Some (default (JStr "") (get_text x))
                  | Some (JDict s) =>
                      Some (default (JStr "") (dict_get s "text"))
                  | _ => None
                  end in
                match from_sentence with
                | Some t => t
                | None =>
                    match dict_get d "utterances" with
                    | Some (JList (x :: _)) => default (JStr "") (get_text x)
                    | _ => JStr ""
                    end
                end
            end
        end
    | _ => JStr ""
    end.

(** [SpeechToTextProcessor._is_final_result]: the object the method returns,
    which the caller tests for its truth value. *)
Definition _is_final_result (response : STTResponse) : value :=
  if negb (truthy (payload_msg response)) then JBool false
  else
    match payload_msg response with
    | JDict d =>
        match dict_get d "is_final" with
        | Some v => v
        | None =>
            match dict_get d "result" with
            | Some (JDict result) =>
                match dict_get result "is_final" with
                | Some v => v
                | None => JBool (is_last_package response)
                end
            | _ => JBool (is_last_package response)
            end
        end
    | _ => JBool (is_last_package response)
    end.

(** [class SpeechToTextProcessor]. *)
Record SpeechToTextProcessor := mkProcessor {
  current_text : value;
  final_text : value;
  is_processing : bool
}.

Definition new_processor : SpeechToTextProcessor :=
  mkProcessor (JStr "") (JStr "") false.

(** What [process_response] returns: the empty string, or the text behind
    one of the two fixed prefixes. *)
Inductive processed :=
| Empty
| FinalResult (t : value)
| Recognising (t : value).

(** [SpeechToTextProcessor.process_response]. *)
Definition process_response (p : SpeechToTextProcessor) (response : STTResponse)
  : processed * SpeechToTextProcessor :=
  if negb (code response =? 0) then (Empty, p)
  else
    let t := _extract_text response in
    if negb (truthy t) then (Empty, p)
    else if truthy (_is_final_result response)
    then (FinalResult t, mkProcessor (current_text p) t false)
    else (Recognising t, mkProcessor t (final_text p) true).

End Parser.

(** A server response with sequence number 1 whose JSON payload, once
    loaded, is [{"result": {"text": "hi"}}]. *)
Definition hi_frame : Py.bytes :=
  [17; 145; 16; 0; 0; 0; 0; 1; 0; 0; 0; 2; 123; 125].

Definition hi_payload : value unit :=
  JDict
    [("result"%string, JDict [("text"%string, JStr "hi")])].

Definition hi_response : @STTResponse unit :=
  mkResponse 0 0 false 1 2 hi_payload (JStr "hi")
    (JBool false).

End STTParse.

(* ===================================================================== *)
(** ** TTS message handler ([tts_client.py]) *)
(* ===================================================================== *)

Module TTSHandler.

Section Handler.

Context {pystr : Type}.
Context (bytes_decode : Py.bytes -> option pystr).

(** [TTSClient._handle_message]: the payload, [None], or [b''] at the end of
    the session.  Whatever the [try] block raises, the TTSSessionError of an
    error frame included, is logged and [None] returned. *)
Definition _handle_message (message : TTS.ws_message) : option Py.bytes :=
  match TTS._parse_response bytes_decode message with
  | inl _ => None
  | inr response =>
      let message_type := TTS.message_type (TTS.header response) in
      let event := TTS.event (TTS.optional response) in
      if message_type =? TTS.ERROR_INFORMATION then None
      else if (event =? TTS.EVENT_TTSResponse)
              && (message_type =? TTS.AUDIO_ONLY_RESPONSE)
      then TTS.payload response
      else if (event =? TTS.EVENT_TTSSentenceStart)
              || (event =? TTS.EVENT_TTSSentenceEnd)
      then None
      else if event =? TTS.EVENT_SessionFinished then Some []
      else None
  end.

End Handler.

End TTSHandler.

(* ===================================================================== *)
(** ** Observations on a run of the pipeline *)
(* ===================================================================== *)

Module PipelineRun.

Import Registry Pipeline.

(** The events that end a stream. *)
Definition is_terminal (ev : event) : bool :=
  match ev with
  | EvComplete _ _ | EvCancelled _ | EvError _ => true
  | _ => false
  end.

Definition is_cancelled_event (ev : event) : bool :=
  match ev with EvCancelled _ => true | _ => false end.

(** No room of the index has an empty set of sessions. *)
Definition no_empty_room (r : registry) : Prop :=
  forall l sessions, live_to_sessions r !! l = Some sessions -> sessions <> ∅.

(** Both registry tables are the same in [r] and [r']. *)
Definition same_tables (r r' : registry) : Prop :=
  active_streams r' = active_streams r
  /\ live_to_sessions r' = live_to_sessions r.

(** The text chunks of the LLM's responses, in order. *)
Definition llm_text (responses : list (option pystr)) : pystr :=
  concat (omap id responses).

(** From [s] to [s'] the registry has not changed and only events that do
    not end the stream have been emitted. *)
Definition goes_on (s s' : pstate) : Prop :=
  reg s' = reg s
  /\ exists new, emitted s' = emitted s ++ new
                 /\ Forall (fun ev => is_terminal ev = false) new.

(** A pipeline state with one more call of [safe_tts_synthesize] noted. *)
Definition note_tts_call (text : pystr) (s : pstate) : pstate :=
  mkState (reg s) (tick s) (emitted s) (avatar_calls s) (tts_calls s ++ [text])
          (attempts s) (sentences s) (finish_calls s).

(** A schedule on which no other handler ever runs. *)
Definition idle : nat -> list other := fun _ => [].

(** The query of [one_sentence], asked without naming a room. *)
Definition roomless (schedule : nat -> list other) : env :=
  mkEnv "s1" [72; 105; 63] None true
        [Some [72; 105; 46]] false
        (fun _ => EnsureOpen)
        (fun _ => mkAttempt EnsureOpen [[1; 2]; [3; 4]] true)
        (fun _ => true)
        schedule.

End PipelineRun.

(* ===================================================================== *)
(** ** The stream registry as a whole ([backend_server.py]) *)
(* ===================================================================== *)

Module RegistryOps.

Import Registry PipelineRun.

(** Every registered session with a room is in the index of that room. *)
Definition complete (r : registry) : Prop :=
  forall sid st l,
    active_streams r !! sid = Some st -> stream_live_id st = Some l ->
    truthy_str (Some l) = true ->
    exists sessions, live_to_sessions r !! l = Some sessions /\ sid ∈ sessions.

(** No two registered sessions share a cancel event. *)
Definition distinct_events (r : registry) : Prop :=
  forall sid1 sid2 st1 st2,
    active_streams r !! sid1 = Some st1 -> active_streams r !! sid2 = Some st2 ->
    cancel_event st1 = cancel_event st2 -> sid1 = sid2.

(** The events of the registered sessions were all created already. *)
Definition allocated (r : registry) : Prop :=
  forall sid st,
    active_streams r !! sid = Some st -> (cancel_event st < next_event r)%nat.

Record well_formed (r : registry) : Prop := mkWf {
  wf_consistent : consistent r;
  wf_complete : complete r;
  wf_no_empty : no_empty_room r;
  wf_distinct : distinct_events r;
  wf_allocated : allocated r
}.

(** What the handlers of the server do to the registry.  A session id is
    registered only while it is not registered. *)
Inductive step : registry -> registry -> Prop :=
| step_register sid live r :
    active_streams r !! sid = None ->
    step r (register_stream_session sid live r).2
| step_cancel sid r :
    step r (cancel_stream_by_session sid r).2
| step_cancel_room l r :
    step r (cancel_streams_by_live_id l r).2
| step_cleanup sid r :
    step r (cleanup_stream_session sid r).

(** The sessions the index lists for a room. *)
Definition room (r : registry) (l : string) : gset string :=
  default ∅ (live_to_sessions r !! l).

(** Three sessions in two rooms. *)
Definition three_sessions : registry :=
  (register_stream_session "s3" (Some "b")
     (register_stream_session "s2" (Some "a")
        (register_stream_session "s1" (Some "a") empty).2).2).2.

End RegistryOps.

(* ===================================================================== *)
(** ** The periodic sweep of the coordinator's tables ([backend_server.py]) *)
(* ===================================================================== *)

Module Sweep.

Import Coordinator.

(** One pass of the [while True] body of [cleanup_pending_requests], up to
    its [await asyncio.sleep(30)], with [current_time] the clock it reads:
    entries of done tasks leave [pending_requests], failure records older
    than the cooldown leave [failed_requests]. *)
Definition sweep (current_time : float) (s : state) : state :=
  let pending :=
    filter (fun kv => task_done s kv.2 = false) (pending_requests s) in
  let failed :=
    filter (fun kv =>
              PrimFloat.ltb COOLDOWN_PERIOD (PrimFloat.sub current_time kv.2)
              = false)
           (failed_requests s) in
  set_failed failed (set_pending pending s).

(** [s1] and [s2] differ by what the sweep at clock [t] removes: the same
    client, sessions and tasks, the same rooms with a join in flight, and
    the failure records of [s1] are those of [s2] that the sweep keeps. *)
Definition alike (t : float) (s1 s2 : state) : Prop :=
  digital_human_client s1 = digital_human_client s2
  /\ active_sessions s1 = active_sessions s2
  /\ tasks s1 = tasks s2
  /\ (forall l, join_pending s1 l = join_pending s2 l)
  /\ failed_requests s1
     = filter (fun kv =>
                 PrimFloat.ltb COOLDOWN_PERIOD (PrimFloat.sub t kv.2) = false)
              (failed_requests s2).

(** A server on which room "old" failed at clock 0 and room "new" at
    clock 25, and a finished join of room "old" is still listed. *)
Definition littered_server : state :=
  set_failed {[ "old" := 0%float; "new" := 25%float ]}
    (set_pending {[ "old" := 0%nat ]} (set_tasks [true] fresh_server)).

End Sweep.

(* ===================================================================== *)
(** ** The avatar client: connecting, starting a room, configuration
       ([digital_human_client.py]) *)
(* ===================================================================== *)

Module AvatarLive.

Import Avatar.

(** *** [connect] *)

Record strategy := mkStrategy {
  verify_ssl : bool;
  timeout : Q
}.

Definition connection_strategies : list strategy :=
  [ mkStrategy true 25; mkStrategy false 25; mkStrategy false 35 ].

(** How [asyncio.wait_for(websockets.connect(...), timeout)] ends: with a
    socket in some state, or with an exception, sorted as the [except]
    clauses of [connect] sort them. *)
Inductive handshake :=
| Socket (st : ws_state)
| HandshakeTimeout
| InvalidStatusCode
| HandshakeClosed
| HandshakeError
| HandshakeCancelled.

(** The value of [last_error] by its class. *)
Inductive last_error :=
| LastTimeout
| LastInvalidStatus
| LastConnectionClosed
| LastOther.

(** The message of the DigitalHumanError raised when every strategy has
    failed. *)
Inductive connect_failure :=
| ConnectTimedOut
| ServerAnswerAbnormal
| HandshakeFailed
| ConnectFailedWith.

Inductive connect_outcome :=
| ConnectTrue
| ConnectRaise (m : connect_failure)
| ConnectCancelled.

Inductive connect_action :=
| AHandshake (s : strategy)
| ASleep2.

Definition failure_of (e : option last_error) : connect_failure :=
  match e with
  | Some LastTimeout => ConnectTimedOut
  | Some LastInvalidStatus => ServerAnswerAbnormal
  | Some LastConnectionClosed => HandshakeFailed
  | _ => ConnectFailedWith
  end.

(** The [for i, strategy in enumerate(connection_strategies)] loop from
    index [i] on; [net i] is how the handshake of attempt [i] ends, and
    [sleep_ok i] whether the [asyncio.sleep(2)] after it completes or is
    cancelled. *)
Fixpoint connect_loop (net : nat -> handshake) (sleep_ok : nat -> bool)
    (strategies : list strategy) (i : nat) (last : option last_error)
    (c : DigitalHumanClient)
  : connect_outcome * DigitalHumanClient * list connect_action :=
  match strategies with
  | [] => (ConnectRaise (failure_of last), c, [])
  | strategy :: rest =>
      let failed (e : last_error) (c : DigitalHumanClient) :=
        if (i <? length connection_strategies - 1)%nat then
          if sleep_ok i then
            let '(r, c, t) :=
              connect_loop net sleep_ok rest (S i) (Some e) c in
            (r, c, AHandshake strategy :: ASleep2 :: t)
          else (ConnectCancelled, c, [AHandshake strategy; ASleep2])
        else
          let '(r, c, t) :=
            connect_loop net sleep_ok rest (S i) (Some e) c in
          (r, c, AHandshake strategy :: t) in
      match net i with
      | Socket st =>
          let c := mkClient (Some st) (live_id c) in
          if bool_decide (st = OPEN) then (ConnectTrue, c, [AHandshake strategy])
          else failed LastOther c
      | HandshakeTimeout => failed LastTimeout c
      | InvalidStatusCode => failed LastInvalidStatus c
      | HandshakeClosed => failed LastConnectionClosed c
      | HandshakeError => failed LastOther c
      | HandshakeCancelled => (ConnectCancelled, c, [AHandshake strategy])
      end
  end.

(** [DigitalHumanClient.connect]. *)
Definition connect (net : nat -> handshake) (sleep_ok : nat -> bool)
    (c : DigitalHumanClient)
  : connect_outcome * DigitalHumanClient * list connect_action :=
  connect_loop net sleep_ok connection_strategies 0 None c.

Definition handshakes (t : list connect_action) : list strategy :=
  omap (fun a => match a with AHandshake s => Some s | ASleep2 => None end) t.

Definition sleeps (t : list connect_action) : nat :=
  length (omap (fun a => match a with ASleep2 => Some tt | _ => None end) t).

(** *** [_start_live_internal] *)

(** How [asyncio.wait_for(self.websocket.recv(), ...)] ends.  The test of
    the clock at the head of the loop raises the same TimeoutError as a
    [recv] that runs out of time, so it is an [RRaise TimeoutError] here. *)
Inductive recv :=
| RText (s : string)
| RBytes
| RRaise (e : exn).

(** The messages of the DigitalHumanErrors of [_start_live_internal]. *)
Inductive start_failure :=
| NotConnected
| FailedToStart
| InvalidResponse
| ServerError
| InvalidErrorResponse
| UnexpectedResponse
| ResponseTimeout
| Disconnected.

Inductive start_outcome {pyfloat : Type} :=
| Started (message : STTParse.value pyfloat)
| StartRaise (m : start_failure)
| StartRaiseExn (e : exn)
| StartRaiseOther.

Arguments start_outcome : clear implicits.

(** [s[8:]]. *)
Definition body_of (s : string) : string :=
  String.substring 8 (String.length s - 8) s.

Section StartLive.

Context {pyfloat : Type}.
Context (float_eq : pyfloat -> Z -> bool).
(** [json.loads]; [None] is the JSONDecodeError. *)
Context (json_loads : string -> option (STTParse.value pyfloat)).

(** [v == n] for an integer [n]. *)
Definition eq_int (v : STTParse.value pyfloat) (n : Z) : bool :=
  match v with
  | STTParse.JInt z => z =? n
  | STTParse.JFloat f => float_eq f n
  | STTParse.JBool b => (if b then 1 else 0) =? n
  | _ => false
  end.

(** The [while True] loop that waits for the confirmation.  When nothing
    more arrives the pending [recv] runs out of time. *)
Fixpoint wait_confirmation (incoming : list recv) : start_outcome pyfloat :=
  match incoming with
  | [] => StartRaise ResponseTimeout
  | RRaise TimeoutError :: _ => StartRaise ResponseTimeout
  | RRaise ConnectionClosed :: _ => StartRaise Disconnected
  | RRaise e :: _ => StartRaiseExn e
  | RBytes :: _ => StartRaiseOther
  | RText response :: rest =>
      if String.prefix "|MSG|00|" response then
        match json_loads (body_of response) with
        | None => StartRaise InvalidResponse
        | Some (STTParse.JDict result) =>
            if eq_int (default STTParse.JNull (STTParse.dict_get result "code"))
                      1000
            then Started (default (STTParse.JStr "success")
                            (STTParse.dict_get result "message"))
            else StartRaise FailedToStart
        | Some _ => StartRaiseOther
        end
      else if String.prefix "|MSG|02|" response then wait_confirmation rest
      else if String.prefix "|MSG|01|" response then
        match json_loads (body_of response) with
        | None => StartRaise InvalidErrorResponse
        | Some (STTParse.JDict _) => StartRaise ServerError
        | Some _ => StartRaiseOther
        end
      else StartRaise UnexpectedResponse
  end.

(** [_start_live_internal]: the outcome, the client, and whether the
    initialisation message was handed to [websocket.send]. *)
Definition _start_live_internal (live : string) (send : await_result)
    (incoming : list recv) (c : DigitalHumanClient)
  : start_outcome pyfloat * DigitalHumanClient * bool :=
  match websocket c with
  | None => (StartRaise NotConnected, c, false)
  | Some _ =>
      let c := mkClient (websocket c) (Some live) in
      match send with
      | Raise e => (StartRaiseExn e, c, true)
      | Ok => (wait_confirmation incoming, c, true)
      end
  end.

End StartLive.

(** *** Configuration helpers *)

Record video_config := mkVideo {
  video_width : Z;
  video_height : Z;
  bitrate : Z
}.

(** [create_video_config]. *)
Definition create_video_config (width height rate : Z) : video_config :=
  mkVideo (Z.max 240 (Z.min 1920 width)) (Z.max 240 (Z.min 1920 height))
          (Z.max 100 (Z.min 8000 rate)).

(** The dictionary [create_role_config] returns: an absent key is [None]. *)
Record role_config := mkRole {
  role_width : option Z;
  role_left_offset : option Z;
  role_top_offset : option Z
}.

(** [create_role_config]. *)
Definition create_role_config (width left_offset top_offset : option Z)
  : role_config :=
  mkRole ((fun w => Z.max 100 (Z.min 5760 w)) <$> width)
         left_offset
         ((fun t => Z.max 0 t) <$> top_offset).

(** A service whose first handshake times out and whose second succeeds. *)
Definition second_try (i : nat) : handshake :=
  match i with
  | O => HandshakeTimeout
  | _ => Socket OPEN
  end.

End AvatarLive.

(* ===================================================================== *)
(** ** Leaving a room and resetting the server ([backend_server.py]) *)
(* ===================================================================== *)

Module Lifecycle.

Import Avatar Registry Coordinator.

(** The globals the two handlers work on.  Each handler is run from its
    first line to its last with no other handler in between; what the
    handler awaits is given by a record of oracles. *)
Record server := mkServer {
  coord : Coordinator.state;
  streams : registry
}.

(** The [try: await ... except Exception] around the TTS and STT clients:
    an Exception is logged, anything else goes on to the caller. *)
Definition swallowed (a : await_result) : option exn :=
  match a with
  | Ok => None
  | Raise e => if is_Exception e then None else Some e
  end.

(** *** [leave_room] *)

Record leave_net := mkLeaveNet {
  stop_send : await_result;
  state_after_stop_live : ws_state;
  avatar : net;
  tts_disconnect : await_result;
  stt_disconnect : await_result
}.

Inductive leave_result :=
| LeaveOk (cleaned_up : bool)
| LeaveRaise (e : exn).

(** Lines 1163-1209: what [leave_room] does with the avatar client. *)
Definition leave_avatar (n : leave_net) (live : string) (c : DigitalHumanClient)
  : option exn * DigitalHumanClient :=
  let '(o1, c1) :=
    match websocket c with
    | Some _ =>
        if is_connected c && bool_decide (live_id c = Some live) then
          let '(o, c', t) := stop_live c (stop_send n) in
          let c' :=
            match t with
            | [] => c'
            | _ => mkClient (socket_becomes (state_after_stop_live n)
                               (websocket c')) (live_id c')
            end in
          (match o with
           | Returned => None
           | Raised e => if is_Exception e then None else Some e
           end, c')
        else (None, c)
    | None => (None, c)
    end in
  match o1 with
  | Some e => (Some e, c1)
  | None =>
      let c2 := if bool_decide (live_id c1 = Some live)
                then mkClient (websocket c1) None else c1 in
      match websocket c2 with
      | Some st =>
          if bool_decide (st = CLOSED) then (None, c2)
          else
            let '(o, c3, _) := disconnect c2 (avatar n) in
            (match o with
             | Returned => None
             | Raised e => if is_Exception e then None else Some e
             end, c3)
      | None => (None, c2)
      end
  end.

(** [leave_room].  [pending_task.cancel()] only asks the task to stop, so
    the list of tasks is as it was. *)
Definition leave_room (n : leave_net) (live : string) (w : server)
  : leave_result * server :=
  let r := (cancel_streams_by_live_id live (streams w)).2 in
  let s := set_pending (delete live (pending_requests (coord w))) (coord w) in
  match active_sessions s !! live with
  | None => (LeaveOk false, mkServer s r)
  | Some _ =>
      let '(o, s) :=
        match digital_human_client s with
        | None => (None, s)
        | Some c =>
            let '(o, c') := leave_avatar n live c in
            (o, set_client (Some c') s)
        end in
      match o with
      | Some e => (LeaveRaise e, mkServer s r)
      | None =>
          let s := set_active (delete live (active_sessions s)) s in
          match swallowed (tts_disconnect n) with
          | Some e => (LeaveRaise e, mkServer s r)
          | None =>
              match swallowed (stt_disconnect n) with
              | Some e => (LeaveRaise e, mkServer s r)
              | None => (LeaveOk true, mkServer s r)
              end
          end
      end
  end.

(** *** [reset_connections] *)

Record reset_net := mkResetNet {
  reset_avatar : net;
  reset_tts : await_result;
  reset_stt : await_result
}.

Inductive reset_result :=
| ResetOk (cleaned_sessions cancelled_requests : Z)
| ResetRaise (e : exn).

(** [for session_id in list(active_streams.keys()):
       cancel_stream_by_session(session_id)]. *)
Definition cancel_all (r : registry) : registry :=
  fold_left (fun r sid => (cancel_stream_by_session sid r).2)
            (map_to_list (active_streams r)).*1 r.

(** [reset_connections]. *)
Definition reset_connections (n : reset_net) (w : server)
  : reset_result * server :=
  let s := set_pending ∅ (coord w) in
  let r := cancel_all (streams w) in
  let '(o, s) :=
    match digital_human_client s with
    | None => (None, s)
    | Some c =>
        let '(o, c', _) := disconnect c (reset_avatar n) in
        (match o with
         | Returned => None
         | Raised e => if is_Exception e then None else Some e
         end, set_client (Some c') s)
    end in
  match o with
  | Some e => (ResetRaise e, mkServer s r)
  | None =>
      match swallowed (reset_tts n) with
      | Some e => (ResetRaise e, mkServer s r)
      | None =>
          match swallowed (reset_stt n) with
          | Some e => (ResetRaise e, mkServer s r)
          | None =>
              let s := set_active ∅ s in
              let r := mkRegistry ∅ ∅ (events r) (next_event r) in
              (ResetOk (Z.of_nat (size (active_sessions s)))
                       (Z.of_nat (size (pending_requests s))),
               mkServer s r)
          end
      end
  end.

(** The server after a successful join of room "a", with the sessions of
    [three_sessions] streaming. *)
Definition busy_server : server :=
  mkServer
    (set_active {[ "a" := mkSession "active" ]}
       (set_client (Some (mkClient (Some OPEN) (Some "a"))) fresh_server))
    RegistryOps.three_sessions.

Definition calm : leave_net := mkLeaveNet Ok OPEN quiet Ok Ok.

Definition calm_reset : reset_net := mkResetNet quiet Ok Ok.

End Lifecycle.

(* ===================================================================== *)
(** * Properties *)
(* ===================================================================== *)

(** ** Integers and slices *)

Lemma len_app {A} (a b : list A) : Py.len (a ++ b) = Py.len a + Py.len b.
Proof. unfold Py.len. rewrite length_app. lia. Qed.

Lemma len_nonneg {A} (l : list A) : 0 <= Py.len l.
Proof. unfold Py.len. lia. Qed.

Lemma slice_bound_id n i : 0 <= i <= n -> Py.slice_bound n i = i.
Proof.
  intros H. unfold Py.slice_bound.
  destruct (Z.ltb_spec i 0); lia.
Qed.

(** The slice that starts where [pre] ends and is as long as [mid]. *)
Lemma slice_mid {A} (pre mid post : list A) (a b : Z) :
  a = Py.len pre -> b = a + Py.len mid ->
  Py.slice (pre ++ mid ++ post) a b = mid.
Proof.
  intros -> ->. unfold Py.slice.
  pose proof (len_nonneg pre). pose proof (len_nonneg mid).
  pose proof (len_nonneg post).
  rewrite !slice_bound_id by (rewrite !len_app; lia).
  replace (Z.to_nat (Py.len pre)) with (length pre) by (unfold Py.len; lia).
  replace (Z.to_nat (Py.len pre + Py.len mid - Py.len pre)) with (length mid)
    by (unfold Py.len; lia).
  rewrite drop_app_length. apply take_app_length.
Qed.

Lemma index_lookup {A} (l : list A) (i : nat) (x : A) :
  l !! i = Some x -> Py.index l (Z.of_nat i) = Some x.
Proof.
  intros H. pose proof (lookup_lt_Some _ _ _ H) as Hlt.
  unfold Py.index, Py.len.
  destruct (Z.leb_spec 0 (Z.of_nat i)); [|lia].
  destruct (Z.ltb_spec (Z.of_nat i) (Z.of_nat (length l))); [|lia].
  simpl. by rewrite Nat2Z.id.
Qed.

Lemma be4_unsigned u : 0 <= u < 2 ^ 32 -> Py.from_bytes_unsigned (Py.be4 u) = u.
Proof.
  intros H. unfold Py.from_bytes_unsigned, Py.be4. simpl.
  change 255 with (Z.ones 8). rewrite !Z.land_ones by lia.
  rewrite !Z.shiftr_div_pow2 by lia.
  change (2 ^ 8) with 256. change (2 ^ 16) with 65536.
  change (2 ^ 24) with 16777216. change (2 ^ 32) with 4294967296 in H.
  Z.div_mod_to_equations. lia.
Qed.

Lemma be4_signed x :
  - 2 ^ 31 <= x < 2 ^ 31 -> Py.from_bytes_signed (Py.be4 (x mod 2 ^ 32)) = x.
Proof.
  intros H. unfold Py.from_bytes_signed.
  assert (Hu : 0 <= x mod 2 ^ 32 < 2 ^ 32) by (apply Z.mod_pos_bound; lia).
  rewrite be4_unsigned by exact Hu.
  change (8 * Py.len (Py.be4 (x mod 2 ^ 32))) with 32.
  change (32 =? 0) with false. cbv iota.
  change (2 ^ (32 - 1)) with 2147483648. change (2 ^ 32) with 4294967296 in *.
  change (2 ^ 31) with 2147483648 in H.
  destruct (Z.leb_spec 2147483648 (x mod 4294967296));
    Z.div_mod_to_equations; lia.
Qed.

Lemma to_bytes4_signed_ok x :
  - 2 ^ 31 <= x < 2 ^ 31 ->
  Py.to_bytes4_signed x = Some (Py.be4 (x mod 2 ^ 32)).
Proof.
  intros H. unfold Py.to_bytes4_signed.
  destruct (Z.leb_spec (- 2 ^ 31) x); [|lia].
  destruct (Z.ltb_spec x (2 ^ 31)); [|lia]. reflexivity.
Qed.

Lemma len_be4 u : Py.len (Py.be4 u) = 4.
Proof. reflexivity. Qed.

(** Two four-bit fields packed in one byte come apart again. *)
Lemma nibbles a b :
  TTS.four_bit a = true -> TTS.four_bit b = true ->
  let byte := Z.lor (Z.shiftl a 4) b in
  Py.byte_ok byte = true
  /\ Z.land (Z.shiftr byte 4) 15 = a /\ Z.land byte 15 = b.
Proof.
  intros Ha Hb.
  assert (Hall : forallb (fun a => forallb (fun b =>
            let byte := Z.lor (Z.shiftl a 4) b in
            Py.byte_ok byte && (Z.land (Z.shiftr byte 4) 15 =? a)
            && (Z.land byte 15 =? b)) (seqZ 0 16)) (seqZ 0 16) = true)
    by (vm_compute; reflexivity).
  unfold TTS.four_bit in Ha, Hb.
  apply andb_prop in Ha as [Ha1 Ha2]. apply andb_prop in Hb as [Hb1 Hb2].
  rewrite forallb_forall in Hall.
  assert (Hina : In a (seqZ 0 16))
    by (apply list_elem_of_In, elem_of_seqZ; lia).
  specialize (Hall a Hina). rewrite forallb_forall in Hall.
  assert (Hinb : In b (seqZ 0 16))
    by (apply list_elem_of_In, elem_of_seqZ; lia).
  specialize (Hall b Hinb). cbv zeta in Hall.
  apply andb_prop in Hall as [Hall H3]. apply andb_prop in Hall as [H1 H2].
  cbv zeta. repeat split; [exact H1 | lia | lia].
Qed.

(** ** C1: the TTS frame codec *)

Section TTSRoundTrip.

Context {pystr : Type}.
Context (str_encode : pystr -> option Py.bytes).
Context (bytes_decode : Py.bytes -> option pystr).

(** Decoding inverts encoding, as UTF-8 does. *)
Hypothesis decode_encode :
  forall s b, str_encode s = Some b -> bytes_decode b = Some s.

Lemma header_bytes (h : TTS.Header) :
  TTS.header_fits h = true ->
  exists b0 b1 b2 b3,
    TTS.Header_as_bytes h = Some [b0; b1; b2; b3]
    /\ Z.land (Z.shiftr b0 4) 15 = TTS.protocol_version h
    /\ Z.land b0 15 = TTS.header_size h
    /\ Z.land (Z.shiftr b1 4) 15 = TTS.message_type h
    /\ Z.land b1 15 = TTS.message_type_specific_flags h.
Proof.
  unfold TTS.header_fits. intros H.
  do 6 (apply andb_prop in H as [H ?]).
  destruct (nibbles (TTS.protocol_version h) (TTS.header_size h)
              ltac:(assumption) ltac:(assumption)) as (A0 & A1 & A2).
  destruct (nibbles (TTS.message_type h) (TTS.message_type_specific_flags h)
              ltac:(assumption) ltac:(assumption)) as (B0 & B1 & B2).
  destruct (nibbles (TTS.serial_method h) (TTS.compression_type h)
              ltac:(assumption) ltac:(assumption)) as (C0 & _ & _).
  cbv zeta in *. do 4 eexists. split; [|repeat split; eassumption].
  unfold TTS.Header_as_bytes, Py.bytes_of_ints. simpl.
  by rewrite A0, B0, C0, H0.
Qed.

(** The frame of a header, an event, a session id and a payload, and what
    [_parse_response] reads from it when the event has no layout of its
    own. *)
Lemma parse_generic_frame (b0 b1 b2 b3 ev : Z) (sid : pystr) (sid_bytes p : Py.bytes) :
  Z.land b1 15 = TTS.MsgTypeFlagWithEvent ->
  TTS.generic_event ev = true ->
  str_encode sid = Some sid_bytes ->
  Py.len sid_bytes < 2 ^ 31 ->
  Py.len p < 2 ^ 31 ->
  let frame := [b0; b1; b2; b3] ++ Py.be4 (ev mod 2 ^ 32)
               ++ Py.be4 (Py.len sid_bytes mod 2 ^ 32) ++ sid_bytes
               ++ Py.be4 (Py.len p mod 2 ^ 32) ++ p in
  TTS._parse_response bytes_decode (TTS.Binary frame)
  = inr (TTS.mkResponse
           (TTS.mkHeader (Z.land (Z.shiftr b0 4) 15) (Z.land b0 15)
                         (Z.land (Z.shiftr b1 4) 15) (Z.land b1 15)
                         TTS.NO_SERIALIZATION TTS.COMPRESSION_NO 0
                         (Some (Z.shiftr b2 15)) (Some (Z.land b2 15)) (Some b3))
           (TTS.mkOptional ev (Some sid) 0 None None None)
           (Some p)).
Proof.
  intros Hflags Hev Hsid Hls Hlp frame.
  pose proof (len_nonneg sid_bytes) as Hs0. pose proof (len_nonneg p) as Hp0.
  unfold TTS.generic_event in Hev.
  apply andb_prop in Hev as [Hrange Hplain].
  apply andb_prop in Hrange as [Hlo Hhi].
  apply negb_true_iff in Hplain.
  repeat (apply orb_false_elim in Hplain as [Hplain ?]).
  assert (Hev32 : - 2 ^ 31 <= ev < 2 ^ 31) by lia.
  assert (Sev : Py.slice frame 4 (4 + 4) = Py.be4 (ev mod 2 ^ 32)).
  { subst frame. apply slice_mid; [reflexivity | by rewrite len_be4]. }
  assert (Ssz : Py.slice frame (4 + 4) (4 + 4 + 4)
                = Py.be4 (Py.len sid_bytes mod 2 ^ 32)).
  { subst frame. rewrite (app_assoc [b0; b1; b2; b3]).
    apply slice_mid; [reflexivity | by rewrite len_be4]. }
  assert (Ssid : Py.slice frame (4 + 4 + 4) (4 + 4 + 4 + Py.len sid_bytes)
                 = sid_bytes).
  { subst frame. rewrite (app_assoc [b0; b1; b2; b3]), (app_assoc (_ ++ _)).
    apply slice_mid; [reflexivity | reflexivity]. }
  assert (Spsz : Py.slice frame (4 + 4 + 4 + Py.len sid_bytes)
                          (4 + 4 + 4 + Py.len sid_bytes + 4)
                 = Py.be4 (Py.len p mod 2 ^ 32)).
  { subst frame.
    rewrite (app_assoc [b0; b1; b2; b3]), (app_assoc (_ ++ _)),
      (app_assoc (_ ++ _)).
    apply slice_mid; [|by rewrite len_be4].
    rewrite !len_app, !len_be4. reflexivity. }
  assert (Sp : Py.slice frame (4 + 4 + 4 + Py.len sid_bytes + 4)
                        (4 + 4 + 4 + Py.len sid_bytes + 4 + Py.len p) = p).
  { subst frame.
    rewrite (app_assoc [b0; b1; b2; b3]), (app_assoc (_ ++ _)),
      (app_assoc (_ ++ _)), (app_assoc (_ ++ _)).
    rewrite <- (app_nil_r p) at 2.
    apply slice_mid; [|reflexivity].
    rewrite !len_app, !len_be4. reflexivity. }
  unfold TTS._parse_response.
  assert (I0 : Py.index frame 0 = Some b0) by (by apply (index_lookup frame 0%nat)).
  assert (I1 : Py.index frame 1 = Some b1) by (by apply (index_lookup frame 1%nat)).
  assert (I2 : Py.index frame 2 = Some b2) by (by apply (index_lookup frame 2%nat)).
  assert (I3 : Py.index frame 3 = Some b3) by (by apply (index_lookup frame 3%nat)).
  rewrite I0, I1, I2, I3.
  cbv zeta. cbn [TTS.message_type TTS.message_type_specific_flags].
  replace (Py.truthy TTS.AUDIO_ONLY_RESPONSE) with true by reflexivity.
  rewrite orb_true_r. rewrite Hflags, Z.eqb_refl.
  rewrite Sev, be4_signed by exact Hev32.
  rewrite Hplain, H3, H2. rewrite H1, H0, H. cbn [orb].
  unfold TTS._read_res_content.
  rewrite Ssz, be4_signed by lia. rewrite Ssid.
  rewrite (decode_encode _ _ Hsid).
  unfold TTS._read_res_payload.
  rewrite Spsz, be4_signed by lia. rewrite Sp.
  reflexivity.
Qed.

(** C1 (as amended).  For a frame of any message type whose header
    fields fit their bits, whose flags are exactly "with event", whose
    event has no layout of its own in the decoder, and that carries a
    session id, no sequence number and a payload, decoding the encoded
    bytes gives back the message type, the flags, the protocol version and
    header size, the event, the session id and the payload, and leaves the
    server-only fields at their defaults.  This covers the frames of
    [_send_start_session], [_send_finish_session] and
    [_send_task_request]. *)
Theorem tts_frame_roundtrip (h : TTS.Header) (ev : Z) (sid : pystr)
    (sid_bytes p : Py.bytes) :
  TTS.header_fits h = true ->
  TTS.message_type_specific_flags h = TTS.MsgTypeFlagWithEvent ->
  TTS.generic_event ev = true ->
  str_encode sid = Some sid_bytes ->
  Py.len sid_bytes < 2 ^ 31 ->
  Py.len p < 2 ^ 31 ->
  exists frame r,
    TTS.encode str_encode h (TTS.new_Optional ev (Some sid) None) p = Some frame
    /\ TTS._parse_response bytes_decode (TTS.Binary frame) = inr r
    /\ TTS.message_type (TTS.header r) = TTS.message_type h
    /\ TTS.message_type_specific_flags (TTS.header r)
       = TTS.message_type_specific_flags h
    /\ TTS.protocol_version (TTS.header r) = TTS.protocol_version h
    /\ TTS.header_size (TTS.header r) = TTS.header_size h
    /\ TTS.event (TTS.optional r) = ev
    /\ TTS.sessionId (TTS.optional r) = Some sid
    /\ TTS.sequence (TTS.optional r) = None
    /\ TTS.payload r = Some p
    /\ TTS.connectionId (TTS.optional r) = None
    /\ TTS.errorCode (TTS.optional r) = 0
    /\ TTS.response_meta_json (TTS.optional r) = None.
Proof.
  intros Hfit Hflags Hev Hsid Hls Hlp.
  destruct (header_bytes h Hfit) as (b0 & b1 & b2 & b3 & Hb & Hpv & Hhs & Hmt & Hfl).
  pose proof (len_nonneg sid_bytes) as Hs0. pose proof (len_nonneg p) as Hp0.
  assert (Hev' := Hev). unfold TTS.generic_event in Hev'.
  apply andb_prop in Hev' as [Hrange Hplain].
  apply andb_prop in Hrange as [Hlo Hhi].
  apply negb_true_iff in Hplain.
  repeat (apply orb_false_elim in Hplain as [Hplain ?]).
  eexists _, _. split.
  - unfold TTS.encode. rewrite Hb. cbn [mbind option_bind].
    unfold TTS.Optional_as_bytes, TTS.new_Optional.
    cbn [TTS.event TTS.sessionId TTS.sequence].
    rewrite Hplain. rewrite to_bytes4_signed_ok by lia.
    cbn [mbind option_bind]. rewrite Hsid. cbn [mbind option_bind].
    rewrite to_bytes4_signed_ok by lia. cbn [mbind option_bind].
    unfold TTS._send_event_with_protocol. cbn [default].
    rewrite to_bytes4_signed_ok by lia. cbn [mbind option_bind].
    rewrite app_nil_r, <- !app_assoc. reflexivity.
  - split.
    + apply parse_generic_frame; try done. by rewrite Hfl.
    + cbn. by rewrite Hpv, Hhs, Hmt, Hfl.
Qed.

End TTSRoundTrip.

Lemma ascii_decode_encode (s b : list Z) :
  TTS.ascii_encode s = Some b -> TTS.ascii_decode b = Some s.
Proof.
  unfold TTS.ascii_encode, TTS.ascii_decode.
  destruct (forallb TTS.is_ascii s) eqn:E; [|done].
  intros [= <-]. by rewrite E.
Qed.

(** The frame [_send_task_request] builds for session "s1", with the
    payload "{}". *)
Lemma tts_frame_roundtrip_witness :
  exists frame r,
    TTS.encode TTS.ascii_encode
      (TTS.new_Header TTS.FULL_CLIENT_REQUEST TTS.MsgTypeFlagWithEvent TTS.JSON)
      (TTS.new_Optional TTS.EVENT_TaskRequest (Some [115; 49]) None) [123; 125]
    = Some frame
    /\ TTS._parse_response TTS.ascii_decode (TTS.Binary frame) = inr r
    /\ TTS.message_type (TTS.header r) = TTS.FULL_CLIENT_REQUEST
    /\ TTS.message_type_specific_flags (TTS.header r) = TTS.MsgTypeFlagWithEvent
    /\ TTS.protocol_version (TTS.header r) = TTS.PROTOCOL_VERSION
    /\ TTS.header_size (TTS.header r) = TTS.DEFAULT_HEADER_SIZE
    /\ TTS.event (TTS.optional r) = TTS.EVENT_TaskRequest
    /\ TTS.sessionId (TTS.optional r) = Some [115; 49]
    /\ TTS.sequence (TTS.optional r) = None
    /\ TTS.payload r = Some [123; 125]
    /\ TTS.connectionId (TTS.optional r) = None
    /\ TTS.errorCode (TTS.optional r) = 0
    /\ TTS.response_meta_json (TTS.optional r) = None.
Proof.
  apply (tts_frame_roundtrip TTS.ascii_encode TTS.ascii_decode ascii_decode_encode
           (TTS.new_Header TTS.FULL_CLIENT_REQUEST TTS.MsgTypeFlagWithEvent TTS.JSON)
           TTS.EVENT_TaskRequest [115; 49] [115; 49] [123; 125]).
  - reflexivity.
  - reflexivity.
  - reflexivity.
  - reflexivity.
  - reflexivity.
  - reflexivity.
Defined.

(** C1 as stated fails on frames the client can encode, one for each
    condition of [tts_frame_roundtrip] on the shape of the frame.
    (a) No session id: [_send_start_connection] encodes event 1, no
    session id and the payload "{}"; the decoder reads the payload's
    length prefix and bytes as a session id "{}" and finds an empty
    payload.  (b) Flags other than "with event": the decoder reads
    nothing after the header, so the event, the session id "s1" and the
    payload "{}" are lost.  (c) An event with a layout of its own
    (SessionStarted): the payload "{}" comes back as
    [response_meta_json], not as payload.  (d) A sequence number: the
    decoder takes the sequence 1 for the payload's length and the first
    byte of the length prefix for the payload. *)
Lemma tts_start_connection_not_roundtrip :
  (exists frame r,
     TTS.encode TTS.ascii_encode
       (TTS.new_Header TTS.FULL_CLIENT_REQUEST TTS.MsgTypeFlagWithEvent
                       TTS.NO_SERIALIZATION)
       (TTS.new_Optional TTS.EVENT_Start_Connection None None) [123; 125]
     = Some frame
     /\ TTS._parse_response TTS.ascii_decode (TTS.Binary frame) = inr r
     /\ TTS.sessionId (TTS.optional r) = Some [123; 125]
     /\ TTS.sessionId (TTS.optional r) <> None
     /\ TTS.payload r = Some []
     /\ TTS.payload r <> Some [123; 125])
  /\ (exists frame r,
        TTS.encode TTS.ascii_encode
          (TTS.new_Header TTS.FULL_CLIENT_REQUEST TTS.MsgTypeFlagNoSeq TTS.JSON)
          (TTS.new_Optional TTS.EVENT_TaskRequest (Some [115; 49]) None)
          [123; 125]
        = Some frame
        /\ TTS._parse_response TTS.ascii_decode (TTS.Binary frame) = inr r
        /\ TTS.event (TTS.optional r) = TTS.EVENT_NONE
        /\ TTS.event (TTS.optional r) <> TTS.EVENT_TaskRequest
        /\ TTS.sessionId (TTS.optional r) = None
        /\ TTS.payload r = None)
  /\ (exists frame r,
        TTS.encode TTS.ascii_encode
          (TTS.new_Header TTS.FULL_SERVER_RESPONSE TTS.MsgTypeFlagWithEvent
                          TTS.JSON)
          (TTS.new_Optional TTS.EVENT_SessionStarted (Some [115; 49]) None)
          [123; 125]
        = Some frame
        /\ TTS._parse_response TTS.ascii_decode (TTS.Binary frame) = inr r
        /\ TTS.sessionId (TTS.optional r) = Some [115; 49]
        /\ TTS.response_meta_json (TTS.optional r) = Some [123; 125]
        /\ TTS.payload r = None)
  /\ (exists frame r,
        TTS.encode TTS.ascii_encode
          (TTS.new_Header TTS.FULL_CLIENT_REQUEST TTS.MsgTypeFlagWithEvent
                          TTS.JSON)
          (TTS.new_Optional TTS.EVENT_TaskRequest (Some [115; 49]) (Some 1))
          [123; 125]
        = Some frame
        /\ TTS._parse_response TTS.ascii_decode (TTS.Binary frame) = inr r
        /\ TTS.sessionId (TTS.optional r) = Some [115; 49]
        /\ TTS.payload r = Some [0]
        /\ TTS.payload r <> Some [123; 125]).
Proof.
  split; [|split; [|split]].
  - eexists _, _. split; [vm_compute; reflexivity|].
    split; [vm_compute; reflexivity|].
    cbn. repeat split; discriminate.
  - eexists _, _. split; [vm_compute; reflexivity|].
    split; [vm_compute; reflexivity|].
    cbn. repeat split; discriminate.
  - eexists _, _. split; [vm_compute; reflexivity|].
    split; [vm_compute; reflexivity|].
    cbn. repeat split.
  - eexists _, _. split; [vm_compute; reflexivity|].
    split; [vm_compute; reflexivity|].
    cbn. repeat split; discriminate.
Qed.

(** ** C2: the sequence field of an audio-only request *)

Section SequenceSign.

Context (gzip_compress : Py.bytes -> Py.bytes).

(** C2 (as amended).  When the value to encode ([- seq] for the last
    chunk, [seq] otherwise) fits a signed 32-bit field and the compressed
    segment is shorter than 2^32 bytes, the request is built, its sequence
    field reads back as that value, and its flags are "negative with
    sequence" for the last chunk and "positive sequence" otherwise. *)
Theorem audio_request_sequence_sign (seq : Z) (segment : Py.bytes) (is_last : bool) :
  - 2 ^ 31 <= (if is_last then - seq else seq) < 2 ^ 31 ->
  Py.len (gzip_compress segment) < 2 ^ 32 ->
  exists request,
    STT.new_audio_only_request gzip_compress seq segment is_last = Some request
    /\ STT.encoded_sequence request = (if is_last then - seq else seq)
    /\ STT.encoded_flags request
       = Some (if is_last then STT.NEG_WITH_SEQUENCE else STT.POS_SEQUENCE).
Proof.
  intros Hseq Hlen. pose proof (len_nonneg (gzip_compress segment)) as H0.
  unfold STT.new_audio_only_request.
  assert (Hh : exists b0 b1 b2 b3,
             STT.Header_as_bytes
               (STT.mkHeader STT.PROTOCOL_VERSION STT.DEFAULT_HEADER_SIZE
                  STT.CLIENT_AUDIO_ONLY_REQUEST
                  (if is_last then STT.NEG_WITH_SEQUENCE else STT.POS_SEQUENCE)
                  STT.NO_SERIALIZATION STT.COMPRESSION_GZIP 0)
             = Some [b0; b1; b2; b3]
             /\ Z.land b1 15
                = (if is_last then STT.NEG_WITH_SEQUENCE else STT.POS_SEQUENCE)).
  { destruct is_last; do 4 eexists; split; reflexivity. }
  destruct Hh as (b0 & b1 & b2 & b3 & Hh & Hfl).
  rewrite Hh. cbn [mbind option_bind].
  rewrite to_bytes4_signed_ok by exact Hseq. cbn [mbind option_bind].
  unfold Py.pack_u32.
  destruct (Z.leb_spec 0 (Py.len (gzip_compress segment))); [|lia].
  destruct (Z.ltb_spec (Py.len (gzip_compress segment)) (2 ^ 32)); [|lia].
  cbn [andb mbind option_bind].
  eexists. split; [reflexivity|]. split.
  - unfold STT.encoded_sequence.
    rewrite (slice_mid [b0; b1; b2; b3] _ _ 4 8) by reflexivity.
    by apply be4_signed.
  - unfold STT.encoded_flags.
    assert (I1 : Py.index ([b0; b1; b2; b3]
                   ++ Py.be4 ((if is_last then - seq else seq) mod 2 ^ 32)
                   ++ Py.be4 (Py.len (gzip_compress segment))
                   ++ gzip_compress segment) 1 = Some b1)
      by (by apply (index_lookup _ 1%nat)).
    rewrite I1. cbn [mbind option_bind]. by rewrite Hfl.
Qed.

End SequenceSign.

(** The third chunk of a stream, sent as its last: the field holds -3. *)
Lemma audio_request_sequence_sign_witness :
  exists request,
    STT.new_audio_only_request STT.stored 3 [0; 1] true = Some request
    /\ STT.encoded_sequence request = -3
    /\ STT.encoded_flags request = Some STT.NEG_WITH_SEQUENCE.
Proof.
  apply (audio_request_sequence_sign STT.stored 3 [0; 1] true).
  - simpl. lia.
  - vm_compute. reflexivity.
Defined.

(** C2 as stated fails at the smallest 32-bit integer: its negation does
    not fit the field, [struct.pack('>i', ...)] raises, and no request is
    built; the same happens for any value outside the 32-bit range. *)
Lemma audio_request_no_negation :
  STT.new_audio_only_request STT.stored (- 2147483648) [0; 1] true = None
  /\ STT.new_audio_only_request STT.stored 2147483648 [0; 1] false = None.
Proof. split; vm_compute; reflexivity. Qed.

(** ** C4: cancelling and releasing a stream session *)

Lemma cancel_registered (sid : string) (r : Registry.registry) (s : Registry.stream) :
  Registry.active_streams r !! sid = Some s ->
  exists r',
    Registry.cancel_stream_by_session sid r = (1, r')
    /\ Registry.active_streams r' = Registry.active_streams r
    /\ Registry.live_to_sessions r' = Registry.live_to_sessions r
    /\ Registry.is_set r' (Registry.cancel_event s) = true.
Proof.
  intros H. unfold Registry.cancel_stream_by_session. rewrite H.
  destruct (Registry.is_set r (Registry.cancel_event s)) eqn:E; cbn [negb].
  - by eexists.
  - eexists. repeat split. unfold Registry.is_set. cbn.
    by rewrite lookup_insert_eq.
Qed.

(** C4, what the code does: while a session is registered and not yet
    released, every call of [cancel_stream_by_session] returns 1, the
    second as well as the first; the second call finds the signal set and
    changes nothing. *)
Theorem cancel_twice_returns_one_twice (sid : string) (r : Registry.registry)
    (s : Registry.stream) :
  Registry.active_streams r !! sid = Some s ->
  exists r1,
    Registry.cancel_stream_by_session sid r = (1, r1)
    /\ Registry.cancel_stream_by_session sid r1 = (1, r1)
    /\ Registry.is_set r1 (Registry.cancel_event s) = true.
Proof.
  intros H. destruct (cancel_registered sid r s H) as (r1 & E1 & Ha & Hl & Hs).
  exists r1. split; [exact E1|]. split; [|exact Hs].
  unfold Registry.cancel_stream_by_session. rewrite Ha, H, Hs. reflexivity.
Qed.

(** Session "s1" of room "room", registered in an empty registry. *)
Lemma cancel_twice_returns_one_twice_witness :
  exists r1,
    Registry.cancel_stream_by_session "s1"
      (Registry.register_stream_session "s1" (Some "room") Registry.empty).2
    = (1, r1)
    /\ Registry.cancel_stream_by_session "s1" r1 = (1, r1)
    /\ Registry.is_set r1 0%nat = true.
Proof.
  apply (cancel_twice_returns_one_twice "s1"
           (Registry.register_stream_session "s1" (Some "room") Registry.empty).2
           (Registry.mkStream (Some "room") 0%nat)).
  vm_compute. reflexivity.
Defined.

(** Release removes the session from the primary table, whatever the
    registry holds. *)
Lemma cleanup_removes_stream (sid : string) (r : Registry.registry) :
  Registry.active_streams (Registry.cleanup_stream_session sid r) !! sid = None.
Proof.
  unfold Registry.cleanup_stream_session.
  destruct (Registry.active_streams r !! sid) eqn:E; [|exact E].
  cbn. apply lookup_delete_eq.
Qed.

(** Release removes the session from the room index as well, when the
    index is consistent with the primary table. *)
Lemma cleanup_removes_index (sid : string) (r : Registry.registry) :
  Registry.consistent r ->
  ~ Registry.indexed sid (Registry.cleanup_stream_session sid r).
Proof.
  intros Hcons (l & S & Hl & Hin). unfold Registry.cleanup_stream_session in Hl.
  destruct (Registry.active_streams r !! sid) as [st|] eqn:E.
  2:{ destruct (Hcons l S sid Hl Hin) as (st & Hst & _). congruence. }
  assert (Hown : Registry.live_to_sessions r !! l = Some S ->
                 Registry.stream_live_id st = Some l
                 /\ Registry.truthy_str (Some l) = true).
  { intros Hl'. destruct (Hcons l S sid Hl' Hin) as (st' & Hst' & Hlive & Ht).
    rewrite E in Hst'. by injection Hst' as <-. }
  cbn [Registry.live_to_sessions] in Hl.
  destruct (Registry.stream_live_id st) as [l0|] eqn:El0;
    [|destruct (Hown Hl); congruence].
  destruct (Registry.truthy_str (Some l0)) eqn:Et;
    [|destruct (Hown Hl) as [[= ->] ?]; congruence].
  destruct (Registry.live_to_sessions r !! l0) as [S0|] eqn:E0;
    [|destruct (Hown Hl) as [[= ->] ?]; congruence].
  case_bool_decide as Hmem;
    [|destruct (Hown Hl) as [[= ->] ?]; congruence].
  destruct (decide (l = l0)) as [->|Hne].
  - case_bool_decide as Hempty.
    + by rewrite lookup_delete_eq in Hl.
    + rewrite lookup_insert_eq in Hl. injection Hl as <-.
      apply elem_of_difference in Hin as [_ Hn]. by apply Hn, elem_of_singleton.
  - case_bool_decide as Hempty.
    + rewrite lookup_delete_ne in Hl by done.
      destruct (Hown Hl) as [[= ->] ?]. done.
    + rewrite lookup_insert_ne in Hl by done.
      destruct (Hown Hl) as [[= ->] ?]. done.
Qed.

(** The index stops being consistent when an id that is still registered
    is registered again under another room: the entry of the first room
    stays behind, and release does not find it. *)
Lemma reregistered_session_stays_indexed :
  let r1 := (Registry.register_stream_session "s1" (Some "a") Registry.empty).2 in
  let r2 := (Registry.register_stream_session "s1" (Some "b") r1).2 in
  let r3 := Registry.cleanup_stream_session "s1" r2 in
  Registry.active_streams r3 !! "s1" = None
  /\ Registry.live_to_sessions r3 !! "b" = None
  /\ Registry.live_to_sessions r3 !! "a" = Some {[ "s1" ]}.
Proof. vm_compute. repeat split. Qed.

(** ** C3: cancelling in the middle of a sentence's audio *)

(** C3, what the code does.  The query is answered "Hi." and synthesised
    as two chunks.  Suspensions 3 to 6 are inside the TTS call, 7 is the
    avatar call for the first chunk.  Cancelled at 7, the pipeline emits
    "cancelled", makes no further avatar call and releases the session,
    but then still emits "sentence_processed" and ends with "complete".
    Cancelled at 4, inside the TTS call, it ends with "cancelled". *)
Theorem mid_stream_cancel_ends_complete :
  let s := Pipeline.run_query (Pipeline.one_sentence (Pipeline.cancel_at 7))
                              Registry.empty in
  let s' := Pipeline.run_query (Pipeline.one_sentence (Pipeline.cancel_at 4))
                               Registry.empty in
  Pipeline.emitted s
  = [ Pipeline.EvStart "s1" [72; 105; 63];
      Pipeline.EvTextChunk [72; 105; 46] [72; 105; 46];
      Pipeline.EvSentenceComplete [72; 105; 46];
      Pipeline.EvAudioChunk [72; 105; 46] 2;
      Pipeline.EvCancelled "s1";
      Pipeline.EvSentenceProcessed [72; 105; 46];
      Pipeline.EvComplete [72; 105; 46] "s1" ]
  /\ Pipeline.tts_calls s = [[72; 105; 46]]
  /\ Pipeline.avatar_calls s = [[1; 2]]
  /\ Pipeline.finish_calls s = 0%nat
  /\ Registry.active_streams (Pipeline.reg s) !! "s1" = None
  /\ Registry.live_to_sessions (Pipeline.reg s) !! "room" = None
  /\ last (Pipeline.emitted s') = Some (Pipeline.EvCancelled "s1")
  /\ Pipeline.avatar_calls s' = [].
Proof. vm_compute. repeat split. Qed.

(** ** C5, C7, C9: the join-room coordinator *)

Section JoinRoom.

Import Coordinator.

Lemma check_existing_valid (live : string) (c : Avatar.DigitalHumanClient) (s : state) :
  check_existing live c s = None <-> session_valid live c s = true.
Proof.
  unfold check_existing, session_valid.
  destruct (active_sessions s !! live) as [sess|]; [|done].
  destruct (String.eqb (status sess) "active"); cbn [andb]; [|done].
  destruct (Avatar.is_connected c); cbn [andb]; [|by case_bool_decide].
  by case_bool_decide.
Qed.

(** Dropping a stale session touches neither the pending joins, the
    tasks, the failure records nor the count of connection attempts, and
    leaves no session for the room. *)
Lemma check_existing_frame (live : string) (c : Avatar.DigitalHumanClient)
    (s s1 : state) :
  check_existing live c s = Some s1 ->
  pending_requests s1 = pending_requests s
  /\ tasks s1 = tasks s
  /\ failed_requests s1 = failed_requests s
  /\ connect_calls s1 = connect_calls s
  /\ connection_lock s1 = connection_lock s
  /\ active_sessions s1 !! live = None.
Proof.
  unfold check_existing.
  destruct (active_sessions s !! live) as [sess|] eqn:E.
  - destruct (String.eqb (status sess) "active").
    + destruct (Avatar.is_connected c && bool_decide (Avatar.live_id c = Some live));
        [done|].
      case_bool_decide; intros [= <-]; cbn; by rewrite lookup_delete_eq.
    + intros [= <-]. cbn. by rewrite lookup_delete_eq.
  - by intros [= <-].
Qed.

(** Dropping a stale session keeps the client's socket. *)
Lemma check_existing_client (live : string) (c : Avatar.DigitalHumanClient)
    (s s1 : state) :
  digital_human_client s = Some c ->
  check_existing live c s = Some s1 ->
  exists c1, digital_human_client s1 = Some c1
             /\ Avatar.websocket c1 = Avatar.websocket c.
Proof.
  intros Hc. unfold check_existing.
  destruct (active_sessions s !! live) as [sess|].
  - destruct (String.eqb (status sess) "active").
    + destruct (Avatar.is_connected c && bool_decide (Avatar.live_id c = Some live));
        [done|].
      case_bool_decide; intros [= <-]; cbn; eauto.
    + intros [= <-]. cbn. eauto.
  - intros [= <-]. eauto.
Qed.

Lemma join_pending_frame (s s1 : state) (live : string) :
  pending_requests s1 = pending_requests s -> tasks s1 = tasks s ->
  join_pending s1 live = join_pending s live.
Proof. intros Hp Ht. unfold join_pending, task_done. by rewrite Hp, Ht. Qed.

(** *** The retry loop of [join_room_task] *)

Lemma connect_pass_calls a c calls :
  (calls <= (connect_pass a c calls).2 <= S calls)%nat.
Proof.
  unfold connect_pass.
  destruct (match Avatar.websocket c with
            | Some st => bool_decide (st = Avatar.CLOSED)
            | None => true
            end).
  - destruct (conn a); cbn [snd]; try lia.
    destruct (negb _); cbn [snd]; [lia|].
    destruct (health a); cbn [snd]; lia.
  - destruct (negb _); cbn [snd]; [lia|].
    destruct (health a); cbn [snd]; lia.
Qed.

Lemma connect_loop_calls N fuel rc c calls :
  (calls <= (connect_loop N fuel rc c calls).2 <= calls + fuel)%nat.
Proof.
  revert rc c calls. induction fuel as [|fuel IH]; intros rc c calls;
    cbn [connect_loop]; [cbn; lia|].
  pose proof (connect_pass_calls (attempts N rc) c calls) as Hp.
  destruct (connect_pass (attempts N rc) c calls) as [[[| |] c1] calls1];
    cbn [snd] in Hp.
  - cbn. lia.
  - destruct fuel; [cbn; lia|].
    pose proof (IH (S rc) c1 calls1). lia.
  - destruct (Avatar.disconnect c1 (cleanup (attempts N rc))) as [[[|e] c2] tr].
    + destruct fuel; [cbn; lia|].
      pose proof (IH (S rc) c2 calls1). lia.
    + cbn. lia.
Qed.

(** A pass that finds no socket, or a closed one, calls [connect]. *)
Lemma connect_pass_connects a c calls :
  Avatar.websocket c = None \/ Avatar.websocket c = Some Avatar.CLOSED ->
  (connect_pass a c calls).2 = S calls.
Proof.
  intros Hw. unfold connect_pass.
  replace (match Avatar.websocket c with
           | Some st => bool_decide (st = Avatar.CLOSED)
           | None => true
           end) with true by (by destruct Hw as [-> | ->]).
  destruct (conn a); cbn [snd]; try done.
  destruct (negb _); cbn [snd]; [done|].
  by destruct (health a).
Qed.

Lemma connect_loop_connects N fuel rc c calls :
  Avatar.websocket c = None \/ Avatar.websocket c = Some Avatar.CLOSED ->
  (S calls <= (connect_loop N (S fuel) rc c calls).2)%nat.
Proof.
  intros Hw. cbn [connect_loop].
  pose proof (connect_pass_connects (attempts N rc) c calls Hw) as Hp.
  destruct (connect_pass (attempts N rc) c calls) as [[[| |] c1] calls1];
    cbn [snd] in Hp; subst calls1.
  - cbn. lia.
  - destruct fuel; [cbn; lia|].
    pose proof (connect_loop_calls N (S fuel) (S rc) c1 (S calls)). lia.
  - destruct (Avatar.disconnect c1 (cleanup (attempts N rc))) as [[[|e] c2] tr].
    + destruct fuel; [cbn; lia|].
      pose proof (connect_loop_calls N (S fuel) (S rc) c2 (S calls)). lia.
    + cbn. lia.
Qed.

Lemma connect_pass_break a c calls c' calls' :
  connect_pass a c calls = (PassBreak, c', calls') ->
  Avatar.is_connected c' = true /\ Avatar.live_id c' = Avatar.live_id c.
Proof.
  unfold connect_pass.
  destruct (match Avatar.websocket c with
            | Some st => bool_decide (st = Avatar.CLOSED)
            | None => true
            end).
  - destruct (conn a); [|done|done].
    destruct (negb _) eqn:Hn; [done|].
    destruct (health a); try done. intros [= <- <-].
    split; [by apply negb_false_iff in Hn|done].
  - destruct (negb _) eqn:Hn; [done|].
    destruct (health a); try done. intros [= <- <-].
    split; [by apply negb_false_iff in Hn|done].
Qed.

Lemma connect_loop_return N fuel rc c calls c' calls' :
  connect_loop N fuel rc c calls = (TaskReturn, c', calls') ->
  fuel <> 0%nat ->
  Avatar.is_connected c' = true.
Proof.
  revert rc c calls. induction fuel as [|fuel IH]; intros rc c calls H Hf;
    [done|].
  cbn [connect_loop] in H.
  destruct (connect_pass (attempts N rc) c calls) as [[[| |] c1] calls1] eqn:Ep.
  - injection H as <- <-. by apply connect_pass_break in Ep as [? _].
  - destruct fuel; [done|]. by apply (IH _ _ _ H).
  - destruct (Avatar.disconnect c1 (cleanup (attempts N rc))) as [[[|e] c2] tr];
      [|done].
    destruct fuel; [done|]. by apply (IH _ _ _ H).
Qed.

(** What running the task to its end does to the bookkeeping. *)
Lemma join_room_task_books N live t c s :
  let s' := (join_room_task N live t c s).2 in
  (connect_calls s <= connect_calls s' <= connect_calls s + 3)%nat
  /\ (Avatar.websocket c = None \/ Avatar.websocket c = Some Avatar.CLOSED ->
      (connect_calls s < connect_calls s')%nat)
  /\ tasks s' = <[t := true]> (tasks s)
  /\ pending_requests s' = delete live (pending_requests s)
  /\ connection_lock s' = connection_lock s
  /\ failed_requests s' = failed_requests s.
Proof.
  unfold join_room_task.
  pose proof (connect_loop_calls N 3 0 c (connect_calls s)) as Hc.
  pose proof (connect_loop_connects N 2 0 c (connect_calls s)) as Hl.
  destruct (connect_loop N 3 0 c (connect_calls s)) as [[r c1] calls1].
  cbn [snd] in Hc, Hl.
  assert (Hl' : Avatar.websocket c = None \/ Avatar.websocket c = Some Avatar.CLOSED ->
                (connect_calls s < calls1)%nat) by (intros Hw; specialize (Hl Hw); lia).
  destruct r; cbn; try (repeat split; first [lia | done]).
  destruct (Avatar.websocket c1); [|cbn; repeat split; first [lia | done]].
  destruct (start_live N); cbn; repeat split; first [lia | done].
Qed.

(** A task that returns has recorded the room as active, on a client
    that is open and bound to it. *)
Lemma join_room_task_joined N live t c s s' :
  join_room_task N live t c s = (TaskReturn, s') ->
  active_sessions s' !! live = Some (mkSession "active")
  /\ exists c', digital_human_client s' = Some c'
                /\ Avatar.is_connected c' = true
                /\ Avatar.live_id c' = Some live.
Proof.
  unfold join_room_task.
  destruct (connect_loop N 3 0 c (connect_calls s)) as [[r c1] calls1] eqn:El.
  destruct r; try (cbn; done).
  apply connect_loop_return in El; [|done].
  assert (Hw : Avatar.websocket c1 = Some Avatar.OPEN)
    by (unfold Avatar.is_connected in El; by apply bool_decide_eq_true in El).
  rewrite Hw. destruct (start_live N); try (cbn; done).
  cbn. intros [= <-]. cbn. split; [by rewrite lookup_insert_eq|].
  eexists. by split.
Qed.

(** C5 (as amended).  Provided the avatar client exists, the request is
    not answered from a valid active session, and no join of the room is
    pending (each of which is tested first), the request is measured
    against the room's failure record as the code measures it: the double
    [now - t0], compared with 10.0.  When it compares less, the request is
    rejected with status 429 and the whole seconds of [10.0 - (now - t0)];
    no task is created, no connection attempted, the client is not
    replaced and nothing but the failure record and a stale session entry
    changes.  (When [int] of that double raises, which takes an infinite
    clock difference, the request is rejected with status 500 instead.)
    When it does not compare less, the same test removes the record and
    the request goes on to the connection lock. *)
Theorem cooldown_enforced (now t_fail t0 : float) (N : task_net) (live : string)
    (s : state) (c : Avatar.DigitalHumanClient) :
  digital_human_client s = Some c ->
  session_valid live c s = false ->
  join_pending s live = false ->
  failed_requests s !! live = Some t0 ->
  let time_since_failure := PrimFloat.sub now t0 in
  let remaining_cooldown := PrimFloat.sub COOLDOWN_PERIOD time_since_failure in
  (PrimFloat.ltb time_since_failure COOLDOWN_PERIOD = true ->
   (forall seconds,
      py_int remaining_cooldown = Some seconds ->
      exists s',
        join_room now t_fail N live s
        = (RaiseHTTP (mkHTTP 429 (CooldownWait seconds)), s')
        /\ tasks s' = tasks s
        /\ connect_calls s' = connect_calls s
        /\ pending_requests s' = pending_requests s
        /\ connection_lock s' = connection_lock s
        /\ failed_requests s' = <[live := t_fail]> (failed_requests s))
   /\ (py_int remaining_cooldown = None ->
       exists s',
         join_room now t_fail N live s
         = (RaiseHTTP (mkHTTP 500 FriendlyMessage), s')
         /\ tasks s' = tasks s
         /\ connect_calls s' = connect_calls s
         /\ connection_lock s' = connection_lock s
         /\ failed_requests s' = <[live := t_fail]> (failed_requests s)))
  /\ (PrimFloat.ltb time_since_failure COOLDOWN_PERIOD = false ->
      exists s',
        join_room_entry now live s = (EntryProceed, s')
        /\ failed_requests s' !! live = None
        /\ tasks s' = tasks s
        /\ connect_calls s' = connect_calls s).
Proof.
  intros Hc Hv Hp Hf time_since_failure remaining_cooldown.
  destruct (check_existing live c s) as [s1|] eqn:E;
    [|apply check_existing_valid in E; congruence].
  destruct (check_existing_frame _ _ _ _ E) as (Fp & Ft & Ff & Fc & Fl & _).
  assert (Hp1 : join_pending s1 live = false)
    by (by rewrite (join_pending_frame s s1 live Fp Ft)).
  split; [intros Hlt; split|intros Hlt].
  - intros seconds Hint. eexists.
    unfold join_room, join_room_entry. rewrite Hc, E, Hp1.
    unfold check_cooldown. rewrite Ff, Hf.
    fold time_since_failure. rewrite Hlt. fold remaining_cooldown.
    rewrite Hint. unfold on_http.
    split; [reflexivity|]. cbn. by rewrite Ff.
  - intros Hint. eexists.
    unfold join_room, join_room_entry. rewrite Hc, E, Hp1.
    unfold check_cooldown. rewrite Ff, Hf.
    fold time_since_failure. rewrite Hlt. fold remaining_cooldown.
    rewrite Hint. unfold on_exception.
    split; [reflexivity|]. cbn. by rewrite Ff.
  - eexists. unfold join_room_entry. rewrite Hc, E, Hp1.
    unfold check_cooldown. rewrite Ff, Hf.
    fold time_since_failure. rewrite Hlt.
    split; [reflexivity|]. cbn. by rewrite lookup_delete_eq.
Qed.

(** C9.  Whenever [join_room] raises an HTTPException, the room's failure
    record is the clock value read in the handler; so the next request is
    measured against that value, whatever record stood there before: it
    is rejected whenever its own clock value, less that one, compares
    below COOLDOWN_PERIOD. *)
Theorem join_failure_recorded (now t_fail : float) (N : task_net) (live : string)
    (s s' : state) (e : HTTPException) :
  join_room now t_fail N live s = (RaiseHTTP e, s') ->
  failed_requests s' !! live = Some t_fail
  /\ forall now2 seconds,
       PrimFloat.ltb (PrimFloat.sub now2 t_fail) COOLDOWN_PERIOD = true ->
       py_int (PrimFloat.sub COOLDOWN_PERIOD (PrimFloat.sub now2 t_fail))
       = Some seconds ->
       check_cooldown now2 live s'
       = CooldownReject (mkHTTP 429 (CooldownWait seconds)).
Proof.
  intros H.
  assert (Hrec : failed_requests s' !! live = Some t_fail).
  { revert H. unfold join_room.
    destruct (join_room_entry now live s) as [[r|e1| |] s1].
    - done.
    - unfold on_http. intros [= _ <-]. cbn. apply lookup_insert_eq.
    - unfold on_exception. intros [= _ <-]. cbn. apply lookup_insert_eq.
    - destruct (join_room_locked live s1) as [e1|[t s2]].
      + unfold on_http. intros [= _ <-]. cbn. apply lookup_insert_eq.
      + unfold join_room_resume.
        destruct (digital_human_client s2) as [c|].
        * destruct (overall_timeout N) as [c'|].
          -- unfold on_http. intros [= _ <-]. cbn. apply lookup_insert_eq.
          -- destruct (join_room_task N live t c s2) as [[|e1| |] s3].
             ++ done.
             ++ unfold on_http. intros [= _ <-]. cbn. apply lookup_insert_eq.
             ++ unfold on_exception. intros [= _ <-]. cbn. apply lookup_insert_eq.
             ++ done.
        * unfold on_exception. intros [= _ <-]. cbn. apply lookup_insert_eq. }
  split; [exact Hrec|].
  intros now2 seconds Hlt Hint. unfold check_cooldown. by rewrite Hrec, Hlt, Hint.
Qed.

(** C7 (as amended).  Let a first request for a room get as far as
    creating its task and waiting for it: it has created exactly one
    task, registered it as pending, called no [connect] itself and left
    no session for the room.  In every later state in which that task is
    still pending, a second request for the same room creates no task and
    attempts no connection: it is rejected with status 429 "in progress",
    unless the room has a valid active session by then, in which case it
    is answered "already active" by the earlier test.  The one connection
    attempt is the first request's task: when the first request resumes,
    no further task exists, its task is done and no longer pending, it
    has called [connect] at most three times (and at least once when it
    found no socket, or a closed one, and was not cut short by the 90 s
    timeout), and a success means that the room is recorded as active on
    a client that is open and bound to it. *)
Theorem second_join_rejected (now1 now2 t_fail1 t_fail2 : float)
    (N1 N2 : task_net) (live : string) (s0 s1 s2 s : state) (t : nat)
    (c : Avatar.DigitalHumanClient) :
  join_room_entry now1 live s0 = (EntryProceed, s1) ->
  join_room_locked live s1 = inr (t, s2) ->
  digital_human_client s = Some c ->
  pending_requests s !! live = Some t ->
  tasks s !! t = Some false ->
  (tasks s2 = tasks s0 ++ [false]
   /\ pending_requests s2 !! live = Some t
   /\ tasks s2 !! t = Some false
   /\ active_sessions s2 !! live = None
   /\ connect_calls s2 = connect_calls s0)
  /\ exists s',
       join_room now2 t_fail2 N2 live s
       = (if session_valid live c s then Return AlreadyActive
          else RaiseHTTP (mkHTTP 429 InProgress), s')
       /\ tasks s' = tasks s
       /\ pending_requests s' = pending_requests s
       /\ connect_calls s' = connect_calls s
       /\ (exists c', digital_human_client s' = Some c'
                      /\ Avatar.websocket c' = Avatar.websocket c)
       /\ forall r1 s'',
            join_room_resume t_fail1 N1 live t s' = (r1, s'') ->
            length (tasks s'') = length (tasks s)
            /\ tasks s'' !! t = Some true
            /\ pending_requests s'' !! live = None
            /\ (connect_calls s <= connect_calls s'' <= connect_calls s + 3)%nat
            /\ (overall_timeout N1 = None ->
                Avatar.websocket c = None
                \/ Avatar.websocket c = Some Avatar.CLOSED ->
                (connect_calls s < connect_calls s'')%nat)
            /\ (r1 = Return Joined ->
                active_sessions s'' !! live = Some (mkSession "active")
                /\ exists c'', digital_human_client s'' = Some c''
                               /\ Avatar.is_connected c'' = true
                               /\ Avatar.live_id c'' = Some live).
Proof.
  intros H1 H2 Hc Hp Ht. split.
  - assert (P1 : active_sessions s1 !! live = None /\ tasks s1 = tasks s0
                 /\ connect_calls s1 = connect_calls s0).
    { revert H1. unfold join_room_entry.
      destruct (digital_human_client s0) as [c0|]; [|done].
      destruct (check_existing live c0 s0) as [s0'|] eqn:E; [|done].
      destruct (check_existing_frame _ _ _ _ E) as (_ & Ft & _ & Fc & _ & Fa).
      destruct (join_pending s0' live); [done|].
      unfold check_cooldown.
      destruct (failed_requests s0' !! live) as [ft|].
      - destruct (PrimFloat.ltb _ _).
        + by destruct (py_int _).
        + by intros [= <-].
      - by intros [= <-]. }
    destruct P1 as (Pa & Pt & Pc).
    revert H2. unfold join_room_locked.
    destruct (join_pending s1 live); [done|]. intros [= <- <-]. cbn.
    rewrite Pt, lookup_insert_eq.
    by rewrite lookup_app_r, Nat.sub_diag.
  - assert (Hlen : (t < length (tasks s))%nat)
      by (by apply lookup_lt_Some in Ht).
    assert (Hresume : forall s',
              tasks s' = tasks s ->
              pending_requests s' = pending_requests s ->
              connect_calls s' = connect_calls s ->
              (exists c', digital_human_client s' = Some c'
                          /\ Avatar.websocket c' = Avatar.websocket c) ->
              forall r1 s'',
                join_room_resume t_fail1 N1 live t s' = (r1, s'') ->
                length (tasks s'') = length (tasks s)
                /\ tasks s'' !! t = Some true
                /\ pending_requests s'' !! live = None
                /\ (connect_calls s <= connect_calls s''
                    <= connect_calls s + 3)%nat
                /\ (overall_timeout N1 = None ->
                    Avatar.websocket c = None
                    \/ Avatar.websocket c = Some Avatar.CLOSED ->
                    (connect_calls s < connect_calls s'')%nat)
                /\ (r1 = Return Joined ->
                    active_sessions s'' !! live = Some (mkSession "active")
                    /\ exists c'', digital_human_client s'' = Some c''
                                   /\ Avatar.is_connected c'' = true
                                   /\ Avatar.live_id c'' = Some live)).
    { intros s' Et Ep Ec (c' & Hc' & Hw') r1 s'' Hr.
      unfold join_room_resume in Hr. rewrite Hc' in Hr.
      destruct (overall_timeout N1) as [cx|] eqn:Hto.
      { unfold on_http in Hr. injection Hr as <- <-. cbn.
        rewrite Et, Ec, length_insert, list_lookup_insert_eq by done.
        rewrite lookup_delete_eq. repeat split; try done; lia. }
      pose proof (join_room_task_books N1 live t c' s') as (B1 & B2 & B3 & B4 & _).
      destruct (join_room_task N1 live t c' s') as [r s3] eqn:Etask.
      cbn [snd] in B1, B2, B3, B4. rewrite Hw', Ec in B2. rewrite Ec in B1.
      rewrite Et in B3.
      assert (Hbooks : length (tasks s3) = length (tasks s)
                       /\ tasks s3 !! t = Some true
                       /\ pending_requests s3 !! live = None).
      { rewrite B3, B4, length_insert, list_lookup_insert_eq by done.
        by rewrite lookup_delete_eq. }
      destruct Hbooks as (K1 & K2 & K3).
      destruct r.
      - injection Hr as <- <-. cbn.
        repeat split; try done; try lia; try (by intros _; apply B2).
        + by apply join_room_task_joined in Etask as [? _].
        + by apply join_room_task_joined in Etask as [_ ?].
      - unfold on_http in Hr. injection Hr as <- <-. cbn.
        repeat split; first [done | lia | by intros _; apply B2].
      - unfold on_exception in Hr. injection Hr as <- <-. cbn.
        rewrite lookup_delete_eq.
        repeat split; first [done | lia | by intros _; apply B2].
      - injection Hr as <- <-. cbn.
        repeat split; first [done | lia | by intros _; apply B2]. }
    unfold join_room, join_room_entry. rewrite Hc.
    destruct (check_existing live c s) as [sx|] eqn:E.
    + assert (Hv : session_valid live c s = false).
      { destruct (session_valid live c s) eqn:Hv; [|done].
        apply check_existing_valid in Hv. congruence. }
      destruct (check_existing_frame _ _ _ _ E) as (Fp & Ft & Ff & Fc & Fl & _).
      assert (Hpend : join_pending sx live = true).
      { unfold join_pending, task_done. by rewrite Fp, Ft, Hp, Ht. }
      rewrite Hpend, Hv. unfold on_http. eexists. split; [reflexivity|].
      cbn [tasks pending_requests connect_calls digital_human_client set_failed].
      split; [exact Ft|]. split; [exact Fp|]. split; [exact Fc|].
      pose proof (check_existing_client _ _ _ _ Hc E) as Hcl.
      split; [exact Hcl|].
      apply Hresume; cbn; done.
    + apply check_existing_valid in E. rewrite E.
      eexists. split; [reflexivity|].
      split; [done|]. split; [done|]. split; [done|].
      split; [by eexists|].
      apply Hresume; try done. by eexists.
Qed.

End JoinRoom.

(** Room "room" failed at clock 0.  At clock 4 a request is turned away
    with 6 seconds to wait; at clock 12 it passes the test. *)
Lemma cooldown_enforced_witness :
  (exists s',
     Coordinator.join_room 4 4 Coordinator.obliging "room" Coordinator.cooling_server
     = (Coordinator.RaiseHTTP (Coordinator.mkHTTP 429 (Coordinator.CooldownWait 6)), s')
     /\ Coordinator.tasks s' = []
     /\ Coordinator.connect_calls s' = 0%nat
     /\ Coordinator.pending_requests s' = ∅
     /\ Coordinator.connection_lock s' = false
     /\ Coordinator.failed_requests s'
        = <["room" := 4%float]> {[ "room" := 0%float ]})
  /\ (exists s',
        Coordinator.join_room_entry 12 "room" Coordinator.cooling_server
        = (Coordinator.EntryProceed, s')
        /\ Coordinator.failed_requests s' !! "room" = None
        /\ Coordinator.tasks s' = []
        /\ Coordinator.connect_calls s' = 0%nat).
Proof.
  split.
  - apply (proj1 (proj1 (cooldown_enforced 4 4 0 Coordinator.obliging "room"
                           Coordinator.cooling_server Avatar.init
                           eq_refl eq_refl eq_refl eq_refl) eq_refl) 6 eq_refl).
  - apply (proj2 (cooldown_enforced 12 12 0 Coordinator.obliging "room"
                    Coordinator.cooling_server Avatar.init
                    eq_refl eq_refl eq_refl eq_refl) eq_refl).
Defined.

(** C5 as stated fails when another test comes first, and at the edge of
    the window.  (a) The room has a valid active session: the request
    inside the cooldown is answered "already active", not rejected.
    (b) A join of the room is pending: the rejection is the "in progress"
    one, with no seconds.  (c) The failure is recorded at the double
    nearest 0.1 and the request reads the double nearest 10.1: the two
    are less than 10 apart, but their difference as a double is 10.0, so
    the request is not rejected and joins. *)
Lemma cooldown_not_always_enforced :
  (let s := Coordinator.mkState
              (Some (Avatar.mkClient (Some Avatar.OPEN) (Some "room")))
              {[ "room" := Coordinator.mkSession "active" ]} ∅ [true]
              {[ "room" := 0%float ]} false 1 in
   (Coordinator.join_room 4 4 Coordinator.obliging "room" s).1
   = Coordinator.Return Coordinator.AlreadyActive)
  /\ (let s := Coordinator.mkState (Some Avatar.init) ∅ {[ "room" := 0%nat ]}
                 [false] {[ "room" := 0%float ]} true 0 in
      (Coordinator.join_room 4 4 Coordinator.obliging "room" s).1
      = Coordinator.RaiseHTTP (Coordinator.mkHTTP 429 Coordinator.InProgress))
  /\ (let t0 := 0x1.999999999999ap-4%float in
      let now := 0x1.4333333333333p+3%float in
      let s := Coordinator.set_failed {[ "room" := t0 ]}
                 Coordinator.fresh_server in
      (Coordinator.float_value now - Coordinator.float_value t0 < 10)%Q
      /\ PrimFloat.sub now t0 = 10%float
      /\ (Coordinator.join_room now now Coordinator.obliging "room" s).1
         = Coordinator.Return Coordinator.Joined).
Proof.
  split; [vm_compute; reflexivity|]. split; [vm_compute; reflexivity|].
  cbv zeta. split; [vm_compute; reflexivity|].
  split; vm_compute; reflexivity.
Qed.

(** A request at clock 5 inside the cooldown that began at 0: the record
    becomes 5, and a request at clock 12 is still turned away, with 3
    seconds to wait. *)
Lemma join_failure_recorded_witness :
  let s' := (Coordinator.join_room 5 5 Coordinator.obliging "room"
               Coordinator.cooling_server).2 in
  Coordinator.failed_requests s' !! "room" = Some 5%float
  /\ Coordinator.check_cooldown 12 "room" s'
     = Coordinator.CooldownReject
         (Coordinator.mkHTTP 429 (Coordinator.CooldownWait 3)).
Proof.
  pose proof (join_failure_recorded 5 5 Coordinator.obliging "room"
                Coordinator.cooling_server
                (Coordinator.join_room 5 5 Coordinator.obliging "room"
                   Coordinator.cooling_server).2
                (Coordinator.mkHTTP 429 (Coordinator.CooldownWait 5))
                eq_refl) as [H1 H2].
  split; [exact H1 | exact (H2 12%float 3 eq_refl eq_refl)].
Defined.

(** Two requests for "room" on a fresh server: the first creates task 0
    and waits; the second, at clock 1, is rejected and only task 0
    exists; the first then resumes and joins, having called [connect]
    once. *)
Lemma second_join_rejected_witness :
  (Coordinator.tasks Coordinator.waiting_server = [] ++ [false]
   /\ Coordinator.pending_requests Coordinator.waiting_server !! "room" = Some 0%nat
   /\ Coordinator.tasks Coordinator.waiting_server !! 0%nat = Some false
   /\ Coordinator.active_sessions Coordinator.waiting_server !! "room" = None
   /\ Coordinator.connect_calls Coordinator.waiting_server = 0%nat)
  /\ exists s',
       Coordinator.join_room 1 1 Coordinator.obliging "room"
         Coordinator.waiting_server
       = (Coordinator.RaiseHTTP (Coordinator.mkHTTP 429 Coordinator.InProgress), s')
       /\ Coordinator.tasks s' = [false]
       /\ Coordinator.pending_requests s' = {[ "room" := 0%nat ]}
       /\ Coordinator.connect_calls s' = 0%nat
       /\ (Coordinator.join_room_resume 2 Coordinator.obliging "room" 0 s').1
          = Coordinator.Return Coordinator.Joined
       /\ Coordinator.tasks
            (Coordinator.join_room_resume 2 Coordinator.obliging "room" 0 s').2
          = [true]
       /\ Coordinator.connect_calls
            (Coordinator.join_room_resume 2 Coordinator.obliging "room" 0 s').2
          = 1%nat.
Proof.
  destruct (second_join_rejected 0 1 2 1 Coordinator.obliging Coordinator.obliging
              "room" Coordinator.fresh_server Coordinator.fresh_server
              Coordinator.waiting_server Coordinator.waiting_server
              0%nat Avatar.init eq_refl eq_refl eq_refl eq_refl eq_refl)
    as (H1 & s' & H2 & H3 & H4 & H5 & _ & _).
  split; [exact H1|]. exists s'.
  split; [exact H2|]. split; [exact H3|]. split; [exact H4|].
  split; [exact H5|].
  vm_compute in H2. injection H2 as <-. vm_compute. done.
Defined.

(** C7 as stated fails when the second request finds a valid session.
    A join of room "m" holds the lock; two requests for "room" pass the
    tests before the lock and wait for it.  When the lock is released the
    first of them creates its task and joins; then the second takes the
    lock, where only the pending table is tested again, and creates a
    task of its own.  A request for "room" that arrives while this task
    is pending is answered "already active", not rejected. *)
Lemma second_join_already_active :
  exists sC s1 s2 s3 s4,
    Coordinator.join_room_locked "m" Coordinator.fresh_server = inr (0%nat, sC)
    /\ Coordinator.join_room_entry 1 "room" sC = (Coordinator.EntryProceed, sC)
    /\ Coordinator.join_room_resume 2 Coordinator.obliging "m" 0 sC
       = (Coordinator.Return Coordinator.Joined, s1)
    /\ Coordinator.join_room_locked "room" s1 = inr (1%nat, s2)
    /\ Coordinator.join_room_resume 3 Coordinator.obliging "room" 1 s2
       = (Coordinator.Return Coordinator.Joined, s3)
    /\ Coordinator.join_room_locked "room" s3 = inr (2%nat, s4)
    /\ Coordinator.pending_requests s4 !! "room" = Some 2%nat
    /\ Coordinator.tasks s4 !! 2%nat = Some false
    /\ Coordinator.join_room 4 4 Coordinator.obliging "room" s4
       = (Coordinator.Return Coordinator.AlreadyActive, s4)
    /\ Coordinator.tasks s4 = [true; true; false].
Proof.
  do 5 eexists.
  split; [vm_compute; reflexivity|]. split; [vm_compute; reflexivity|].
  split; [vm_compute; reflexivity|]. split; [vm_compute; reflexivity|].
  split; [vm_compute; reflexivity|]. split; [vm_compute; reflexivity|].
  split; [vm_compute; reflexivity|]. split; [vm_compute; reflexivity|].
  split; vm_compute; reflexivity.
Qed.

(** ** C10: what [send_audio] gives back *)

Section SendAudio.

Context (gzip_compress : Py.bytes -> Py.bytes).

Import STT.

Lemma send_audio_except_quiet (e : exn) (c : STTClient) :
  (forall cb x, on_error c = Some cb -> cb x = CbReturn) ->
  is_Exception e = true ->
  send_audio_except e c = Returned false.
Proof.
  intros Hcb He. unfold send_audio_except. rewrite He.
  destruct (on_error c) as [cb|] eqn:E; [|done]. by rewrite (Hcb cb e).
Qed.

(** The locked body keeps the counter, the connection state and the
    callback; it stops at the send only with the counter as sequence. *)
Lemma send_audio_locked_frame (c : STTClient) (a : Py.bytes) (l : bool) :
  match send_audio_locked gzip_compress c a l with
  | Finished _ c' | AwaitSend _ _ c' =>
      seq c' = seq c /\ websocket c' = websocket c
      /\ is_connected c' = is_connected c /\ status c' = status c
      /\ on_error c' = on_error c
  end
  /\ (forall cur req c', send_audio_locked gzip_compress c a l = AwaitSend cur req c' ->
      cur = seq c).
Proof.
  unfold send_audio_locked.
  destruct (current_session c) as [cs|]; [|by repeat split].
  destruct (pcm_to_wav _ _ _ _); [|by repeat split].
  destruct (validate_pcm_audio _ _ _); cbn [negb]; [|by repeat split].
  destruct (new_audio_only_request _ _ _ _); [|by repeat split].
  destruct (websocket (account_audio c cs a)) eqn:E; [|by repeat split].
  repeat split. by intros ? ? ? [= <- _ _].
Qed.

(** C10 (as amended).  Provided the [on_error] callback, if one is set,
    returns normally, and the send either completes or raises an
    Exception (not a cancellation), [send_audio] returns a boolean and
    never raises; it never changes the socket, the connected flag or the
    status; it returns True only after a completed send, and then the
    counter has gone up by exactly one; whenever it returns False (in
    particular when a guard fails, the PCM data is invalid or the send
    raises) the counter is unchanged. *)
Theorem send_audio_returns_bool (c : STTClient) (audio_data : Py.bytes)
    (is_last : bool) (net : send_result) (now : Q) :
  (forall cb x, on_error c = Some cb -> cb x = CbReturn) ->
  (forall e, net = SendRaise e -> is_Exception e = true) ->
  exists b c' sent,
    send_audio gzip_compress c audio_data is_last net now = (Returned b, c', sent)
    /\ websocket c' = websocket c
    /\ is_connected c' = is_connected c
    /\ status c' = status c
    /\ seq c' = (if b then seq c + 1 else seq c)
    /\ (b = true -> net = SendOk /\ length sent = 1%nat)
    /\ (is_connected c = false \/ current_session c = None
        \/ websocket c <> Some OPEN
        \/ (exists cs, current_session c = Some cs
                       /\ validate_pcm_audio audio_data (sample_rate (config cs))
                            (channels (config cs)) = false)
        \/ (exists e, net = SendRaise e) ->
        b = false).
Proof.
  intros Hcb Hnet. unfold send_audio.
  destruct (send_audio_checks c) eqn:Hck; cbn [negb].
  2:{ exists false, c, []. repeat split; try done. }
  unfold send_audio_checks in Hck.
  apply andb_prop in Hck as [Hck Hws]. apply andb_prop in Hck as [Hconn Hsess].
  apply bool_decide_eq_true in Hws. apply bool_decide_eq_true in Hsess.
  destruct Hsess as [cs Hcs].
  destruct (send_audio_locked_frame c audio_data is_last) as [Hfr _].
  unfold send_audio_locked in *. rewrite Hcs in *.
  destruct (pcm_to_wav _ _ _ _) as [wav|].
  2:{ rewrite send_audio_except_quiet by done.
      exists false, c, []. repeat split; done. }
  destruct (validate_pcm_audio audio_data _ _) eqn:Hval; cbn [negb] in *.
  2:{ exists false, c, []. repeat split; done. }
  destruct (new_audio_only_request _ _ _ _) as [request|].
  2:{ rewrite send_audio_except_quiet by done.
      eexists false, _, []. destruct Hfr as (? & ? & ? & ? & ?).
      repeat split; done. }
  cbn [websocket account_audio] in *. rewrite Hws in *.
  destruct Hfr as (Hs & Hw & Hc & Hst & Hoe).
  destruct net as [|e]; cbn [send_audio_resume].
  - eexists true, _, _. split; [reflexivity|]. cbn.
    repeat split; try done.
    intros [H|[H|[H|[(cs' & Hcs' & Hv)|(e & He)]]]]; congruence.
  - rewrite send_audio_except_quiet;
      [|intros cb x Hx; cbn in Hx; by apply Hcb|by apply Hnet].
    eexists false, _, _. split; [reflexivity|]. repeat split; done.
Qed.

End SendAudio.

(** A 4-byte chunk sent on a healthy connection: True, counter 1 -> 2. *)
Lemma send_audio_returns_bool_witness :
  exists b c' sent,
    STT.send_audio STT.stored STT.online [0; 0; 1; 0] false STT.SendOk 1
    = (STT.Returned b, c', sent)
    /\ STT.websocket c' = Some STT.OPEN
    /\ STT.is_connected c' = true
    /\ STT.status c' = STT.RECOGNIZING
    /\ STT.seq c' = (if b then 1 + 1 else 1)
    /\ (b = true -> STT.SendOk = STT.SendOk /\ length sent = 1%nat)
    /\ (true = false \/ STT.current_session STT.online = None
        \/ Some STT.OPEN <> Some STT.OPEN
        \/ (exists cs, STT.current_session STT.online = Some cs
                       /\ STT.validate_pcm_audio [0; 0; 1; 0]
                            (STT.sample_rate (STT.config cs))
                            (STT.channels (STT.config cs)) = false)
        \/ (exists e, STT.SendOk = STT.SendRaise e) ->
        b = false).
Proof.
  apply (send_audio_returns_bool STT.stored STT.online [0; 0; 1; 0] false
           STT.SendOk 1).
  - intros cb x H. discriminate H.
  - intros e H. discriminate H.
Defined.

(** C10 as stated fails in two ways.  The send raises and the client's
    [on_error] callback raises in turn: the callback's exception reaches
    the caller.  The send is cancelled: CancelledError is no Exception and
    reaches the caller. *)
Lemma send_audio_can_raise :
  (STT.send_audio STT.stored STT.online_raising_callback [0; 0; 1; 0] false
     (STT.SendRaise STT.ConnectionClosed) 1).1.1
  = STT.Raised (STT.OtherException 0)
  /\ (STT.send_audio STT.stored STT.online [0; 0; 1; 0] false
        (STT.SendRaise STT.CancelledError) 1).1.1
     = STT.Raised STT.CancelledError.
Proof. split; vm_compute; reflexivity. Qed.

(** ** C6: the STT sequence counter under concurrent callers *)

Section SeqCounter.

Context (gzip_compress : Py.bytes -> Py.bytes).

Import STT.










End SeqCounter.


(** ** C8: what [disconnect] leaves behind *)

Section Disconnect.

Import Avatar.

Lemma run_op_bound (c : DigitalHumanClient) (o : client_op) :
  bound_has_socket c -> bound_has_socket (run_op c o).
Proof.
  unfold bound_has_socket. intros H.
  destruct o as [s|s|id|send|n|]; cbn [run_op].
  - done.
  - cbn. unfold socket_becomes. destruct (websocket c); [done|]. auto.
  - destruct (websocket c) eqn:E; [done|]. auto.
  - unfold stop_live. destruct (websocket c) eqn:E; [|done].
    destruct (negb (live_bound c)); [cbn; congruence|].
    destruct send as [|e]; [cbn; congruence|].
    destruct (is_Exception e); cbn; congruence.
  - unfold disconnect. destruct (websocket c) eqn:E; [|cbn; auto].
    by destruct (disconnect_body c n) as [[r c'] t].
  - done.
Qed.

Lemma run_ops_bound (ops : list client_op) : bound_has_socket (run_ops ops).
Proof.
  unfold run_ops.
  assert (H : forall c, bound_has_socket c -> bound_has_socket (fold_left run_op ops c)).
  { induction ops as [|o ops IH]; intros c Hc; [done|].
    cbn. apply IH. by apply run_op_bound. }
  by apply H.
Qed.

Lemma disconnect_state (c : DigitalHumanClient) (n : net) (s : ws_state) :
  websocket c = Some s -> (disconnect c n).1.2 = mkClient None None.
Proof.
  intros H. unfold disconnect. rewrite H.
  by destruct (disconnect_body c n) as [[r c'] t].
Qed.

(** C8.  After any history of the client, [disconnect] leaves
    [websocket = None] and [live_id = None], however its awaits end; no
    Exception reaches the caller (only a cancellation does).  When a room
    is bound, the first thing it does is send the stop frame; unless that
    send is cancelled it sleeps next; and when the sleep returns and the
    socket is not CLOSED by then, it closes the socket: it has then done
    exactly these three things, in this order.  When no room is bound it
    sends nothing, and closes a socket that is not CLOSED at once.  It
    never closes a socket that is already CLOSED when it looks (the
    socket's own state when no room is bound, its state after the stop
    and the sleep otherwise). *)
Theorem disconnect_clears_binding (ops : list client_op) (n : net) :
  let c := run_ops ops in
  let r := disconnect c n in
  websocket r.1.2 = None
  /\ live_id r.1.2 = None
  /\ (forall e, r.1.1 = Raised e -> is_Exception e = false)
  /\ (live_bound c = true ->
      (exists rest, r.2 = ASend STOP_FRAME :: rest)
      /\ (send_stop n <> Raise CancelledError ->
          exists rest, r.2 = ASend STOP_FRAME :: ASleep :: rest)
      /\ (send_stop n <> Raise CancelledError -> sleep n = Ok ->
          state_after_stop n <> CLOSED ->
          r.2 = [ASend STOP_FRAME; ASleep; AClose])
      /\ (In AClose r.2 -> r.2 = [ASend STOP_FRAME; ASleep; AClose])
      /\ (state_after_stop n = CLOSED -> ~ In AClose r.2))
  /\ (live_bound c = false ->
      (forall f, ~ In (ASend f) r.2)
      /\ (forall s, websocket c = Some s -> s <> CLOSED -> r.2 = [AClose])
      /\ (websocket c = Some CLOSED -> r.2 = [])).
Proof.
  intros c r. subst r. pose proof (run_ops_bound ops) as Hinv.
  fold c in Hinv. clearbody c. unfold bound_has_socket in Hinv.
  destruct (websocket c) as [s|] eqn:Hws.
  2:{ specialize (Hinv eq_refl). unfold disconnect. rewrite Hws.
      cbn. unfold live_bound. rewrite Hinv.
      split; [done|]. split; [done|]. split; [done|]. split; [done|].
      intros _. split; [|done]. intros f []. }
  rewrite (disconnect_state c n s Hws). cbn [websocket live_id].
  split; [done|]. split; [done|].
  unfold disconnect. rewrite Hws.
  unfold disconnect_body, stop_live. rewrite Hws.
  destruct (live_bound c) eqn:Hb; cbn [negb].
  - split.
    { destruct n as [send sl st cl].
      cbn [send_stop sleep state_after_stop close].
      destruct send as [|[]], sl as [|[]], st, cl as [|[]]; cbn;
        by intros ? [= <-]. }
    split; [|done]. intros _.
    destruct n as [send sl st cl].
    cbn [send_stop sleep state_after_stop close].
    split; [|split; [|split; [|split]]].
    + destruct send as [|[]], sl as [|[]], st, cl as [|[]]; cbn; by eexists.
    + intros Hsend.
      destruct send as [|[]]; [| | | |done];
        destruct sl as [|[]], st, cl as [|[]]; cbn; by eexists.
    + intros Hsend -> Hst.
      destruct send as [|[]]; [| | | |done];
        destruct st; try done; destruct cl as [|[]]; cbn; reflexivity.
    + destruct send as [|[]], sl as [|[]], st, cl as [|[]]; cbn;
        intros H; repeat (destruct H as [H|H]; try done).
    + intros ->.
      destruct send as [|[]], sl as [|[]], cl as [|[]]; cbn;
        intros H; repeat (destruct H as [H|H]; try done).
  - cbn iota beta zeta. rewrite Hws.
    split.
    { destruct (bool_decide (s = CLOSED)); [done|].
      destruct (close n) as [|[]]; cbn; by intros ? [= <-]. }
    split; [done|]. intros _. split; [|split].
    + intros f.
      destruct (bool_decide (s = CLOSED)); [by intros []|].
      destruct (close n) as [|[]]; cbn; by intros [H|[]].
    + intros s' [= <-] Hne. rewrite bool_decide_eq_false_2 by done.
      by destruct (close n) as [|[]].
    + intros [= ->]. done.
Qed.

End Disconnect.

(** A client that connected and started room "room": [disconnect] sends
    the stop frame, sleeps, closes the socket, and leaves nothing
    bound. *)
Lemma disconnect_clears_binding_witness :
  let r := Avatar.disconnect
             (Avatar.run_ops [Avatar.OpConnectAssign Avatar.OPEN;
                              Avatar.OpStartLive "room"])
             (Avatar.mkNet Avatar.Ok Avatar.Ok Avatar.OPEN Avatar.Ok) in
  Avatar.websocket r.1.2 = None
  /\ Avatar.live_id r.1.2 = None
  /\ r.2 = [Avatar.ASend Avatar.STOP_FRAME; Avatar.ASleep; Avatar.AClose].
Proof.
  destruct (disconnect_clears_binding
              [Avatar.OpConnectAssign Avatar.OPEN; Avatar.OpStartLive "room"]
              (Avatar.mkNet Avatar.Ok Avatar.Ok Avatar.OPEN Avatar.Ok))
    as (H1 & H2 & _ & H4 & _).
  split; [exact H1|]. split; [exact H2|].
  destruct (H4 eq_refl) as (_ & _ & H & _).
  apply H; [discriminate|reflexivity|discriminate].
Defined.

(** ** WAV helpers *)

Lemma unpack_pack_le_u16 x b :
  STT.pack_le_u16 x = Some b ->
  exists b0 b1, b = [b0; b1] /\ Wav.unpack_le_u16 b = Some x.
Proof.
  unfold STT.pack_le_u16. intros H.
  destruct (Z.leb_spec 0 x); [|done]. destruct (Z.ltb_spec x (2 ^ 16)); [|done].
  simpl in H. injection H as <-. do 2 eexists. split; [reflexivity|].
  unfold Wav.unpack_le_u16. f_equal.
  change 255 with (Z.ones 8). rewrite !Z.land_ones by lia.
  rewrite !Z.shiftr_div_pow2 by lia.
  change (2 ^ 8) with 256. change (2 ^ 16) with 65536 in *.
  Z.div_mod_to_equations. lia.
Qed.

Lemma unpack_pack_le_u32 x b :
  STT.pack_le_u32 x = Some b ->
  exists b0 b1 b2 b3, b = [b0; b1; b2; b3] /\ Wav.unpack_le_u32 b = Some x.
Proof.
  unfold STT.pack_le_u32. intros H.
  destruct (Z.leb_spec 0 x); [|done]. destruct (Z.ltb_spec x (2 ^ 32)); [|done].
  simpl in H. injection H as <-. do 4 eexists. split; [reflexivity|].
  unfold Wav.unpack_le_u32. f_equal.
  change 255 with (Z.ones 8). rewrite !Z.land_ones by lia.
  rewrite !Z.shiftr_div_pow2 by lia.
  change (2 ^ 8) with 256. change (2 ^ 16) with 65536.
  change (2 ^ 24) with 16777216. change (2 ^ 32) with 4294967296 in *.
  Z.div_mod_to_equations. lia.
Qed.

Lemma slice_head {A} (h t : list A) (a b : Z) :
  0 <= a <= b -> b <= Py.len h -> Py.slice (h ++ t) a b = Py.slice h a b.
Proof.
  intros Ha Hb. unfold Py.slice. pose proof (len_nonneg t).
  rewrite !slice_bound_id by (rewrite ?len_app; lia).
  unfold Py.len in *.
  rewrite drop_app_le by lia. apply take_app_le. rewrite length_drop. lia.
Qed.

Lemma pcm_to_wav_shape pcm sr ch bits wav :
  STT.pcm_to_wav pcm sr ch bits = Some wav ->
  exists f0 f1 f2 f3 s0 s1 s2 s3 a0 a1 c0 c1 r0 r1 r2 r3 y0 y1 y2 y3
         k0 k1 d0 d1 z0 z1 z2 z3,
    wav = [82; 73; 70; 70; f0; f1; f2; f3; 87; 65; 86; 69; 102; 109; 116; 32;
           s0; s1; s2; s3; a0; a1; c0; c1; r0; r1; r2; r3; y0; y1; y2; y3;
           k0; k1; d0; d1; 100; 97; 116; 97; z0; z1; z2; z3] ++ pcm
    /\ Wav.unpack_le_u16 [c0; c1] = Some ch
    /\ Wav.unpack_le_u32 [r0; r1; r2; r3] = Some sr
    /\ Wav.unpack_le_u16 [d0; d1] = Some bits
    /\ Wav.unpack_le_u32 [z0; z1; z2; z3] = Some (Py.len pcm).
Proof.
  unfold STT.pcm_to_wav. intros H.
  destruct (STT.pack_le_u32 (36 + _)) as [fs|] eqn:E1; [|done].
  destruct (STT.pack_le_u32 16) as [fm|] eqn:E2; [|done].
  destruct (STT.pack_le_u16 1) as [af|] eqn:E3; [|done].
  destruct (STT.pack_le_u16 ch) as [cb|] eqn:E4; [|done].
  destruct (STT.pack_le_u32 sr) as [rb|] eqn:E5; [|done].
  destruct (STT.pack_le_u32 (_ / 8)) as [yb|] eqn:E6; [|done].
  destruct (STT.pack_le_u16 (_ / 8)) as [kb|] eqn:E7; [|done].
  destruct (STT.pack_le_u16 bits) as [db|] eqn:E8; [|done].
  destruct (STT.pack_le_u32 (Py.len pcm)) as [zb|] eqn:E9; [|done].
  simpl in H. injection H as <-.
  apply unpack_pack_le_u32 in E1 as (f0 & f1 & f2 & f3 & -> & _).
  apply unpack_pack_le_u32 in E2 as (s0 & s1 & s2 & s3 & -> & _).
  apply unpack_pack_le_u16 in E3 as (a0 & a1 & -> & _).
  apply unpack_pack_le_u16 in E4 as (c0 & c1 & -> & Hc).
  apply unpack_pack_le_u32 in E5 as (r0 & r1 & r2 & r3 & -> & Hr).
  apply unpack_pack_le_u32 in E6 as (y0 & y1 & y2 & y3 & -> & _).
  apply unpack_pack_le_u16 in E7 as (k0 & k1 & -> & _).
  apply unpack_pack_le_u16 in E8 as (d0 & d1 & -> & Hd).
  apply unpack_pack_le_u32 in E9 as (z0 & z1 & z2 & z3 & -> & Hz).
  exists f0, f1, f2, f3, s0, s1, s2, s3, a0, a1, c0, c1, r0, r1, r2, r3.
  exists y0, y1, y2, y3, k0, k1, d0, d1, z0, z1, z2, z3.
  repeat split; done.
Qed.

(** X2. Whatever [pcm_to_wav] builds is 44 bytes longer than the PCM data
    and is recognised by [judge_wav]. *)
Theorem pcm_to_wav_is_wav pcm sr ch bits wav :
  STT.pcm_to_wav pcm sr ch bits = Some wav ->
  Py.len wav = 44 + Py.len pcm /\ Wav.judge_wav wav = true.
Proof.
  intros H.
  apply pcm_to_wav_shape in H
    as (f0 & f1 & f2 & f3 & s0 & s1 & s2 & s3 & a0 & a1 & c0 & c1 & r0 & r1
        & r2 & r3 & y0 & y1 & y2 & y3 & k0 & k1 & d0 & d1 & z0 & z1 & z2 & z3
        & -> & _).
  pose proof (len_nonneg pcm) as Hp.
  split; [rewrite len_app; reflexivity|].
  unfold Wav.judge_wav. rewrite len_app.
  change (Py.len [_; _; _; _; _; _; _; _; _; _; _; _; _; _; _; _; _; _; _; _; _; _;
    _; _; _; _; _; _; _; _; _; _; _; _; _; _; _; _; _; _; _; _; _; _]) with 44.
  destruct (Z.ltb_spec (44 + Py.len pcm) 44); [lia|].
  rewrite !slice_head by (change (Py.len _) with 44; lia).
  reflexivity.
Qed.

Lemma read_wav_info_pcm_to_wav pcm sr ch bits wav :
  STT.pcm_to_wav pcm sr ch bits = Some wav ->
  Wav.read_wav_info wav =
    if Py.len pcm =? 0 then Some (inl Wav.ValueError)
    else if ch * (bits / 8) =? 0 then Some (inl Wav.ZeroDivisionError)
    else Some (inr (Wav.mkInfo ch (bits / 8) sr
                      (Py.len pcm / (ch * (bits / 8))) pcm)).
Proof.
  intros H.
  apply pcm_to_wav_shape in H
    as (f0 & f1 & f2 & f3 & s0 & s1 & s2 & s3 & a0 & a1 & c0 & c1 & r0 & r1
        & r2 & r3 & y0 & y1 & y2 & y3 & k0 & k1 & d0 & d1 & z0 & z1 & z2 & z3
        & -> & Hc & Hr & Hd & Hz).
  pose proof (len_nonneg pcm) as Hp.
  set (hdr := [82; 73; 70; 70; f0; f1; f2; f3; 87; 65; 86; 69; 102; 109; 116;
               32; s0; s1; s2; s3; a0; a1; c0; c1; r0; r1; r2; r3; y0; y1; y2;
               y3; k0; k1; d0; d1; 100; 97; 116; 97; z0; z1; z2; z3]).
  assert (Hh : Py.len hdr = 44) by reflexivity.
  unfold Wav.read_wav_info. rewrite len_app, Hh.
  destruct (Z.ltb_spec (44 + Py.len pcm) 44); [lia|].
  rewrite !slice_head by (rewrite ?Hh; lia).
  change (Py.slice hdr 0 4) with STT.RIFF.
  change (Py.slice hdr 8 12) with STT.WAVE.
  rewrite !bool_decide_eq_true_2 by reflexivity. cbn [negb].
  change (Py.slice hdr 20 22) with [a0; a1].
  change (Py.slice hdr 22 24) with [c0; c1].
  change (Py.slice hdr 24 28) with [r0; r1; r2; r3].
  change (Py.slice hdr 34 36) with [d0; d1].
  rewrite Hc, Hr, Hd. cbn [Wav.unpack_le_u16].
  cbn [Wav.find_data]. rewrite len_app, Hh.
  destruct (Z.eqb_spec (Py.len pcm) 0) as [E|E].
  - destruct (Z.ltb_spec 36 (44 + Py.len pcm - 8)); [lia|]. reflexivity.
  - destruct (Z.ltb_spec 36 (44 + Py.len pcm - 8)); [|lia].
    rewrite !slice_head by (rewrite ?Hh; lia).
    change (Py.slice hdr (36 + 4) (36 + 8)) with [z0; z1; z2; z3].
    change (Py.slice hdr 36 (36 + 4)) with STT.data.
    rewrite Hz. rewrite bool_decide_eq_true_2 by reflexivity.
    replace (Py.slice (hdr ++ pcm) (36 + 8) (36 + 8 + Py.len pcm)) with pcm.
    + reflexivity.
    + symmetry. rewrite <- (app_nil_r pcm) at 1.
      apply slice_mid; rewrite ?Hh; lia.
Qed.

Lemma concat_chunks {A} (N m : nat) (l : list A) :
  (length l <= m * N)%nat ->
  concat ((fun k => take N (drop (k * N) l)) <$> seq 0 m) = l.
Proof.
  revert l. induction m as [|m IH]; intros l Hl.
  - destruct l; [done|simpl in Hl; lia].
  - cbn [seq fmap list_fmap concat]. rewrite <- seq_shift.
    change (list_fmap nat (list A) ?f (map S ?s)) with (f <$> (S <$> s)).
    rewrite <- list_fmap_compose.
    transitivity (take N l ++ drop N l); [|apply take_drop].
    f_equal.
    etransitivity; [|apply (IH (drop N l)); rewrite length_drop; lia].
    f_equal. apply list_fmap_ext. intros _ k _. simpl.
    rewrite drop_drop. do 2 f_equal; lia.
Qed.

Lemma split_audio_chunks data n :
  0 < n ->
  Wav.split_audio data n =
    (fun k => take (Z.to_nat n) (drop (k * Z.to_nat n) data))
      <$> seq 0 (Z.to_nat ((Py.len data + n - 1) / n)).
Proof.
  intros Hn. unfold Wav.split_audio, Wav.range_step.
  destruct (Z.leb_spec n 0); [lia|].
  unfold seqZ. rewrite <- !list_fmap_compose.
  apply list_fmap_ext. intros i k Hk. simpl.
  apply lookup_seq in Hk as [-> Hk]. simpl in Hk.
  pose proof (len_nonneg data) as Hl.
  assert (Hlt : Z.of_nat i * n < Py.len data).
  { pose proof (Z.div_mod (Py.len data + n - 1) n ltac:(lia)) as Hd.
    pose proof (Z.mod_pos_bound (Py.len data + n - 1) n Hn) as Hm.
    nia. }
  replace (0 + i)%nat with i in * by lia.
  rewrite Z.add_0_r. unfold Py.slice.
  set (e := if Py.len data <? Z.of_nat i * n + n then Py.len data
            else Z.of_nat i * n + n).
  assert (He : Z.of_nat i * n < e <= Py.len data /\ e <= Z.of_nat i * n + n
               /\ (e = Py.len data \/ e = Z.of_nat i * n + n)).
  { subst e. destruct (Z.ltb_spec (Py.len data) (Z.of_nat i * n + n)); lia. }
  assert (0 <= Z.of_nat i * n) by nia.
  rewrite !slice_bound_id by lia.
  replace (Z.to_nat (Z.of_nat i * n)) with (i * Z.to_nat n)%nat by lia.
  apply list_eq. intros j. rewrite !lookup_take, !lookup_drop.
  pose proof (len_nonneg data).
  destruct (decide (j < Z.to_nat (e - Z.of_nat i * n))%nat) as [Hj|Hj];
    destruct (decide (j < Z.to_nat n)%nat) as [Hj'|Hj']; try done; try lia.
  symmetry. apply lookup_ge_None. unfold Py.len in *. lia.
Qed.

(** X1. For a positive segment size [split_audio] cuts the data into
    [ceil(len / size)] segments whose concatenation is the data again; no
    segment is empty or longer than the size, and every segment but the last
    has exactly that size. *)
Theorem split_audio_partition data n :
  0 < n ->
  let segs := Wav.split_audio data n in
  concat segs = data
  /\ Py.len segs = (Py.len data + n - 1) / n
  /\ forall i s, segs !! i = Some s ->
       0 < Py.len s <= n /\ (S i < length segs -> Py.len s = n)%nat.
Proof.
  intros Hn segs. subst segs. rewrite split_audio_chunks by exact Hn.
  pose proof (len_nonneg data) as Hl.
  pose proof (Z.div_mod (Py.len data + n - 1) n ltac:(lia)) as Hd.
  pose proof (Z.mod_pos_bound (Py.len data + n - 1) n Hn) as Hm.
  set (m := (Py.len data + n - 1) / n) in *.
  assert (Hm0 : 0 <= m) by nia.
  split; [|split].
  - apply concat_chunks. unfold Py.len in *. nia.
  - unfold Py.len. rewrite length_fmap, length_seq. lia.
  - intros i s Hs. rewrite length_fmap, length_seq.
    rewrite list_lookup_fmap in Hs.
    destruct (seq 0 (Z.to_nat m) !! i) as [k|] eqn:Hk; [|done].
    apply lookup_seq in Hk as [-> Hk]. simpl in Hs. injection Hs as <-.
    unfold Py.len in *. rewrite length_take, length_drop.
    split; [nia|]. intros Hi. nia.
Qed.

Lemma split_audio_partition_witness :
  concat (Wav.split_audio [1; 2; 3; 4; 5] 2) = [1; 2; 3; 4; 5]
  /\ Py.len (Wav.split_audio [1; 2; 3; 4; 5] 2) = 3.
Proof.
  pose proof (split_audio_partition [1; 2; 3; 4; 5] 2 ltac:(lia)) as H.
  split; [exact (proj1 H) | exact (proj1 (proj2 H))].
Defined.

(** X3. [read_wav_info] reads back what [pcm_to_wav] wrote: for non-empty
    PCM data and a non-zero frame width it returns the channel count, the
    sample width [bits // 8], the sample rate, the frame count and the PCM
    bytes themselves, and [get_segment_size] is the byte count of
    [duration] milliseconds of such audio. *)
Theorem read_wav_info_roundtrip pcm sr ch bits wav duration :
  STT.pcm_to_wav pcm sr ch bits = Some wav ->
  0 < Py.len pcm ->
  ch * (bits / 8) <> 0 ->
  Wav.read_wav_info wav =
    Some (inr (Wav.mkInfo ch (bits / 8) sr (Py.len pcm / (ch * (bits / 8))) pcm))
  /\ Wav.get_segment_size wav duration =
       Some (inr (ch * (bits / 8) * sr * duration / 1000)).
Proof.
  intros H Hp Hz. apply read_wav_info_pcm_to_wav in H.
  destruct (Z.eqb_spec (Py.len pcm) 0); [lia|].
  destruct (Z.eqb_spec (ch * (bits / 8)) 0); [done|].
  split; [exact H|]. unfold Wav.get_segment_size. rewrite H. reflexivity.
Qed.

Lemma read_wav_info_roundtrip_witness :
  exists wav,
    STT.pcm_to_wav [1; 2; 3; 4] 16000 1 16 = Some wav
    /\ Wav.read_wav_info wav = Some (inr (Wav.mkInfo 1 2 16000 2 [1; 2; 3; 4]))
    /\ Wav.get_segment_size wav 200 = Some (inr 6400).
Proof.
  eexists. split; [vm_compute; reflexivity|].
  apply (read_wav_info_roundtrip [1; 2; 3; 4] 16000 1 16 _ 200).
  - vm_compute. reflexivity.
  - vm_compute. reflexivity.
  - vm_compute. discriminate.
Defined.

(** X4. The edge cases of the same composition: the WAV file of empty PCM
    data has no chunk that the scan of [read_wav_info] reaches (ValueError),
    and a frame width of zero bytes (no channel, or fewer than 8 bits per
    sample) makes the frame count a division by zero. *)
Theorem read_wav_info_rejects pcm sr ch bits wav :
  STT.pcm_to_wav pcm sr ch bits = Some wav ->
  (Py.len pcm = 0 -> Wav.read_wav_info wav = Some (inl Wav.ValueError))
  /\ (0 < Py.len pcm -> ch * (bits / 8) = 0 ->
      Wav.read_wav_info wav = Some (inl Wav.ZeroDivisionError)).
Proof.
  intros H. apply read_wav_info_pcm_to_wav in H. split.
  - intros E. rewrite E in H. exact H.
  - intros Hp E. rewrite E in H.
    destruct (Z.eqb_spec (Py.len pcm) 0); [lia|]. exact H.
Qed.

Lemma read_wav_info_rejects_witness :
  exists wav,
    STT.pcm_to_wav [] 16000 1 16 = Some wav
    /\ Wav.judge_wav wav = true
    /\ Wav.read_wav_info wav = Some (inl Wav.ValueError).
Proof.
  eexists. split; [vm_compute; reflexivity|]. split; [vm_compute; reflexivity|].
  apply (read_wav_info_rejects [] 16000 1 16 _); reflexivity.
Defined.

Lemma pcm_to_wav_is_wav_witness :
  exists wav,
    STT.pcm_to_wav [1; 2] 16000 1 16 = Some wav
    /\ Py.len wav = 46 /\ Wav.judge_wav wav = true.
Proof.
  eexists. split; [vm_compute; reflexivity|].
  apply (pcm_to_wav_is_wav [1; 2] 16000 1 16 _). vm_compute. reflexivity.
Defined.

Lemma unpack_le_u32_nonneg b x :
  Forall (fun v => Py.byte_ok v = true) b ->
  Wav.unpack_le_u32 b = Some x -> 0 <= x.
Proof.
  intros Hb. destruct b as [|b0 [|b1 [|b2 [|b3 [|]]]]]; try done.
  simpl. intros [= <-].
  repeat match goal with
         | H : Forall _ (_ :: _) |- _ =>
             apply Forall_cons in H as [?%andb_prop H]
         end.
  lia.
Qed.

Lemma slice_bytes (data : Py.bytes) a b :
  Forall (fun v => Py.byte_ok v = true) data ->
  Forall (fun v => Py.byte_ok v = true) (Py.slice data a b).
Proof. intros H. unfold Py.slice. by apply Forall_take, Forall_drop. Qed.

Lemma find_data_returns data ch bits sr fuel pos :
  Forall (fun v => Py.byte_ok v = true) data ->
  (pos < Py.len data - 8 -> Py.len data - pos < 8 * Z.of_nat fuel) ->
  (0 < fuel)%nat ->
  Wav.find_data fuel data ch bits sr pos <> None.
Proof.
  intros Hb. revert pos. induction fuel as [|fuel IH]; intros pos Hf H0; [lia|].
  cbn [Wav.find_data].
  destruct (Z.ltb_spec pos (Py.len data - 8)) as [Hlt|Hge]; [|done].
  destruct (Wav.unpack_le_u32 _) as [size|] eqn:Hu; [|done].
  apply unpack_le_u32_nonneg in Hu; [|by apply slice_bytes].
  destruct (bool_decide _).
  - by destruct (_ =? 0).
  - apply IH; lia.
Qed.

(** On a byte string the scan of [read_wav_info] ends within its fuel: the
    function returns or raises. *)
Lemma read_wav_info_returns data :
  Forall (fun v => Py.byte_ok v = true) data ->
  Wav.read_wav_info data <> None.
Proof.
  intros Hb. unfold Wav.read_wav_info.
  destruct (_ <? 44); [done|].
  destruct (negb _); [done|]. destruct (negb _); [done|].
  destruct (Wav.unpack_le_u16 _); [|done].
  destruct (Wav.unpack_le_u16 _); [|done].
  destruct (Wav.unpack_le_u32 _); [|done].
  destruct (Wav.unpack_le_u16 _); [|done].
  apply find_data_returns; [done| |lia].
  unfold Py.len. lia.
Qed.

(** ** STT response parser *)

Lemma slice_from_app {A} (pre post : list A) (a : Z) :
  a = Py.len pre -> STTParse.slice_from (pre ++ post) a = post.
Proof.
  intros ->. unfold STTParse.slice_from. rewrite len_app.
  pose proof (slice_mid pre post [] (Py.len pre) (Py.len pre + Py.len post)
                eq_refl eq_refl) as H.
  by rewrite app_nil_r in H.
Qed.

Lemma slice_first4 {A} (l : list A) :
  4 <= Py.len l -> exists a b c d t, l = [a; b; c; d] ++ t.
Proof.
  unfold Py.len. intros H.
  destruct l as [|a [|b [|c [|d t]]]]; simpl in H; try lia.
  by exists a, b, c, d, t.
Qed.

Section STTParseProps.

Context {pyfloat : Type}.
Context (float_truthy : pyfloat -> bool).
Context (gzip_compress : Py.bytes -> Py.bytes).
Context (gzip_decompress : Py.bytes -> option Py.bytes).
Context (json_loads : Py.bytes -> option (STTParse.value pyfloat)).

Abbreviation parse_response :=
  (STTParse.parse_response float_truthy gzip_decompress json_loads).

(** X5. What [new_audio_only_request] builds, [parse_response] reads back:
    the sequence field with its sign ([-seq] for the last packet, [seq]
    otherwise) and the last-packet flag; nothing else of the response is
    touched and nothing is raised, whatever [gzip.decompress] makes of the
    bytes behind the sequence field. *)
Theorem audio_request_parsed seq segment is_last request :
  STT.new_audio_only_request gzip_compress seq segment is_last = Some request ->
  parse_response request =
    inr (STTParse.mkResponse 0 0 is_last (if is_last then - seq else seq) 0
           STTParse.JNull (STTParse.JStr "") (STTParse.JBool false)).
Proof.
  unfold STT.new_audio_only_request. intros H.
  set (x := if is_last then - seq else seq) in *.
  destruct (STT.Header_as_bytes _) as [hb|] eqn:Hh; [|done].
  cbn [mbind option_bind] in H.
  unfold Py.to_bytes4_signed in H.
  destruct (Z.leb_spec (- 2 ^ 31) x); [|done].
  destruct (Z.ltb_spec x (2 ^ 31)); [|done].
  cbn [andb mbind option_bind] in H.
  destruct (Py.pack_u32 _) as [sz|] eqn:Hs; [|done].
  cbn [mbind option_bind] in H. injection H as <-.
  unfold Py.pack_u32 in Hs. destruct (_ && _); [|done]. injection Hs as <-.
  assert (Hhb : hb = [17; (if is_last then 35 else 33); 1; 0]).
  { destruct is_last; vm_compute in Hh; by injection Hh as <-. }
  subst hb.
  set (rest := Py.be4 (Py.len (gzip_compress segment)) ++ gzip_compress segment).
  set (sq := Py.be4 (x mod 2 ^ 32)).
  change (parse_response ([17; (if is_last then 35 else 33); 1; 0] ++ sq ++ rest)
          = inr (STTParse.mkResponse 0 0 is_last x 0 STTParse.JNull
                   (STTParse.JStr "") (STTParse.JBool false))).
  assert (Hsq : STTParse.unpack_be_i32 (Py.slice (sq ++ rest) 0 4) = Some x).
  { rewrite slice_head by (change (Py.len sq) with 4; lia).
    change (Py.slice sq 0 4) with sq.
    unfold STTParse.unpack_be_i32, sq, Py.be4 at 1.
    f_equal. apply be4_signed. lia. }
  assert (Hrest : STTParse.slice_from (sq ++ rest) 4 = rest)
    by (by apply slice_from_app).
  assert (Hne : exists b t, rest = b :: t) by (by do 2 eexists).
  assert (Hall : STTParse.slice_from
                   ([17; (if is_last then 35 else 33); 1; 0] ++ sq ++ rest) 4
                 = sq ++ rest) by (by apply slice_from_app).
  assert (I0 : Py.index ([17; (if is_last then 35 else 33); 1; 0] ++ sq ++ rest) 0
               = Some 17) by (by apply (index_lookup _ 0%nat)).
  assert (I1 : Py.index ([17; (if is_last then 35 else 33); 1; 0] ++ sq ++ rest) 1
               = Some (if is_last then 35 else 33))
    by (by apply (index_lookup _ 1%nat)).
  assert (I2 : Py.index ([17; (if is_last then 35 else 33); 1; 0] ++ sq ++ rest) 2
               = Some 1) by (by apply (index_lookup _ 2%nat)).
  clearbody sq rest. destruct Hne as (b & t & ->).
  unfold STTParse.parse_response. rewrite I0, I1, I2.
  cbv zeta. change (Z.land 17 15 * 4) with 4. rewrite Hall.
  unfold STTParse.read_flag_fields, STTParse.read_type_fields.
  destruct is_last; subst x;
    [ change (Z.land 35 15) with 3; change (Z.shiftr 35 4) with 2
    | change (Z.land 33 15) with 1; change (Z.shiftr 33 4) with 2 ];
    change (Py.truthy (Z.land 3 1)) with true;
    change (Py.truthy (Z.land 3 2)) with true;
    change (Py.truthy (Z.land 3 4)) with false;
    change (Py.truthy (Z.land 1 1)) with true;
    change (Py.truthy (Z.land 1 2)) with false;
    change (Py.truthy (Z.land 1 4)) with false;
    change (2 =? STT.SERVER_FULL_RESPONSE) with false;
    change (2 =? STT.SERVER_ERROR_RESPONSE) with false;
    cbv iota; rewrite Hsq, Hrest; cbv iota;
    change (Z.land 1 15 =? STT.COMPRESSION_GZIP) with true; cbv iota;
    unfold STTParse.read_payload;
    change (Z.shiftr 1 4 =? STT.JSON) with false;
    destruct (gzip_decompress _); reflexivity.
Qed.

Lemma len_slice_from {A} (l : list A) (a : Z) :
  0 <= a <= Py.len l -> Py.len (STTParse.slice_from l a) = Py.len l - a.
Proof.
  intros H. unfold STTParse.slice_from, Py.slice.
  rewrite !slice_bound_id by lia. unfold Py.len in *.
  rewrite length_take, length_drop. lia.
Qed.

Lemma unpack_first4 (l : Py.bytes) :
  4 <= Py.len l ->
  (exists v, STTParse.unpack_be_i32 (Py.slice l 0 4) = Some v)
  /\ (exists v, STTParse.unpack_be_u32 (Py.slice l 0 4) = Some v).
Proof.
  intros H. apply slice_first4 in H as (a & b & c & d & t & ->).
  rewrite slice_head by (change (Py.len [a; b; c; d]) with 4; lia).
  change (Py.slice [a; b; c; d] 0 4) with [a; b; c; d].
  split; eexists; reflexivity.
Qed.

Lemma unpack_second4 (l : Py.bytes) :
  8 <= Py.len l ->
  exists v, STTParse.unpack_be_u32 (Py.slice l 4 8) = Some v.
Proof.
  intros H. unfold Py.len in H.
  destruct l as [|a [|b [|c [|d [|e [|f [|g [|h t]]]]]]]]; simpl in H; try lia.
  pose proof (slice_mid [a; b; c; d] [e; f; g; h] t 4 8 eq_refl eq_refl) as E.
  cbn [app] in E. rewrite E. eexists; reflexivity.
Qed.

Lemma read_flag_fields_returns flags (r : @STTParse.STTResponse pyfloat) payload :
  8 <= Py.len payload ->
  exists r' payload',
    STTParse.read_flag_fields flags r payload = inr (r', payload')
    /\ Py.len payload - 8 <= Py.len payload'.
Proof.
  intros H. unfold STTParse.read_flag_fields.
  destruct (Py.truthy (Z.land flags 1)).
  - destruct (unpack_first4 payload ltac:(lia)) as [[s ->] _].
    pose proof (len_slice_from payload 4 ltac:(lia)) as L1.
    destruct (Py.truthy (Z.land flags 4)).
    + destruct (unpack_first4 (STTParse.slice_from payload 4) ltac:(lia))
        as [[ev ->] _].
      do 2 eexists. split; [reflexivity|].
      rewrite len_slice_from; lia.
    + do 2 eexists. split; [reflexivity|]. lia.
  - destruct (Py.truthy (Z.land flags 4)).
    + destruct (unpack_first4 payload ltac:(lia)) as [[ev ->] _].
      do 2 eexists. split; [reflexivity|].
      rewrite len_slice_from; lia.
    + do 2 eexists. split; [reflexivity|]. lia.
Qed.

Lemma read_type_fields_returns message_type
    (r : @STTParse.STTResponse pyfloat) payload :
  8 <= Py.len payload ->
  exists r' payload',
    STTParse.read_type_fields message_type r payload = inr (r', payload').
Proof.
  intros H. unfold STTParse.read_type_fields.
  destruct (unpack_first4 payload ltac:(lia)) as [[c Hc] [sz Hsz]].
  destruct (unpack_second4 payload H) as [sz' Hsz'].
  rewrite Hc, Hsz, Hsz'.
  destruct (_ =? _); [by do 2 eexists|].
  destruct (_ =? _); by do 2 eexists.
Qed.

(** X6. [parse_response] raises only on a frame that is too short: fewer
    than three bytes give IndexError, and a frame that has 16 bytes behind
    the header it announces always yields a response, whatever the flags and
    the message type are and whether or not decompression and JSON loading
    succeed. *)
Theorem parse_response_raises_only_when_short (msg : Py.bytes) :
  (Py.len msg < 3 -> parse_response msg = inl STTParse.IndexError)
  /\ (forall m0, Py.index msg 0 = Some m0 ->
      4 * Z.land m0 15 + 16 <= Py.len msg ->
      exists r, parse_response msg = inr r).
Proof.
  split.
  - intros H. unfold STTParse.parse_response, Py.len in *.
    destruct msg as [|a [|b [|c t]]]; simpl in H; try lia; reflexivity.
  - intros m0 H0 Hlen.
    assert (Hm : 0 <= Z.land m0 15) by (apply Z.land_nonneg; lia).
    unfold STTParse.parse_response. rewrite H0.
    assert (H3 : 3 <= Py.len msg) by lia. unfold Py.len in H3.
    destruct msg as [|a [|b [|c t]]]; simpl in H3; try lia.
    rewrite (index_lookup _ 1%nat b) by reflexivity.
    rewrite (index_lookup _ 2%nat c) by reflexivity.
    cbv zeta.
    set (msg := a :: b :: c :: t) in *.
    pose proof (len_slice_from msg (Z.land m0 15 * 4) ltac:(lia)) as L.
    destruct (read_flag_fields_returns (Z.land b 15) STTParse.new_STTResponse
                (STTParse.slice_from msg (Z.land m0 15 * 4)) ltac:(lia))
      as (r1 & p1 & -> & L1).
    destruct (read_type_fields_returns (Z.shiftr b 4) r1 p1 ltac:(lia))
      as (r2 & p2 & ->).
    destruct p2; [by eexists|].
    destruct (_ =? _); [|by eexists].
    destruct (gzip_decompress _); by eexists.
Qed.

Lemma read_flag_fields_text flags (r : @STTParse.STTResponse pyfloat)
    payload r' payload' :
  STTParse.read_flag_fields flags r payload = inr (r', payload') ->
  STTParse.text r' = STTParse.text r
  /\ STTParse.payload_msg r' = STTParse.payload_msg r.
Proof.
  unfold STTParse.read_flag_fields. intros H.
  repeat match type of H with
         | context [if ?b then _ else _] => destruct b
         | context [match ?o with Some _ => _ | None => _ end] => destruct o
         end;
    try discriminate; injection H as <- <-; by split.
Qed.

Lemma read_type_fields_text message_type (r : @STTParse.STTResponse pyfloat)
    payload r' payload' :
  STTParse.read_type_fields message_type r payload = inr (r', payload') ->
  STTParse.text r' = STTParse.text r
  /\ STTParse.payload_msg r' = STTParse.payload_msg r.
Proof.
  unfold STTParse.read_type_fields. intros H.
  repeat match type of H with
         | context [if ?b then _ else _] => destruct b
         | context [match ?o with Some _ => _ | None => _ end] => destruct o
         end;
    try discriminate; injection H as <- <-; by split.
Qed.

Lemma read_payload_text ser r payload :
  STTParse.text r = STTParse.JStr "" ->
  let r' := STTParse.read_payload float_truthy json_loads ser r payload in
  STTParse.text r' = STTParse.JStr ""
  \/ STTParse._extract_text float_truthy r' = STTParse.text r'.
Proof.
  intros Ht r'. subst r'. unfold STTParse.read_payload.
  destruct (ser =? STT.JSON); [|by left].
  destruct (json_loads payload) as [v|]; [|by left].
  destruct v as [| | | | |l|d]; try by left.
  destruct (STTParse.truthy float_truthy (STTParse.JDict d)) eqn:Hd; [|by left].
  destruct (STTParse.dict_get d "result") as [[| | | | | |res]|] eqn:Hr;
    try by left.
  destruct (STTParse.dict_get res "text") as [t|] eqn:Htx; [|by left].
  right. unfold STTParse._extract_text. cbn [STTParse.payload_msg
    STTParse.set_text_final STTParse.set_payload_msg STTParse.text].
  rewrite Hd. cbn [negb]. rewrite Hr, Htx. reflexivity.
Qed.

Lemma extract_text_parsed (msg : Py.bytes) r :
  parse_response msg = inr r ->
  STTParse.text r <> STTParse.JStr "" ->
  STTParse._extract_text float_truthy r = STTParse.text r.
Proof.
  unfold STTParse.parse_response. intros H Hne.
  destruct (Py.index msg 0) as [m0|]; [|done].
  destruct (Py.index msg 1) as [m1|]; [|done].
  destruct (Py.index msg 2) as [m2|]; [|done].
  cbv zeta in H.
  destruct (STTParse.read_flag_fields _ _ _) as [|[r1 p1]] eqn:E1; [done|].
  destruct (STTParse.read_type_fields _ _ _) as [|[r2 p2]] eqn:E2; [done|].
  apply read_flag_fields_text in E1 as [T1 _].
  apply read_type_fields_text in E2 as [T2 _].
  assert (T : STTParse.text r2 = STTParse.JStr "") by (by rewrite T2, T1).
  assert (Hp : forall ser p,
             r = STTParse.read_payload float_truthy json_loads ser r2 p ->
             STTParse._extract_text float_truthy r = STTParse.text r).
  { intros ser p ->.
    destruct (read_payload_text ser r2 p T) as [E|E]; [done|exact E]. }
  destruct p2 as [|b p2]; [injection H as <-; done|].
  destruct (_ =? _).
  - destruct (gzip_decompress _); injection H as <-; [by eapply Hp|done].
  - injection H as <-. by eapply Hp.
Qed.

(** X7. The parser and the text processor agree: whenever [parse_response]
    has filled the [text] attribute, [_extract_text] returns that very
    object, and for a response without error code and with a non-empty text
    [process_response] reports and stores it, as the final text or as the
    current one. *)
Theorem processor_reports_parsed_text (msg : Py.bytes) r p :
  parse_response msg = inr r ->
  STTParse.text r <> STTParse.JStr "" ->
  STTParse._extract_text float_truthy r = STTParse.text r
  /\ (STTParse.code r = 0 ->
      STTParse.truthy float_truthy (STTParse.text r) = true ->
      STTParse.process_response float_truthy p r =
        if STTParse.truthy float_truthy
             (STTParse._is_final_result float_truthy r)
        then (STTParse.FinalResult (STTParse.text r),
              STTParse.mkProcessor (STTParse.current_text p)
                (STTParse.text r) false)
        else (STTParse.Recognising (STTParse.text r),
              STTParse.mkProcessor (STTParse.text r)
                (STTParse.final_text p) true)).
Proof.
  intros H Hne. pose proof (extract_text_parsed msg r H Hne) as E.
  split; [exact E|]. intros Hc Ht.
  unfold STTParse.process_response. rewrite Hc, E, Ht. reflexivity.
Qed.

End STTParseProps.

Lemma audio_request_parsed_witness :
  exists request,
    STT.new_audio_only_request STT.stored 3 [0; 1] true = Some request
    /\ STTParse.parse_response (pyfloat := unit) (fun _ => true)
         (fun _ => None) (fun _ => None) request
       = inr (STTParse.mkResponse 0 0 true (-3) 0 STTParse.JNull
                (STTParse.JStr "") (STTParse.JBool false)).
Proof.
  eexists. split; [vm_compute; reflexivity|].
  apply (audio_request_parsed (fun _ => true) STT.stored (fun _ => None)
           (fun _ => None) 3 [0; 1] true).
  vm_compute. reflexivity.
Defined.

Lemma parse_response_raises_only_when_short_witness :
  STTParse.parse_response (pyfloat := unit) (fun _ => true)
    (fun _ => None) (fun _ => None) [17; 145] = inl STTParse.IndexError
  /\ exists r,
       STTParse.parse_response (fun _ => true) (fun _ => None)
         (fun _ => Some STTParse.hi_payload) (STTParse.hi_frame ++ [0; 0; 0; 0; 0; 0]) = inr r.
Proof.
  split.
  - apply (parse_response_raises_only_when_short (fun _ => true)
             (fun _ => None) (fun _ => None) [17; 145]).
    vm_compute. reflexivity.
  - apply (proj2 (parse_response_raises_only_when_short (fun _ => true)
                    (fun _ => None) (fun _ => Some STTParse.hi_payload)
                    (STTParse.hi_frame ++ [0; 0; 0; 0; 0; 0])) 17 eq_refl).
    vm_compute. discriminate.
Defined.

Lemma processor_reports_parsed_text_witness :
  STTParse.parse_response (fun _ => true) (fun _ => None)
    (fun _ => Some STTParse.hi_payload) STTParse.hi_frame = inr STTParse.hi_response
  /\ STTParse.process_response (fun _ => true) STTParse.new_processor
       STTParse.hi_response
     = (STTParse.Recognising (STTParse.JStr "hi"),
        STTParse.mkProcessor (STTParse.JStr "hi") (STTParse.JStr "") true).
Proof.
  split; [vm_compute; reflexivity|].
  apply (proj2 (processor_reports_parsed_text (fun _ => true) (fun _ => None)
                  (fun _ => Some STTParse.hi_payload) STTParse.hi_frame STTParse.hi_response
                  STTParse.new_processor eq_refl ltac:(discriminate)));
    reflexivity.
Defined.

(** ** TTS parser: errors, and the message handler *)

Section TTSParser.

Context {pystr : Type}.
Context (bytes_decode : Py.bytes -> option pystr).

Abbreviation tts_parse := (TTS._parse_response bytes_decode).

Lemma tts_parse_header (res : Py.bytes) r :
  tts_parse (TTS.Binary res) = inr r ->
  exists r0 r1 r2 r3,
    Py.index res 0 = Some r0 /\ Py.index res 1 = Some r1
    /\ Py.index res 2 = Some r2 /\ Py.index res 3 = Some r3
    /\ TTS.header r =
         TTS.mkHeader (Z.land (Z.shiftr r0 4) 15) (Z.land r0 15)
           (Z.land (Z.shiftr r1 4) 15) (Z.land r1 15)
           TTS.NO_SERIALIZATION TTS.COMPRESSION_NO 0
           (Some (Z.shiftr r2 15)) (Some (Z.land r2 15)) (Some r3).
Proof.
  unfold TTS._parse_response. intros H.
  destruct (Py.index res 0) as [r0|]; [|done].
  destruct (Py.index res 1) as [r1|]; [|done].
  destruct (Py.index res 2) as [r2|]; [|done].
  destruct (Py.index res 3) as [r3|]; [|done].
  exists r0, r1, r2, r3. repeat split; try done.
  cbv zeta in H.
  repeat match type of H with
         | context [if ?b then _ else _] => destruct b
         | context [match ?o with inl _ => _ | inr _ => _ end] =>
             destruct o as [?|[? ?]]
         | context [let '(_, _) := ?o in _] => destruct o
         end;
    try discriminate; by injection H as <-.
Qed.

(** X8. How [_parse_response] fails on binary frames: a frame of fewer than
    four bytes raises IndexError; a frame of four bytes or more, truncated
    anywhere, never does: it yields a response, or the UTF-8 decoding of a
    connection or session id fails. *)
Theorem tts_parse_error_cases (res : Py.bytes) :
  (Py.len res < 4 -> tts_parse (TTS.Binary res) = inl TTS.IndexError)
  /\ (4 <= Py.len res ->
      tts_parse (TTS.Binary res) = inl TTS.UnicodeDecodeError
      \/ exists r, tts_parse (TTS.Binary res) = inr r).
Proof.
  unfold Py.len. split; intros H.
  - destruct res as [|a [|b [|c [|d t]]]]; simpl in H; try lia; reflexivity.
  - destruct res as [|a [|b [|c [|d t]]]]; simpl in H; try lia.
    unfold TTS._parse_response.
    rewrite (index_lookup _ 0%nat a), (index_lookup _ 1%nat b),
      (index_lookup _ 2%nat c), (index_lookup _ 3%nat d) by reflexivity.
    cbv zeta. unfold TTS._read_res_content, TTS._read_res_payload.
    repeat match goal with
           | |- context [if ?b then _ else _] => destruct b
           | |- context [bytes_decode ?x] => destruct (bytes_decode x)
           end;
      first [by left | right; by eexists].
Qed.

(** X9. The parsed header never tells how the frame was serialised: the
    third byte is shifted by 15 bits, so [serialization_method] is 0 for
    every byte, and [serial_method] keeps the constructor's default; the
    compression nibble is read as sent. *)
Theorem tts_parse_serialization_lost (res : Py.bytes) r r2 :
  tts_parse (TTS.Binary res) = inr r ->
  Py.index res 2 = Some r2 ->
  Py.byte_ok r2 = true ->
  TTS.serialization_method (TTS.header r) = Some 0
  /\ TTS.serial_method (TTS.header r) = TTS.NO_SERIALIZATION
  /\ TTS.message_compression (TTS.header r) = Some (Z.land r2 15).
Proof.
  intros H H2 Hb.
  apply tts_parse_header in H as (r0 & r1 & r2' & r3 & _ & _ & H2' & _ & ->).
  rewrite H2 in H2'. injection H2' as <-.
  apply andb_prop in Hb as [Hlo Hhi].
  cbn. repeat split. f_equal.
  rewrite Z.shiftr_div_pow2 by lia. apply Z.div_small. lia.
Qed.

End TTSParser.

Section TTSHandlerProps.

Context {pystr : Type}.
Context (str_encode : pystr -> option Py.bytes).
Context (bytes_decode : Py.bytes -> option pystr).

Hypothesis decode_encode :
  forall s b, str_encode s = Some b -> bytes_decode b = Some s.

(** X10. [_handle_message] returns exactly the payload of an audio frame: an
    audio-only response with the event flag, event TTSResponse, a session id
    and a payload. *)
Theorem handle_message_audio_frame (b0 b1 b2 b3 : Z) (sid : pystr)
    (sid_bytes p : Py.bytes) :
  Z.land b1 15 = TTS.MsgTypeFlagWithEvent ->
  Z.land (Z.shiftr b1 4) 15 = TTS.AUDIO_ONLY_RESPONSE ->
  str_encode sid = Some sid_bytes ->
  Py.len sid_bytes < 2 ^ 31 ->
  Py.len p < 2 ^ 31 ->
  TTSHandler._handle_message bytes_decode
    (TTS.Binary ([b0; b1; b2; b3] ++ Py.be4 TTS.EVENT_TTSResponse
                 ++ Py.be4 (Py.len sid_bytes) ++ sid_bytes
                 ++ Py.be4 (Py.len p) ++ p))
  = Some p.
Proof.
  intros Hfl Hty Hsid Hls Hlp.
  pose proof (len_nonneg sid_bytes) as Hs0. pose proof (len_nonneg p) as Hp0.
  pose proof (parse_generic_frame str_encode bytes_decode decode_encode
                b0 b1 b2 b3 TTS.EVENT_TTSResponse sid sid_bytes p
                Hfl eq_refl Hsid Hls Hlp) as Hp.
  cbv zeta in Hp.
  rewrite (Z.mod_small (Py.len sid_bytes)), (Z.mod_small (Py.len p)) in Hp by lia.
  change (TTS.EVENT_TTSResponse mod 2 ^ 32) with TTS.EVENT_TTSResponse in Hp.
  unfold TTSHandler._handle_message. rewrite Hp.
  cbn [TTS.header TTS.optional TTS.message_type TTS.event TTS.payload].
  rewrite Hty. reflexivity.
Qed.

End TTSHandlerProps.

(** X11. A frame whose message type is ERROR_INFORMATION never reaches the
    caller of [_handle_message] as an exception or as audio: the
    TTSSessionError is raised inside the [try] and [None] is returned. *)
Theorem handle_message_drops_error_frame {pystr : Type}
    (bytes_decode : Py.bytes -> option pystr) (res : Py.bytes) (r1 : Z) :
  Py.index res 1 = Some r1 ->
  Z.land (Z.shiftr r1 4) 15 = TTS.ERROR_INFORMATION ->
  TTSHandler._handle_message bytes_decode (TTS.Binary res) = None.
Proof.
  intros H1 Hty. unfold TTSHandler._handle_message.
  destruct (TTS._parse_response bytes_decode (TTS.Binary res)) as [e|r] eqn:E;
    [done|].
  apply tts_parse_header in E as (r0 & r1' & r2 & r3 & _ & H1' & _ & _ & Hh).
  rewrite H1 in H1'. injection H1' as <-.
  rewrite Hh. cbn [TTS.message_type]. rewrite Hty. reflexivity.
Qed.

Lemma tts_parse_serialization_lost_witness :
  exists r,
    TTS._parse_response TTS.ascii_decode (TTS.Binary [17; 180; 16; 0]) = inr r
    /\ TTS.serialization_method (TTS.header r) = Some 0
    /\ TTS.serial_method (TTS.header r) = TTS.NO_SERIALIZATION
    /\ TTS.message_compression (TTS.header r) = Some 0.
Proof.
  eexists. split; [vm_compute; reflexivity|].
  apply (tts_parse_serialization_lost TTS.ascii_decode [17; 180; 16; 0] _ 16);
    reflexivity.
Defined.

Lemma handle_message_audio_frame_witness :
  TTSHandler._handle_message TTS.ascii_decode
    (TTS.Binary [17; 180; 16; 0; 0; 0; 1; 96; 0; 0; 0; 2; 115; 49;
                 0; 0; 0; 3; 1; 2; 3])
  = Some [1; 2; 3].
Proof.
  apply (handle_message_audio_frame TTS.ascii_encode TTS.ascii_decode
           ascii_decode_encode 17 180 16 0 [115; 49] [115; 49] [1; 2; 3]);
    reflexivity.
Defined.

Lemma handle_message_drops_error_frame_witness :
  TTSHandler._handle_message TTS.ascii_decode
    (TTS.Binary [17; 240; 0; 0; 0; 0; 0; 7; 0; 0; 0; 1; 33]) = None.
Proof.
  apply (handle_message_drops_error_frame TTS.ascii_decode _ 240); reflexivity.
Defined.

(** ** The pipeline under every schedule *)

(** A relation between pipeline states that the elementary steps respect is
    respected by [safe_tts_synthesize]. *)
Section FrameTTS.

Import Registry Pipeline PipelineRun.

Variable E : env.
Variable R : pstate -> pstate -> Prop.

Hypothesis R_refl : forall s, R s s.
Hypothesis R_trans : forall a b c, R a b -> R b c -> R a c.
Hypothesis R_pause : forall s, R s (pause E s).
Hypothesis R_attempt : forall s, R s (next_attempt s).
Hypothesis R_tts_call : forall text s, R s (note_tts_call text s).

Lemma frame_collect_chunks ce incoming acc s :
  R s (collect_chunks E ce incoming acc s).2.
Proof.
  revert acc s. induction incoming as [|ch rest IH]; intros acc s; simpl.
  - apply R_pause.
  - destruct (cancelled ce (pause E s)); simpl; [apply R_pause|].
    eapply R_trans; [apply R_pause|apply IH].
Qed.

Lemma frame_tts_retry ce fuel s : R s (tts_retry E ce fuel s).2.
Proof.
  revert s. induction fuel as [|fuel IH]; intros s; [apply R_refl|].
  cbn [tts_retry]. destruct (cancelled ce s); [apply R_refl|].
  assert (Hfail : forall s', R s s' ->
            R s (match fuel with
                 | O => (TtsException, s')
                 | S _ => tts_retry E ce fuel (pause E s')
                 end).2).
  { intros s' Hs'. destruct fuel; [exact Hs'|].
    eapply R_trans; [exact Hs'|]. eapply R_trans; [apply R_pause|apply IH]. }
  assert (Hrun : forall s', R s s' ->
            R s (match collect_chunks E ce (chunks (tts E (attempts s))) [] s' with
                 | (None, s0) => (TtsCancelledError, s0)
                 | (Some audio_chunks, s0) =>
                     if negb (stream_ends (tts E (attempts s)))
                     then match fuel with
                          | O => (TtsException, s0)
                          | S _ => tts_retry E ce fuel (pause E s0)
                          end
                     else if Py.len audio_chunks =? 0
                     then match fuel with
                          | O => (TtsException, s0)
                          | S _ => tts_retry E ce fuel (pause E s0)
                          end
                     else (TtsChunks audio_chunks, s0)
                 end).2).
  { intros s' Hs'.
    pose proof (frame_collect_chunks ce (chunks (tts E (attempts s))) [] s') as Hc.
    destruct (collect_chunks E ce (chunks (tts E (attempts s))) [] s')
      as [[ac|] s0]; simpl in Hc.
    - assert (R s s0) by (eapply R_trans; eassumption).
      destruct (negb _); [by apply Hfail|].
      destruct (_ =? 0); [by apply Hfail|]. done.
    - eapply R_trans; eassumption. }
  destruct (ensure (tts E (attempts s))).
  - apply Hrun. eapply R_trans; [apply R_attempt|apply R_pause].
  - apply Hrun. eapply R_trans; [apply R_attempt|].
    eapply R_trans; apply R_pause.
  - apply Hfail. eapply R_trans; [apply R_attempt|apply R_pause].
Qed.

Lemma frame_safe_tts ce text s : R s (safe_tts_synthesize E ce text s).2.
Proof.
  unfold safe_tts_synthesize.
  eapply R_trans; [apply (R_tts_call text)|apply frame_tts_retry].
Qed.

End FrameTTS.

(** The same for the whole body of [stream_pipeline]. *)
Section Frame.

Import Registry Pipeline PipelineRun.

Variable E : env.
Variable R : pstate -> pstate -> Prop.

Hypothesis R_refl : forall s, R s s.
Hypothesis R_trans : forall a b c, R a b -> R b c -> R a c.
Hypothesis R_pause : forall s, R s (pause E s).
Hypothesis R_emit : forall ev s, R s (emit E ev s).
Hypothesis R_sentence : forall s, R s (next_sentence s).
Hypothesis R_safe_tts : forall ce text s, R s (safe_tts_synthesize E ce text s).2.
Hypothesis R_drive : forall ch s, R s (drive E ch s).2.
Hypothesis R_finish : forall ce s, R s (finish_audio E ce s).

Lemma frame_deliver ce sentence audio_chunks s :
  R s (deliver E ce sentence audio_chunks s).2.
Proof.
  revert s. induction audio_chunks as [|ch rest IH]; intros s; simpl;
    [apply R_refl|].
  destruct (cancelled ce s); [apply R_emit|].
  pose proof (R_drive ch s) as Hd.
  destruct (drive E ch s) as [[|] s1]; simpl in *; [|exact Hd].
  eapply R_trans; [exact Hd|]. eapply R_trans; [apply R_emit|apply IH].
Qed.

Lemma frame_deliver_final sentence audio_chunks s :
  R s (deliver_final E sentence audio_chunks s).2.
Proof.
  revert s. induction audio_chunks as [|ch rest IH]; intros s; simpl;
    [apply R_refl|].
  pose proof (R_drive ch s) as Hd.
  destruct (drive E ch s) as [[|] s1]; simpl in *; [|exact Hd].
  eapply R_trans; [exact Hd|]. eapply R_trans; [apply R_emit|apply IH].
Qed.

Lemma frame_speak_sentence ce sentence s :
  R s (speak_sentence E ce sentence s).2.
Proof.
  unfold speak_sentence.
  assert (Hgo : forall s', R s s' ->
            R s (match safe_tts_synthesize E ce sentence s' with
                 | (TtsCancelledError, s0) => (RaisedCancelled, s0)
                 | (TtsException, s0) => (Normal, emit E (EvTtsError sentence) s0)
                 | (TtsChunks audio_chunks, s0) =>
                     match deliver E ce sentence audio_chunks s0 with
                     | (false, s1) => (Normal, emit E (EvTtsError sentence) s1)
                     | (true, s1) =>
                         (Normal, emit E (EvSentenceProcessed sentence) s1)
                     end
                 end).2).
  { intros s' Hs'. pose proof (R_safe_tts ce sentence s') as Ht.
    destruct (safe_tts_synthesize E ce sentence s') as [[ac| |] s0];
      simpl in *.
    - pose proof (frame_deliver ce sentence ac s0) as Hd.
      destruct (deliver E ce sentence ac s0) as [[|] s1]; simpl in *;
        (eapply R_trans; [exact Hs'|]); (eapply R_trans; [exact Ht|]);
        (eapply R_trans; [exact Hd|]); apply R_emit.
    - eapply R_trans; [exact Hs'|]. eapply R_trans; [exact Ht|]. apply R_emit.
    - eapply R_trans; eassumption. }
  destruct (tts_reconnect E (sentences s)).
  - apply Hgo, R_sentence.
  - apply Hgo. eapply R_trans; [apply R_sentence|apply R_pause].
  - simpl. eapply R_trans; [apply R_sentence|].
    eapply R_trans; [apply R_pause|apply R_emit].
Qed.

Lemma frame_llm_loop ce responses text_buffer sentence_buffer s :
  R s (llm_loop E ce responses text_buffer sentence_buffer s).2.
Proof.
  revert text_buffer sentence_buffer s.
  induction responses as [|resp rest IH]; intros tb sb s; simpl;
    [apply R_refl|].
  destruct (cancelled ce s); [apply R_emit|].
  destruct resp as [chunk|]; [|apply IH].
  destruct (has_sentence_end (sb ++ chunk)).
  - pose proof (frame_speak_sentence ce (strip (sb ++ chunk))
                  (emit E (EvSentenceComplete (strip (sb ++ chunk)))
                     (emit E (EvTextChunk chunk (tb ++ chunk)) s))) as Hs.
    destruct (speak_sentence E ce _ _) as [[| |] s1]; simpl in *;
      (eapply R_trans; [apply R_emit|]); (eapply R_trans; [apply R_emit|]);
      (eapply R_trans; [exact Hs|]); first [apply IH | apply R_refl].
  - eapply R_trans; [apply R_emit|apply IH].
Qed.

Lemma frame_speak_remaining ce sentence_buffer s :
  R s (speak_remaining E ce sentence_buffer s).2.
Proof.
  unfold speak_remaining.
  destruct (_ && _); [|apply R_refl].
  set (sentence := strip sentence_buffer).
  set (s0 := emit E (EvFinalSentence sentence) s).
  assert (H0 : R s s0) by apply R_emit.
  assert (Hgo : forall s', R s s' ->
            R s (match safe_tts_synthesize E ce sentence s' with
                 | (TtsCancelledError, s1) => (RaisedCancelled, s1)
                 | (TtsException, s1) =>
                     (Normal, emit E (EvFinalTtsError sentence) s1)
                 | (TtsChunks audio_chunks, s1) =>
                     match deliver_final E sentence audio_chunks s1 with
                     | (false, s2) =>
                         (Normal, emit E (EvFinalTtsError sentence) s2)
                     | (true, s2) => (Normal, s2)
                     end
                 end).2).
  { intros s' Hs'. pose proof (R_safe_tts ce sentence s') as Ht.
    destruct (safe_tts_synthesize E ce sentence s') as [[ac| |] s1];
      simpl in *.
    - pose proof (frame_deliver_final sentence ac s1) as Hd.
      destruct (deliver_final E sentence ac s1) as [[|] s2]; simpl in *;
        (eapply R_trans; [exact Hs'|]); (eapply R_trans; [exact Ht|]);
        [exact Hd|]. eapply R_trans; [exact Hd|apply R_emit].
    - eapply R_trans; [exact Hs'|]. eapply R_trans; [exact Ht|]. apply R_emit.
    - eapply R_trans; eassumption. }
  destruct (tts_reconnect E (sentences s0)).
  - apply Hgo. eapply R_trans; [exact H0|apply R_sentence].
  - apply Hgo. eapply R_trans; [exact H0|].
    eapply R_trans; [apply R_sentence|apply R_pause].
  - simpl. eapply R_trans; [exact H0|]. eapply R_trans; [apply R_sentence|].
    eapply R_trans; [apply R_pause|apply R_emit].
Qed.

Lemma frame_pipeline_body ce s : R s (pipeline_body E ce s).2.
Proof.
  unfold pipeline_body.
  set (s0 := emit E (EvStart (session_id E) (query E)) s).
  assert (H0 : R s s0) by apply R_emit.
  destruct (cancelled ce s0); [eapply R_trans; [exact H0|apply R_emit]|].
  pose proof (frame_llm_loop ce (llm E) [] [] s0) as Hl.
  destruct (llm_loop E ce (llm E) [] [] s0) as [[[f tb] sb] s1].
  simpl in Hl. assert (H1 : R s s1) by (eapply R_trans; eassumption).
  destruct f; [|exact H1|exact H1].
  pose proof (frame_speak_remaining ce sb s1) as Hr.
  destruct (speak_remaining E ce sb s1) as [f s2]. simpl in Hr.
  assert (H2 : R s s2) by (eapply R_trans; eassumption).
  destruct f; [|exact H2|exact H2]. simpl.
  eapply R_trans; [exact H2|]. eapply R_trans; [apply R_finish|apply R_emit].
Qed.

(** [stream_pipeline] before its [finally]. *)
Lemma frame_before_finally ce s :
  R s (let '(f, s1) := pipeline_body E ce s in
       match f with
       | Normal => s1
       | RaisedCancelled => emit E (EvCancelled (session_id E)) s1
       | RaisedException => emit E (EvError (session_id E)) s1
       end).
Proof.
  pose proof (frame_pipeline_body ce s) as H.
  destruct (pipeline_body E ce s) as [[| |] s1]; simpl in H;
    [exact H| |]; (eapply R_trans; [exact H|apply R_emit]).
Qed.

End Frame.

Section PipelineRuns.

Import Registry Pipeline PipelineRun.

(** A started request registers the session and runs the generator. *)
Lemma run_query_unfold E r :
  run_query E r
  = (let '(ce, r0) := register_stream_session (session_id E) (live_id E) r in
     stream_pipeline E ce (mkState r0 0 [] [] [] 0 0 0)).
Proof.
  unfold run_query, process_query_stream. cbn [negb clients_ready started
    conversation_ok tts_websocket].
  by destruct (register_stream_session (session_id E) (live_id E) r).
Qed.

Lemma stream_pipeline_unfold E ce s :
  stream_pipeline E ce s =
    let s1 := (let '(f, s1) := pipeline_body E ce s in
               match f with
               | Normal => s1
               | RaisedCancelled => emit E (EvCancelled (session_id E)) s1
               | RaisedException => emit E (EvError (session_id E)) s1
               end) in
    mkState (cleanup_stream_session (session_id E) (reg s1)) (tick s1)
            (emitted s1) (avatar_calls s1) (tts_calls s1) (attempts s1)
            (sentences s1) (finish_calls s1).
Proof. unfold stream_pipeline. by destruct (pipeline_body E ce s) as [[| |] s1]. Qed.

(** X15. A query that names no room ([live_id] absent or empty), or that
    runs while the avatar client has no socket, never drives the avatar and
    never calls [finish_streaming_audio]. *)
Theorem no_room_no_avatar_call (E : env) (r : registry) :
  dh_websocket E && truthy_str (live_id E) = false ->
  avatar_calls (run_query E r) = [] /\ finish_calls (run_query E r) = 0%nat.
Proof.
  intros Hno. rewrite !run_query_unfold.
  destruct (register_stream_session (session_id E) (live_id E) r) as [ce r0].
  rewrite stream_pipeline_unfold. cbv zeta.
  cbn [avatar_calls finish_calls].
  set (R := fun s s' : pstate =>
              avatar_calls s' = avatar_calls s
              /\ finish_calls s' = finish_calls s).
  assert (Rt : forall a b c, R a b -> R b c -> R a c).
  { intros a b c [H1 H2] [H3 H4]. split; congruence. }
  assert (Rs : forall ce text s, R s (safe_tts_synthesize E ce text s).2).
  { intros. apply (frame_safe_tts E R); try done. }
  pose proof (frame_before_finally E R ltac:(done) Rt ltac:(done) ltac:(done)
                ltac:(done) Rs) as H.
  apply H.
  - intros ch s. unfold drive. by rewrite Hno.
  - intros ce' s. unfold finish_audio. by rewrite Hno.
Qed.


Lemma emitted_emit E ev s : emitted (emit E ev s) = emitted s ++ [ev].
Proof. reflexivity. Qed.

Lemma emitted_finish_audio E ce s : emitted (finish_audio E ce s) = emitted s.
Proof. unfold finish_audio. by destruct (_ && _). Qed.

Lemma emitted_drive E ch s : emitted (drive E ch s).2 = emitted s.
Proof. unfold drive. by destruct (_ && _). Qed.

(** Events are only ever appended. *)
Lemma emitted_grows E :
  let R := fun s s' : pstate => exists new, emitted s' = emitted s ++ new in
  (forall ce responses tb sb s, R s (llm_loop E ce responses tb sb s).2)
  /\ (forall ce sb s, R s (speak_remaining E ce sb s).2).
Proof.
  intros R.
  assert (Rr : forall s, R s s) by (intros s; exists []; by rewrite app_nil_r).
  assert (Rt : forall a b c, R a b -> R b c -> R a c).
  { intros a b c [n1 H1] [n2 H2]. exists (n1 ++ n2).
    by rewrite H2, H1, app_assoc. }
  assert (Rp : forall s, R s (pause E s))
    by (intros s; exists []; by rewrite app_nil_r).
  assert (Re : forall ev s, R s (emit E ev s)) by (intros ev s; by exists [ev]).
  assert (Rn : forall s, R s (next_sentence s))
    by (intros s; exists []; by rewrite app_nil_r).
  assert (Rs : forall ce text s, R s (safe_tts_synthesize E ce text s).2).
  { intros. apply (frame_safe_tts E R); try done;
      intros; exists []; by rewrite app_nil_r. }
  assert (Rd : forall ch s, R s (drive E ch s).2).
  { intros ch s. exists []. by rewrite emitted_drive, app_nil_r. }
  split.
  - intros. by apply (frame_llm_loop E R).
  - intros. by apply (frame_speak_remaining E R).
Qed.

(** X12. Under every schedule of the other handlers and every failure of
    the LLM, the synthesiser and the avatar, the events of a query begin
    with [start] and end with [complete], [cancelled] or [error]. *)
Theorem stream_starts_and_ends (E : env) (r : registry) :
  exists middle last,
    emitted (run_query E r)
    = EvStart (session_id E) (query E) :: middle ++ [last]
    /\ is_terminal last = true.
Proof.
  rewrite !run_query_unfold.
  destruct (register_stream_session (session_id E) (live_id E) r) as [ce r0].
  rewrite stream_pipeline_unfold. cbv zeta. cbn [emitted].
  destruct (emitted_grows E) as [Hllm Hrem].
  unfold pipeline_body.
  set (s0 := emit E (EvStart (session_id E) (query E)) _).
  assert (E0 : emitted s0 = [EvStart (session_id E) (query E)]) by reflexivity.
  destruct (cancelled ce s0).
  { exists [], (EvCancelled (session_id E)). by rewrite emitted_emit, E0. }
  destruct (Hllm ce (llm E) [] [] s0) as [n1 H1].
  destruct (llm_loop E ce (llm E) [] [] s0) as [[[f tb] sb] s1].
  cbn [snd] in H1. rewrite E0 in H1.
  destruct f.
  - destruct (Hrem ce sb s1) as [n2 H2].
    destruct (speak_remaining E ce sb s1) as [f s2]. cbn [snd] in H2.
    rewrite H1 in H2.
    destruct f.
    + exists (n1 ++ n2), (EvComplete tb (session_id E)).
      by rewrite emitted_emit, emitted_finish_audio, H2, <- !app_assoc.
    + exists (n1 ++ n2), (EvCancelled (session_id E)).
      by rewrite emitted_emit, H2, <- !app_assoc.
    + exists (n1 ++ n2), (EvError (session_id E)).
      by rewrite emitted_emit, H2, <- !app_assoc.
  - exists n1, (EvCancelled (session_id E)). by rewrite emitted_emit, H1.
  - exists n1, (EvError (session_id E)). by rewrite emitted_emit, H1.
Qed.


(** *** How often the synthesiser is called *)

Lemma collect_chunks_counts E ce incoming acc s :
  let s' := (collect_chunks E ce incoming acc s).2 in
  attempts s' = attempts s /\ tts_calls s' = tts_calls s.
Proof.
  apply (frame_collect_chunks E
           (fun s s' => attempts s' = attempts s /\ tts_calls s' = tts_calls s));
    try done.
  intros a b c [H1 H2] [H3 H4]. split; congruence.
Qed.

Lemma tts_retry_counts E ce fuel s :
  let s' := (tts_retry E ce fuel s).2 in
  (attempts s' <= attempts s + fuel)%nat /\ tts_calls s' = tts_calls s.
Proof.
  revert s. induction fuel as [|fuel IH]; intros s; [simpl; split; [lia|done]|].
  cbn [tts_retry]. destruct (cancelled ce s); [simpl; split; [lia|done]|].
  assert (Hfail : forall s',
            attempts s' = S (attempts s) -> tts_calls s' = tts_calls s ->
            let s'' := (match fuel with
                        | O => (TtsException, s')
                        | S _ => tts_retry E ce fuel (pause E s')
                        end).2 in
            (attempts s'' <= attempts s + S fuel)%nat
            /\ tts_calls s'' = tts_calls s).
  { intros s' Ha Ht. destruct fuel; [simpl; split; [lia|done]|].
    destruct (IH (pause E s')) as [H1 H2]. cbv zeta.
    split; [|by rewrite H2]. etransitivity; [exact H1|]. simpl. lia. }
  assert (Hrun : forall s',
            attempts s' = S (attempts s) -> tts_calls s' = tts_calls s ->
            let s'' :=
              (match collect_chunks E ce (chunks (tts E (attempts s))) [] s' with
               | (None, s0) => (TtsCancelledError, s0)
               | (Some audio_chunks, s0) =>
                   if negb (stream_ends (tts E (attempts s)))
                   then match fuel with
                        | O => (TtsException, s0)
                        | S _ => tts_retry E ce fuel (pause E s0)
                        end
                   else if Py.len audio_chunks =? 0
                   then match fuel with
                        | O => (TtsException, s0)
                        | S _ => tts_retry E ce fuel (pause E s0)
                        end
                   else (TtsChunks audio_chunks, s0)
               end).2 in
            (attempts s'' <= attempts s + S fuel)%nat
            /\ tts_calls s'' = tts_calls s).
  { intros s' Ha Ht.
    destruct (collect_chunks_counts E ce (chunks (tts E (attempts s))) [] s')
      as [Hc1 Hc2].
    destruct (collect_chunks E ce (chunks (tts E (attempts s))) [] s')
      as [[ac|] s0]; cbn [snd] in *.
    - destruct (negb _); [apply Hfail; congruence|].
      destruct (_ =? 0); [apply Hfail; congruence|].
      cbn [snd]. split; [lia|congruence].
    - split; [lia|congruence]. }
  destruct (ensure (tts E (attempts s))).
  - by apply Hrun.
  - by apply Hrun.
  - by apply Hfail.
Qed.

Lemma safe_tts_counts E ce text s :
  let s' := (safe_tts_synthesize E ce text s).2 in
  (attempts s' <= attempts s + 3)%nat /\ tts_calls s' = tts_calls s ++ [text].
Proof.
  unfold safe_tts_synthesize.
  exact (tts_retry_counts E ce 3 (note_tts_call text s)).
Qed.

(** Outside [safe_tts_synthesize] nothing counts as a synthesis. *)
Lemma deliver_counts E :
  let R := fun s s' : pstate =>
             attempts s' = attempts s /\ tts_calls s' = tts_calls s in
  (forall ce sentence chunks s, R s (deliver E ce sentence chunks s).2)
  /\ (forall sentence chunks s, R s (deliver_final E sentence chunks s).2)
  /\ (forall ce s, R s (finish_audio E ce s)).
Proof.
  intros R.
  assert (Rt : forall a b c, R a b -> R b c -> R a c).
  { intros a b c [H1 H2] [H3 H4]. split; congruence. }
  assert (Rd : forall ch s, R s (drive E ch s).2).
  { intros ch s. unfold drive. by destruct (_ && _). }
  split; [|split].
  - intros. by apply (frame_deliver E R).
  - intros. by apply (frame_deliver_final E R).
  - intros ce s. unfold finish_audio. by destruct (_ && _).
Qed.

Lemma speak_sentence_counts E ce sentence s :
  let s' := (speak_sentence E ce sentence s).2 in
  (attempts s' + 3 * length (tts_calls s)
   <= attempts s + 3 * length (tts_calls s'))%nat
  /\ (length (tts_calls s') <= S (length (tts_calls s)))%nat
  /\ (length (tts_calls s) <= length (tts_calls s'))%nat.
Proof.
  destruct (deliver_counts E) as (Hd & _ & _).
  unfold speak_sentence.
  assert (Hgo : forall s0,
            attempts s0 = attempts s -> tts_calls s0 = tts_calls s ->
            let s' :=
              (match safe_tts_synthesize E ce sentence s0 with
               | (TtsCancelledError, s1) => (RaisedCancelled, s1)
               | (TtsException, s1) => (Normal, emit E (EvTtsError sentence) s1)
               | (TtsChunks audio_chunks, s1) =>
                   match deliver E ce sentence audio_chunks s1 with
                   | (false, s2) => (Normal, emit E (EvTtsError sentence) s2)
                   | (true, s2) =>
                       (Normal, emit E (EvSentenceProcessed sentence) s2)
                   end
               end).2 in
            (attempts s' + 3 * length (tts_calls s)
             <= attempts s + 3 * length (tts_calls s'))%nat
            /\ (length (tts_calls s') <= S (length (tts_calls s)))%nat
            /\ (length (tts_calls s) <= length (tts_calls s'))%nat).
  { intros s0 Ha Ht.
    destruct (safe_tts_counts E ce sentence s0) as [H1 H2].
    destruct (safe_tts_synthesize E ce sentence s0) as [[ac| |] s1];
      cbn [snd] in *.
    - destruct (Hd ce sentence ac s1) as [H3 H4].
      destruct (deliver E ce sentence ac s1) as [[|] s2]; cbn [snd] in *;
        cbn [emit pause attempts tts_calls];
        rewrite H3, H4, H2, Ht, length_app; simpl; lia.
    - cbn [emit pause attempts tts_calls].
      rewrite H2, Ht, length_app; simpl; lia.
    - rewrite H2, Ht, length_app; simpl; lia. }
  destruct (tts_reconnect E (sentences s)).
  - by apply Hgo.
  - by apply Hgo.
  - simpl. lia.
Qed.

Lemma speak_remaining_counts E ce sb s :
  let s' := (speak_remaining E ce sb s).2 in
  (attempts s' + 3 * length (tts_calls s)
   <= attempts s + 3 * length (tts_calls s'))%nat
  /\ (length (tts_calls s') <= S (length (tts_calls s)))%nat
  /\ (length (tts_calls s) <= length (tts_calls s'))%nat.
Proof.
  destruct (deliver_counts E) as (_ & Hd & _).
  unfold speak_remaining. destruct (_ && _); [|simpl; lia].
  set (sentence := strip sb).
  assert (Hgo : forall s0,
            attempts s0 = attempts s -> tts_calls s0 = tts_calls s ->
            let s' :=
              (match safe_tts_synthesize E ce sentence s0 with
               | (TtsCancelledError, s1) => (RaisedCancelled, s1)
               | (TtsException, s1) =>
                   (Normal, emit E (EvFinalTtsError sentence) s1)
               | (TtsChunks audio_chunks, s1) =>
                   match deliver_final E sentence audio_chunks s1 with
                   | (false, s2) =>
                       (Normal, emit E (EvFinalTtsError sentence) s2)
                   | (true, s2) => (Normal, s2)
                   end
               end).2 in
            (attempts s' + 3 * length (tts_calls s)
             <= attempts s + 3 * length (tts_calls s'))%nat
            /\ (length (tts_calls s') <= S (length (tts_calls s)))%nat
            /\ (length (tts_calls s) <= length (tts_calls s'))%nat).
  { intros s0 Ha Ht.
    destruct (safe_tts_counts E ce sentence s0) as [H1 H2].
    destruct (safe_tts_synthesize E ce sentence s0) as [[ac| |] s1];
      cbn [snd] in *.
    - destruct (Hd sentence ac s1) as [H3 H4].
      destruct (deliver_final E sentence ac s1) as [[|] s2]; cbn [snd] in *;
        cbn [emit pause attempts tts_calls];
        rewrite H3, H4, H2, Ht, length_app; simpl; lia.
    - cbn [emit pause attempts tts_calls].
      rewrite H2, Ht, length_app; simpl; lia.
    - rewrite H2, Ht, length_app; simpl; lia. }
  destruct (tts_reconnect E _).
  - by apply Hgo.
  - by apply Hgo.
  - simpl. lia.
Qed.

Lemma llm_loop_counts E ce responses tb sb s :
  let s' := (llm_loop E ce responses tb sb s).2 in
  (attempts s' + 3 * length (tts_calls s)
   <= attempts s + 3 * length (tts_calls s'))%nat
  /\ (length (tts_calls s') <= length (tts_calls s) + length responses)%nat
  /\ (length (tts_calls s) <= length (tts_calls s'))%nat.
Proof.
  revert tb sb s. induction responses as [|resp rest IH]; intros tb sb s;
    cbn [llm_loop]; [simpl; lia|].
  destruct (cancelled ce s); [simpl; lia|].
  destruct resp as [chunk|].
  2:{ destruct (IH tb sb s) as (H1 & H2 & H3). cbv zeta. simpl length. lia. }
  cbv zeta.
  destruct (has_sentence_end (sb ++ chunk)).
  - set (s0 := emit E (EvSentenceComplete (strip (sb ++ chunk)))
                 (emit E (EvTextChunk chunk (tb ++ chunk)) s)).
    destruct (speak_sentence_counts E ce (strip (sb ++ chunk)) s0)
      as (H1 & H2 & H3).
    change (attempts s0) with (attempts s) in H1.
    change (tts_calls s0) with (tts_calls s) in H1, H2, H3.
    destruct (speak_sentence E ce (strip (sb ++ chunk)) s0) as [[| |] s1];
      cbn [snd] in *; try (simpl length; lia).
    destruct (IH (tb ++ chunk) [] s1) as (H4 & H5 & H6).
    cbv zeta in H4, H5, H6. simpl length. lia.
  - set (s0 := emit E (EvTextChunk chunk (tb ++ chunk)) s).
    destruct (IH (tb ++ chunk) (sb ++ chunk) s0) as (H4 & H5 & H6).
    cbv zeta in H4, H5, H6.
    change (attempts s0) with (attempts s) in H4.
    change (tts_calls s0) with (tts_calls s) in H4, H5, H6.
    simpl length. lia.
Qed.

(** X16. Every call of [safe_tts_synthesize] makes at most three attempts
    (passes of its retry loop, each opening at most one synthesis
    session), and a query calls it at most once per LLM response and once
    more for the remaining text. *)
Theorem synthesis_attempts_bounded (E : env) (r : registry) :
  let s := run_query E r in
  (attempts s <= 3 * length (tts_calls s))%nat
  /\ (length (tts_calls s) <= length (llm E) + 1)%nat.
Proof.
  cbv zeta. rewrite !run_query_unfold.
  destruct (register_stream_session (session_id E) (live_id E) r) as [ce r0].
  rewrite stream_pipeline_unfold. cbv zeta. cbn [attempts tts_calls].
  unfold pipeline_body.
  set (s0 := emit E (EvStart (session_id E) (query E)) _).
  destruct (cancelled ce s0); [simpl; lia|].
  destruct (llm_loop_counts E ce (llm E) [] [] s0) as (H1 & H2 & H3).
  cbv zeta in H1, H2, H3.
  change (attempts s0) with 0%nat in H1.
  change (tts_calls s0) with (@nil pystr) in H1, H2, H3.
  destruct (llm_loop E ce (llm E) [] [] s0) as [[[f tb] sb] s1].
  cbn [snd] in *. simpl length in *.
  destruct f; cbn [emit pause attempts tts_calls]; try lia.
  destruct (speak_remaining_counts E ce sb s1) as (H4 & H5 & H6).
  cbv zeta in H4, H5, H6.
  destruct (deliver_counts E) as (_ & _ & Hf).
  destruct (speak_remaining E ce sb s1) as [f s2]. cbn [snd] in *.
  destruct f; cbn [emit pause attempts tts_calls]; try lia.
  destruct (Hf ce s2) as [Hf1 Hf2]. rewrite Hf1, Hf2. lia.
Qed.


(** *** The registry during a run *)

Lemma cancel_session_tables sid r :
  same_tables r (cancel_stream_by_session sid r).2
  /\ (forall e, is_set r e = true ->
                is_set (cancel_stream_by_session sid r).2 e = true)
  /\ (forall st, active_streams r !! sid = Some st ->
                 is_set (cancel_stream_by_session sid r).2 (cancel_event st) = true).
Proof.
  unfold cancel_stream_by_session, same_tables.
  destruct (active_streams r !! sid) as [st|] eqn:Hst; [|done].
  destruct (is_set r (cancel_event st)) eqn:Hset; cbn [negb snd].
  - repeat split; try done. by intros st' [= <-].
  - repeat split; try done.
    + intros e He. unfold is_set in *. cbn [events].
      destruct (decide (e = cancel_event st)) as [->|Hne]; [congruence|].
      by rewrite lookup_insert_ne.
    + intros st' [= <-]. unfold is_set. cbn [events].
      by rewrite lookup_insert_eq.
Qed.

Lemma cancel_fold_tables (sids : list string) (n : Z) (r : registry) :
  let r' := (fold_left
               (fun '(triggered, r) sid =>
                  let '(k, r') := cancel_stream_by_session sid r in
                  (triggered + k, r'))
               sids (n, r)).2 in
  same_tables r r'
  /\ (forall e, is_set r e = true -> is_set r' e = true)
  /\ (forall sid st, sid ∈ sids -> active_streams r !! sid = Some st ->
                     is_set r' (cancel_event st) = true).
Proof.
  revert n r. induction sids as [|sid sids IH]; intros n r; cbn [fold_left].
  - repeat split; try done. intros sid st Hin. by apply elem_of_nil in Hin.
  - destruct (cancel_session_tables sid r) as ([T1 T2] & M & C).
    destruct (cancel_stream_by_session sid r) as [k r1]. cbn [snd] in *.
    destruct (IH (n + k) r1) as ([T3 T4] & M' & C'). cbv zeta in *.
    split; [split; congruence|]. split; [by intros e He; apply M', M|].
    intros sid' st Hin Hst. apply elem_of_cons in Hin as [->|Hin].
    + by apply M', C.
    + apply (C' sid'); [done|]. by rewrite T1.
Qed.

Lemma run_other_tables r o :
  same_tables r (run_other r o)
  /\ (forall e, is_set r e = true -> is_set (run_other r o) e = true).
Proof.
  destruct o as [sid|l]; cbn [run_other].
  - destruct (cancel_session_tables sid r) as (T & M & _). by split.
  - unfold cancel_streams_by_live_id.
    destruct (cancel_fold_tables
                (elements (default ∅ (live_to_sessions r !! l))) 0 r)
      as (T & M & _). by split.
Qed.

Lemma run_others_tables (os : list other) r :
  same_tables r (fold_left run_other os r)
  /\ (forall e, is_set r e = true -> is_set (fold_left run_other os r) e = true).
Proof.
  revert r. induction os as [|o os IH]; intros r; cbn [fold_left]; [done|].
  destruct (run_other_tables r o) as ([T1 T2] & M).
  destruct (IH (run_other r o)) as ([T3 T4] & M').
  split; [split; congruence|]. intros e He. by apply M', M.
Qed.

(** The other handlers leave both tables to the pipeline, and never clear
    a cancel signal. *)
Lemma tables_kept E :
  let R := fun s s' : pstate =>
             same_tables (reg s) (reg s')
             /\ forall e, is_set (reg s) e = true -> is_set (reg s') e = true in
  forall ce s,
    R s (let '(f, s1) := pipeline_body E ce s in
         match f with
         | Normal => s1
         | RaisedCancelled => emit E (EvCancelled (session_id E)) s1
         | RaisedException => emit E (EvError (session_id E)) s1
         end).
Proof.
  intros R.
  assert (Rr : forall s, R s s) by done.
  assert (Rt : forall a b c, R a b -> R b c -> R a c).
  { intros a b c [[H1 H2] M1] [[H3 H4] M2].
    split; [split; congruence|]. intros e He. by apply M2, M1. }
  assert (Rp : forall s, R s (pause E s)).
  { intros s. apply (run_others_tables (others E (tick s)) (reg s)). }
  assert (Re : forall ev s, R s (emit E ev s)).
  { intros ev s. apply (run_others_tables (others E (tick s)) (reg s)). }
  assert (Rs : forall ce text s, R s (safe_tts_synthesize E ce text s).2).
  { intros. by apply (frame_safe_tts E R). }
  assert (Rd : forall ch s, R s (drive E ch s).2).
  { intros ch s. unfold drive. destruct (_ && _); [|done].
    apply (run_others_tables (others E (tick s)) (reg s)). }
  assert (Rf : forall ce s, R s (finish_audio E ce s)).
  { intros ce s. unfold finish_audio. destruct (_ && _); [|done].
    apply (run_others_tables (others E (tick s)) (reg s)). }
  intros ce s. by apply (frame_before_finally E R).
Qed.

Lemma cleanup_tables sid r r' :
  same_tables r r' ->
  same_tables (cleanup_stream_session sid r) (cleanup_stream_session sid r').
Proof.
  intros [H1 H2]. unfold cleanup_stream_session, same_tables.
  rewrite H1, H2. by destruct (active_streams r !! sid).
Qed.

Lemma register_then_cleanup sid live r :
  active_streams r !! sid = None ->
  (forall l ss, live_to_sessions r !! l = Some ss -> ss <> ∅ /\ sid ∉ ss) ->
  same_tables r (cleanup_stream_session sid (register_stream_session sid live r).2).
Proof.
  intros Hfresh Hidx. unfold register_stream_session, cleanup_stream_session.
  cbn [snd active_streams live_to_sessions stream_live_id].
  rewrite lookup_insert_eq. cbn [stream_live_id]. unfold same_tables.
  cbn [active_streams live_to_sessions].
  split; [by rewrite delete_insert_eq, delete_id|].
  destruct live as [l|]; [|done].
  destruct (truthy_str (Some l)) eqn:Ht; [|done].
  rewrite lookup_insert_eq.
  rewrite bool_decide_eq_true_2 by (apply elem_of_union_l, elem_of_singleton_2; done).
  destruct (live_to_sessions r !! l) as [ss|] eqn:Hl; cbn [default from_option id].
  - destruct (Hidx l ss Hl) as [Hne Hnot].
    assert (Hd : ({[sid]} ∪ ss) ∖ {[sid]} = ss).
    { apply leibniz_equiv, set_equiv. intros x.
      rewrite elem_of_difference, elem_of_union, elem_of_singleton.
      split; [intros [[->|H] Hn]; done|].
      intros H. split; [by right|]. by intros ->. }
    rewrite Hd. rewrite bool_decide_eq_false_2 by done.
    rewrite insert_insert_eq. by apply insert_id.
  - assert (Hd : ({[sid]} ∪ (∅ : gset string)) ∖ {[sid]} = ∅).
    { apply leibniz_equiv, set_equiv. intros x.
      rewrite elem_of_difference, elem_of_union, elem_of_singleton.
      split; [intros [[->|H] Hn]; done|]. intros H.
      by apply elem_of_empty in H. }
    rewrite Hd. rewrite bool_decide_eq_true_2 by done.
    rewrite delete_insert_eq. by apply delete_id.
Qed.

(** X17. For a query whose session id is not registered, on a registry
    whose room index is consistent with the session table and has no
    empty room: when the response streams, both registry tables are in
    the end exactly as the query found them, whatever was cancelled
    meanwhile and however the pipeline ended.  When the handler answers
    500 or is cancelled before the generator exists
    ([create_conversation] or the TTS connect raised), the session is
    still registered: the tables are those that
    [register_stream_session] left.  When the clients are not initialised
    nothing is registered. *)
Theorem run_query_restores_tables (P : prelude) (E : env) (r : registry) :
  active_streams r !! session_id E = None ->
  consistent r ->
  no_empty_room r ->
  match process_query_stream P E r with
  | Streaming s => same_tables r (reg s)
  | Http500 r' | Cancelled r' =>
      if clients_ready P
      then same_tables
             (register_stream_session (session_id E) (live_id E) r).2 r'
           /\ is_Some (active_streams r' !! session_id E)
      else r' = r
  end.
Proof.
  intros Hfresh Hcons Hne.
  pose proof (register_then_cleanup (session_id E) (live_id E) r Hfresh) as Hrc.
  assert (Hreg : is_Some (active_streams
                            (register_stream_session (session_id E) (live_id E) r).2
                          !! session_id E)).
  { unfold register_stream_session. cbn [snd active_streams].
    rewrite lookup_insert_eq. by eexists. }
  unfold process_query_stream.
  destruct (clients_ready P); cbn [negb]; [|done].
  destruct (register_stream_session (session_id E) (live_id E) r) as [ce r0].
  cbn [snd] in *.
  assert (Hrun : forall r1,
            same_tables r0 r1 ->
            same_tables r
              (reg (stream_pipeline E ce (mkState r1 0 [] [] [] 0 0 0)))).
  { intros r1 [K1 K2]. rewrite stream_pipeline_unfold. cbv zeta. cbn [reg].
    destruct (tables_kept E ce (mkState r1 0 [] [] [] 0 0 0)) as [T _].
    cbn [reg] in T.
    assert (T0 : same_tables r0
                   (reg (let '(f, s1) :=
                           pipeline_body E ce (mkState r1 0 [] [] [] 0 0 0) in
                         match f with
                         | Normal => s1
                         | RaisedCancelled => emit E (EvCancelled (session_id E)) s1
                         | RaisedException => emit E (EvError (session_id E)) s1
                         end))).
    { destruct T as [T1 T2]. split; congruence. }
    apply (cleanup_tables (session_id E)) in T0.
    destruct T0 as [T1 T2]. destruct Hrc as [H1 H2].
    { intros l ss Hl. split; [by eapply Hne|].
      intros Hin. destruct (Hcons l ss _ Hl Hin) as (st & Hst & _). congruence. }
    split; congruence. }
  destruct (conversation_ok P); cbn [negb]; [|by split].
  destruct (tts_websocket P); [by apply Hrun|].
  destruct (run_others_tables (connecting P) r0) as [[T1 T2] _].
  destruct (tts_connect P) as [|e].
  - apply Hrun. by split.
  - destruct (Avatar.is_Exception e); (split; [by split|by rewrite T1]).
Qed.


(** *** A cancel that arrives before the first poll *)

Lemma run_other_hits r o sid st :
  active_streams r !! sid = Some st ->
  o = CancelSession sid
  \/ (exists l ss, o = CancelLive l /\ live_to_sessions r !! l = Some ss
                   /\ sid ∈ ss) ->
  is_set (run_other r o) (cancel_event st) = true.
Proof.
  intros Hst [->|(l & ss & -> & Hl & Hin)]; cbn [run_other].
  - by apply cancel_session_tables.
  - unfold cancel_streams_by_live_id. rewrite Hl. cbn [default from_option id].
    destruct (cancel_fold_tables (elements ss) 0 r) as (_ & _ & C).
    apply (C sid st); [|done]. by apply elem_of_elements.
Qed.

Lemma run_others_hit (os : list other) r sid st :
  active_streams r !! sid = Some st ->
  CancelSession sid ∈ os
  \/ (exists l ss, CancelLive l ∈ os /\ live_to_sessions r !! l = Some ss
                   /\ sid ∈ ss) ->
  is_set (fold_left run_other os r) (cancel_event st) = true.
Proof.
  revert r. induction os as [|o os IH]; intros r Hst Hhit.
  { destruct Hhit as [H|(l & ss & H & _)]; by apply elem_of_nil in H. }
  cbn [fold_left].
  destruct (run_other_tables r o) as ([T1 T2] & M).
  assert (Hnow : o = CancelSession sid
                 \/ (exists l ss, o = CancelLive l
                       /\ live_to_sessions r !! l = Some ss /\ sid ∈ ss)
                 \/ (CancelSession sid ∈ os
                     \/ exists l ss, CancelLive l ∈ os
                          /\ live_to_sessions r !! l = Some ss /\ sid ∈ ss)).
  { destruct Hhit as [H|(l & ss & H & Hl & Hin)];
      apply elem_of_cons in H as [H|H]; eauto 10. }
  destruct Hnow as [H|[H|H]].
  - apply run_others_tables. apply (run_other_hits r o sid st); auto.
  - apply run_others_tables. apply (run_other_hits r o sid st); auto.
  - apply IH; [by rewrite T1|].
    destruct H as [H|(l & ss & H & Hl & Hin)]; [by left|].
    right. exists l, ss. by rewrite T2.
Qed.

(** X14. A cancel of the session, or of its room, that arrives while the
    [start] event is handed over stops the pipeline at its first poll: the
    events are [start] and [cancelled], and neither the synthesiser nor
    the avatar is called. *)
Theorem cancel_before_first_poll (E : env) (r : registry) :
  CancelSession (session_id E) ∈ others E 0
  \/ (exists l, live_id E = Some l /\ truthy_str (Some l) = true
                /\ CancelLive l ∈ others E 0) ->
  let s := run_query E r in
  emitted s = [EvStart (session_id E) (query E); EvCancelled (session_id E)]
  /\ tts_calls s = [] /\ avatar_calls s = []
  /\ finish_calls s = 0%nat /\ attempts s = 0%nat.
Proof.
  intros Hhit. cbv zeta. rewrite !run_query_unfold. unfold register_stream_session.
  set (ce := next_event r).
  set (r0 := mkRegistry _ _ _ _).
  rewrite stream_pipeline_unfold. cbv zeta. unfold pipeline_body.
  set (s0 := emit E (EvStart (session_id E) (query E)) _).
  assert (Hset : cancelled ce s0 = true).
  { unfold cancelled. subst s0. cbn [emit pause reg tick].
    apply (run_others_hit (others E 0) r0 (session_id E)
             (mkStream (live_id E) ce)).
    - subst r0. cbn [active_streams]. by rewrite lookup_insert_eq.
    - destruct Hhit as [H|(l & Hl & Ht & H)]; [by left|].
      right. exists l. eexists. split; [exact H|].
      subst r0. cbn [live_to_sessions]. rewrite Hl, Ht.
      rewrite lookup_insert_eq. split; [reflexivity|].
      apply elem_of_union_l. by apply elem_of_singleton_2. }
  rewrite Hset. repeat split.
Qed.


End PipelineRuns.

(** *** A run that nobody disturbs *)

Section Undisturbed.

Import Registry Pipeline PipelineRun.

Variable E : env.
Hypothesis nobody : forall t, others E t = [].

Lemma goes_on_refl s : goes_on s s.
Proof. split; [done|]. exists []. by rewrite app_nil_r. Qed.

Lemma goes_on_same s s' :
  reg s' = reg s -> emitted s' = emitted s -> goes_on s s'.
Proof. intros H1 H2. split; [done|]. exists []. by rewrite app_nil_r. Qed.

Lemma goes_on_trans a b c : goes_on a b -> goes_on b c -> goes_on a c.
Proof.
  intros [R1 (n1 & E1 & F1)] [R2 (n2 & E2 & F2)]. split; [congruence|].
  exists (n1 ++ n2). split; [by rewrite E2, E1, app_assoc|].
  by apply Forall_app.
Qed.

Lemma goes_on_pause s : goes_on s (pause E s).
Proof.
  split; [cbn [pause reg]; by rewrite nobody|].
  exists []. by rewrite app_nil_r.
Qed.

Lemma goes_on_emit ev s : is_terminal ev = false -> goes_on s (emit E ev s).
Proof.
  intros Hev. split; [cbn [emit pause reg]; by rewrite nobody|].
  exists [ev]. split; [done|]. by apply Forall_singleton.
Qed.

Lemma goes_on_drive ch s : goes_on s (drive E ch s).2.
Proof.
  unfold drive. destruct (_ && _); [|apply goes_on_refl].
  split; [cbn [snd pause reg]; by rewrite nobody|].
  exists []. by rewrite app_nil_r.
Qed.

Lemma goes_on_finish ce s : goes_on s (finish_audio E ce s).
Proof.
  unfold finish_audio. destruct (_ && _); [|apply goes_on_refl].
  split; [cbn [pause reg]; by rewrite nobody|].
  exists []. by rewrite app_nil_r.
Qed.

Lemma goes_on_cancelled ce s s' :
  goes_on s s' -> cancelled ce s' = cancelled ce s.
Proof. intros [H _]. unfold cancelled. by rewrite H. Qed.

Lemma collect_chunks_quiet ce incoming acc s :
  cancelled ce s = false ->
  exists audio_chunks s',
    collect_chunks E ce incoming acc s = (Some audio_chunks, s')
    /\ goes_on s s'.
Proof.
  revert acc s. induction incoming as [|ch rest IH]; intros acc s Hc;
    cbn [collect_chunks].
  - eexists _, _. split; [done|apply goes_on_pause].
  - rewrite (goes_on_cancelled ce s (pause E s) (goes_on_pause s)), Hc.
    destruct (IH (acc ++ [ch]) (pause E s)) as (ac & s' & -> & G).
    { by rewrite (goes_on_cancelled ce s _ (goes_on_pause s)). }
    eexists _, _. split; [done|].
    eapply goes_on_trans; [apply goes_on_pause|exact G].
Qed.

Lemma tts_retry_quiet ce fuel s :
  cancelled ce s = false ->
  (tts_retry E ce fuel s).1 <> TtsCancelledError
  /\ goes_on s (tts_retry E ce fuel s).2.
Proof.
  revert s. induction fuel as [|fuel IH]; intros s Hc;
    [split; [done|apply goes_on_refl]|].
  cbn [tts_retry]. rewrite Hc.
  assert (Hfail : forall s', goes_on s s' ->
            let r := match fuel with
                     | O => (TtsException, s')
                     | S _ => tts_retry E ce fuel (pause E s')
                     end in
            r.1 <> TtsCancelledError /\ goes_on s r.2).
  { intros s' G. destruct fuel; [by split|].
    assert (G' : goes_on s (pause E s'))
      by (eapply goes_on_trans; [exact G|apply goes_on_pause]).
    destruct (IH (pause E s')) as [N G2].
    { by rewrite (goes_on_cancelled ce s _ G'). }
    cbv zeta. split; [exact N|]. eapply goes_on_trans; eassumption. }
  assert (Hrun : forall s', goes_on s s' ->
            let r :=
              match collect_chunks E ce (chunks (tts E (attempts s))) [] s' with
              | (None, s0) => (TtsCancelledError, s0)
              | (Some audio_chunks, s0) =>
                  if negb (stream_ends (tts E (attempts s)))
                  then match fuel with
                       | O => (TtsException, s0)
                       | S _ => tts_retry E ce fuel (pause E s0)
                       end
                  else if Py.len audio_chunks =? 0
                  then match fuel with
                       | O => (TtsException, s0)
                       | S _ => tts_retry E ce fuel (pause E s0)
                       end
                  else (TtsChunks audio_chunks, s0)
              end in
            r.1 <> TtsCancelledError /\ goes_on s r.2).
  { intros s' G.
    destruct (collect_chunks_quiet ce (chunks (tts E (attempts s))) [] s')
      as (ac & s0 & -> & G0).
    { by rewrite (goes_on_cancelled ce s _ G). }
    assert (G1 : goes_on s s0) by (eapply goes_on_trans; eassumption).
    destruct (negb _); [by apply Hfail|].
    destruct (_ =? 0); [by apply Hfail|]. by split. }
  assert (Ga : goes_on s (next_attempt s)) by (by apply goes_on_same).
  destruct (ensure (tts E (attempts s))).
  - apply Hrun. eapply goes_on_trans; [exact Ga|apply goes_on_pause].
  - apply Hrun. eapply goes_on_trans; [exact Ga|].
    eapply goes_on_trans; apply goes_on_pause.
  - apply Hfail. eapply goes_on_trans; [exact Ga|apply goes_on_pause].
Qed.

Lemma safe_tts_quiet ce text s :
  cancelled ce s = false ->
  (safe_tts_synthesize E ce text s).1 <> TtsCancelledError
  /\ goes_on s (safe_tts_synthesize E ce text s).2.
Proof.
  intros Hc. unfold safe_tts_synthesize.
  destruct (tts_retry_quiet ce 3 (note_tts_call text s) Hc) as [N G].
  split; [exact N|].
  eapply goes_on_trans; [|exact G]. by apply goes_on_same.
Qed.

Lemma deliver_quiet ce sentence audio_chunks s :
  cancelled ce s = false ->
  goes_on s (deliver E ce sentence audio_chunks s).2.
Proof.
  revert s. induction audio_chunks as [|ch rest IH]; intros s Hc;
    cbn [deliver]; [apply goes_on_refl|].
  rewrite Hc. pose proof (goes_on_drive ch s) as Gd.
  destruct (drive E ch s) as [[|] s1]; cbn [snd] in *; [|exact Gd].
  assert (G1 : goes_on s (emit E (EvAudioChunk sentence (Py.len ch)) s1)).
  { eapply goes_on_trans; [exact Gd|]. by apply goes_on_emit. }
  eapply goes_on_trans; [exact G1|]. apply IH.
  by rewrite (goes_on_cancelled ce s _ G1).
Qed.

Lemma deliver_final_quiet sentence audio_chunks s :
  goes_on s (deliver_final E sentence audio_chunks s).2.
Proof.
  revert s. induction audio_chunks as [|ch rest IH]; intros s;
    cbn [deliver_final]; [apply goes_on_refl|].
  pose proof (goes_on_drive ch s) as Gd.
  destruct (drive E ch s) as [[|] s1]; cbn [snd] in *; [|exact Gd].
  eapply goes_on_trans; [exact Gd|].
  eapply goes_on_trans; [|apply IH]. by apply goes_on_emit.
Qed.

Lemma speak_sentence_quiet ce sentence s :
  cancelled ce s = false ->
  (speak_sentence E ce sentence s).1 = Normal
  /\ goes_on s (speak_sentence E ce sentence s).2.
Proof.
  intros Hc. unfold speak_sentence.
  assert (Gn : goes_on s (next_sentence s)) by (by apply goes_on_same).
  assert (Hgo : forall s', goes_on s s' ->
            let r :=
              match safe_tts_synthesize E ce sentence s' with
              | (TtsCancelledError, s0) => (RaisedCancelled, s0)
              | (TtsException, s0) => (Normal, emit E (EvTtsError sentence) s0)
              | (TtsChunks audio_chunks, s0) =>
                  match deliver E ce sentence audio_chunks s0 with
                  | (false, s1) => (Normal, emit E (EvTtsError sentence) s1)
                  | (true, s1) =>
                      (Normal, emit E (EvSentenceProcessed sentence) s1)
                  end
              end in
            r.1 = Normal /\ goes_on s r.2).
  { intros s' G.
    destruct (safe_tts_quiet ce sentence s') as [N Gt].
    { by rewrite (goes_on_cancelled ce s _ G). }
    destruct (safe_tts_synthesize E ce sentence s') as [[ac| |] s0];
      cbn [fst snd] in *; [| |done].
    - assert (G0 : goes_on s s0) by (eapply goes_on_trans; eassumption).
      pose proof (deliver_quiet ce sentence ac s0) as Gd.
      destruct (deliver E ce sentence ac s0) as [[|] s1]; cbn [snd] in *;
        (split; [done|]); (eapply goes_on_trans; [exact G0|]);
        (eapply goes_on_trans;
         [apply Gd; by rewrite (goes_on_cancelled ce s _ G0)|]);
        by apply goes_on_emit.
    - split; [done|]. eapply goes_on_trans; [exact G|].
      eapply goes_on_trans; [exact Gt|]. by apply goes_on_emit. }
  destruct (tts_reconnect E (sentences s)).
  - by apply Hgo.
  - apply Hgo. eapply goes_on_trans; [exact Gn|apply goes_on_pause].
  - split; [done|]. cbn [snd]. eapply goes_on_trans; [exact Gn|].
    eapply goes_on_trans; [apply goes_on_pause|by apply goes_on_emit].
Qed.

Lemma llm_loop_quiet ce responses tb sb s :
  cancelled ce s = false ->
  exists sb' s',
    llm_loop E ce responses tb sb s
    = (if llm_raises E then RaisedException else Normal,
       tb ++ llm_text responses, sb', s')
    /\ goes_on s s'.
Proof.
  revert tb sb s. induction responses as [|resp rest IH]; intros tb sb s Hc;
    cbn [llm_loop].
  - exists sb, s. unfold llm_text. cbn. rewrite app_nil_r.
    split; [done|apply goes_on_refl].
  - rewrite Hc. destruct resp as [chunk|].
    2:{ destruct (IH tb sb s Hc) as (sb' & s' & -> & G). by exists sb', s'. }
    cbv zeta.
    assert (Ht : llm_text (Some chunk :: rest) = chunk ++ llm_text rest)
      by reflexivity.
    rewrite Ht, app_assoc.
    set (s0 := emit E (EvTextChunk chunk (tb ++ chunk)) s).
    assert (G0 : goes_on s s0) by (by apply goes_on_emit).
    destruct (has_sentence_end (sb ++ chunk)).
    + set (s1 := emit E (EvSentenceComplete (strip (sb ++ chunk))) s0).
      assert (G1 : goes_on s s1).
      { eapply goes_on_trans; [exact G0|]. by apply goes_on_emit. }
      destruct (speak_sentence_quiet ce (strip (sb ++ chunk)) s1) as [N G2].
      { by rewrite (goes_on_cancelled ce s _ G1). }
      destruct (speak_sentence E ce (strip (sb ++ chunk)) s1) as [f s2].
      cbn [fst snd] in *. subst f.
      assert (G3 : goes_on s s2) by (eapply goes_on_trans; eassumption).
      destruct (IH (tb ++ chunk) [] s2) as (sb' & s' & -> & G).
      { by rewrite (goes_on_cancelled ce s _ G3). }
      exists sb', s'. split; [done|]. eapply goes_on_trans; eassumption.
    + destruct (IH (tb ++ chunk) (sb ++ chunk) s0) as (sb' & s' & -> & G).
      { by rewrite (goes_on_cancelled ce s _ G0). }
      exists sb', s'. split; [done|]. eapply goes_on_trans; eassumption.
Qed.

Lemma speak_remaining_quiet ce sb s :
  cancelled ce s = false ->
  (speak_remaining E ce sb s).1 = Normal
  /\ goes_on s (speak_remaining E ce sb s).2.
Proof.
  intros Hc. unfold speak_remaining.
  destruct (_ && _); [|split; [done|apply goes_on_refl]].
  set (sentence := strip sb).
  set (s0 := emit E (EvFinalSentence sentence) s).
  assert (G0 : goes_on s s0) by (by apply goes_on_emit).
  assert (Hgo : forall s', goes_on s s' ->
            let r :=
              match safe_tts_synthesize E ce sentence s' with
              | (TtsCancelledError, s1) => (RaisedCancelled, s1)
              | (TtsException, s1) =>
                  (Normal, emit E (EvFinalTtsError sentence) s1)
              | (TtsChunks audio_chunks, s1) =>
                  match deliver_final E sentence audio_chunks s1 with
                  | (false, s2) =>
                      (Normal, emit E (EvFinalTtsError sentence) s2)
                  | (true, s2) => (Normal, s2)
                  end
              end in
            r.1 = Normal /\ goes_on s r.2).
  { intros s' G.
    destruct (safe_tts_quiet ce sentence s') as [N Gt].
    { by rewrite (goes_on_cancelled ce s _ G). }
    destruct (safe_tts_synthesize E ce sentence s') as [[ac| |] s1];
      cbn [fst snd] in *; [| |done].
    - assert (G1 : goes_on s s1) by (eapply goes_on_trans; eassumption).
      pose proof (deliver_final_quiet sentence ac s1) as Gd.
      destruct (deliver_final E sentence ac s1) as [[|] s2]; cbn [snd] in *;
        (split; [done|]); (eapply goes_on_trans; [exact G1|]);
        [exact Gd|].
      eapply goes_on_trans; [exact Gd|by apply goes_on_emit].
    - split; [done|]. eapply goes_on_trans; [exact G|].
      eapply goes_on_trans; [exact Gt|]. by apply goes_on_emit. }
  assert (Gn : goes_on s (next_sentence s0))
    by (eapply goes_on_trans; [exact G0|by apply goes_on_same]).
  destruct (tts_reconnect E (sentences s0)).
  - by apply Hgo.
  - apply Hgo. eapply goes_on_trans; [exact Gn|apply goes_on_pause].
  - split; [done|]. cbn [snd]. eapply goes_on_trans; [exact Gn|].
    eapply goes_on_trans; [apply goes_on_pause|by apply goes_on_emit].
Qed.

(** X13. When no other handler runs meanwhile and the LLM stream does not
    raise, the events are [start], then events that do not end the stream,
    then [complete] with the concatenation of all text chunks: a failing
    synthesis or avatar call costs a [tts_error] event, never the stream. *)
Theorem undisturbed_run_completes (r : registry) :
  llm_raises E = false ->
  exists middle,
    emitted (run_query E r)
    = EvStart (session_id E) (query E) :: middle
      ++ [EvComplete (llm_text (llm E)) (session_id E)]
    /\ Forall (fun ev => is_terminal ev = false) middle.
Proof.
  intros Hllm. rewrite !run_query_unfold. unfold register_stream_session.
  set (ce := next_event r). set (r0 := mkRegistry _ _ _ _).
  rewrite stream_pipeline_unfold. cbv zeta. cbn [emitted].
  unfold pipeline_body.
  set (s0 := emit E (EvStart (session_id E) (query E)) _).
  assert (E0 : emitted s0 = [EvStart (session_id E) (query E)]) by reflexivity.
  assert (Hc : cancelled ce s0 = false).
  { unfold cancelled, is_set. subst s0 r0. cbn [emit pause reg events tick].
    rewrite nobody. cbn [fold_left events]. by rewrite lookup_insert_eq. }
  rewrite Hc.
  destruct (llm_loop_quiet ce (llm E) [] [] s0 Hc) as (sb & s1 & -> & G1).
  rewrite Hllm.
  destruct (speak_remaining_quiet ce sb s1) as [N G2].
  { by rewrite (goes_on_cancelled ce s0 _ G1). }
  destruct (speak_remaining E ce sb s1) as [f s2]. cbn [fst snd] in *. subst f.
  pose proof (goes_on_finish ce s2) as G3.
  assert (G : goes_on s0 (finish_audio E ce s2)).
  { eapply goes_on_trans; [exact G1|]. eapply goes_on_trans; eassumption. }
  destruct G as [_ (middle & Em & Fm)].
  exists middle. split; [|exact Fm].
  by rewrite emitted_emit, Em, E0.
Qed.

End Undisturbed.

Lemma no_room_no_avatar_call_witness :
  Pipeline.avatar_calls
    (Pipeline.run_query (PipelineRun.roomless PipelineRun.idle) Registry.empty)
  = []
  /\ Pipeline.finish_calls
       (Pipeline.run_query (PipelineRun.roomless PipelineRun.idle) Registry.empty)
     = 0%nat.
Proof.
  apply (no_room_no_avatar_call (PipelineRun.roomless PipelineRun.idle)
           Registry.empty).
  reflexivity.
Defined.

(** On the empty registry: a query cancelled at its eighth suspension
    leaves the registry empty; a query whose TTS connect fails is answered
    500 and leaves session "s1" registered. *)
Lemma run_query_restores_tables_witness :
  PipelineRun.same_tables Registry.empty
    (Pipeline.reg
       (Pipeline.run_query (Pipeline.one_sentence (Pipeline.cancel_at 7))
          Registry.empty))
  /\ exists r',
       Pipeline.process_query_stream
         (Pipeline.mkPrelude true true false
            (Avatar.Raise Avatar.OtherException) [])
         (Pipeline.one_sentence PipelineRun.idle) Registry.empty
       = Pipeline.Http500 r'
       /\ is_Some (Registry.active_streams r' !! "s1").
Proof.
  assert (H0 : Registry.consistent Registry.empty).
  { intros l ss sid H.
    change ((∅ : gmap string (gset string)) !! l = Some ss) in H.
    by rewrite lookup_empty in H. }
  assert (H1 : PipelineRun.no_empty_room Registry.empty).
  { intros l ss H.
    change ((∅ : gmap string (gset string)) !! l = Some ss) in H.
    by rewrite lookup_empty in H. }
  split.
  - exact (run_query_restores_tables Pipeline.started
             (Pipeline.one_sentence (Pipeline.cancel_at 7)) Registry.empty
             eq_refl H0 H1).
  - eexists. split; [reflexivity|].
    exact (proj2 (run_query_restores_tables
                    (Pipeline.mkPrelude true true false
                       (Avatar.Raise Avatar.OtherException) [])
                    (Pipeline.one_sentence PipelineRun.idle) Registry.empty
                    eq_refl H0 H1)).
Defined.

Lemma cancel_before_first_poll_witness :
  let s := Pipeline.run_query (Pipeline.one_sentence (Pipeline.cancel_at 0))
             Registry.empty in
  Pipeline.emitted s
  = [Pipeline.EvStart "s1" [72; 105; 63]; Pipeline.EvCancelled "s1"]
  /\ Pipeline.tts_calls s = [] /\ Pipeline.avatar_calls s = []
  /\ Pipeline.finish_calls s = 0%nat /\ Pipeline.attempts s = 0%nat.
Proof.
  apply (cancel_before_first_poll (Pipeline.one_sentence (Pipeline.cancel_at 0))
           Registry.empty).
  left. cbn. constructor.
Defined.

Lemma undisturbed_run_completes_witness :
  exists middle,
    Pipeline.emitted
      (Pipeline.run_query (Pipeline.one_sentence PipelineRun.idle) Registry.empty)
    = Pipeline.EvStart "s1" [72; 105; 63] :: middle
      ++ [Pipeline.EvComplete [72; 105; 46] "s1"]
    /\ Forall (fun ev => PipelineRun.is_terminal ev = false) middle.
Proof.
  apply (undisturbed_run_completes (Pipeline.one_sentence PipelineRun.idle)
           (fun _ => eq_refl) Registry.empty).
  reflexivity.
Defined.

(** ** The registry as a whole *)

Section RegistryWhole.

Import Registry PipelineRun RegistryOps.

(** The invariant speaks of the two tables and the event counter only. *)
Lemma well_formed_tables r r' :
  same_tables r r' -> next_event r' = next_event r ->
  well_formed r -> well_formed r'.
Proof.
  intros [T1 T2] Hn [C K N D A].
  split; unfold consistent, complete, no_empty_room, distinct_events, allocated;
    rewrite ?T1, ?T2, ?Hn; assumption.
Qed.

Lemma cancel_session_next sid r :
  next_event (cancel_stream_by_session sid r).2 = next_event r.
Proof.
  unfold cancel_stream_by_session.
  destruct (active_streams r !! sid); [|done]. by destruct (negb _).
Qed.

Lemma cancel_fold_next (sids : list string) (n : Z) (r : registry) :
  next_event (fold_left
                (fun '(triggered, r) sid =>
                   let '(k, r') := cancel_stream_by_session sid r in
                   (triggered + k, r'))
                sids (n, r)).2 = next_event r.
Proof.
  revert n r. induction sids as [|sid sids IH]; intros n r; cbn [fold_left];
    [done|].
  pose proof (cancel_session_next sid r) as H.
  destruct (cancel_stream_by_session sid r) as [k r1]. cbn [snd] in H.
  by rewrite IH.
Qed.

Lemma well_formed_empty : well_formed empty.
Proof.
  split.
  - intros l ss sid H.
    change ((∅ : gmap string (gset string)) !! l = Some ss) in H.
    by rewrite lookup_empty in H.
  - intros sid st l H.
    change ((∅ : gmap string stream) !! sid = Some st) in H.
    by rewrite lookup_empty in H.
  - intros l ss H.
    change ((∅ : gmap string (gset string)) !! l = Some ss) in H.
    by rewrite lookup_empty in H.
  - intros sid1 sid2 st1 st2 H.
    change ((∅ : gmap string stream) !! sid1 = Some st1) in H.
    by rewrite lookup_empty in H.
  - intros sid st H.
    change ((∅ : gmap string stream) !! sid = Some st) in H.
    by rewrite lookup_empty in H.
Qed.

Lemma well_formed_register sid live r :
  active_streams r !! sid = None ->
  well_formed r -> well_formed (register_stream_session sid live r).2.
Proof.
  intros Hfresh [C K N D A].
  assert (Hidx : forall l ss, live_to_sessions r !! l = Some ss -> sid ∉ ss).
  { intros l ss Hl Hin. destruct (C l ss sid Hl Hin) as (st & Hst & _).
    congruence. }
  unfold register_stream_session. cbn [snd].
  set (e := next_event r).
  set (idx := match live with
              | Some l =>
                  if truthy_str live
                  then <[l := {[sid]} ∪ default ∅ (live_to_sessions r !! l)]>
                         (live_to_sessions r)
                  else live_to_sessions r
              | None => live_to_sessions r
              end).
  assert (Hidx' : forall l ss, idx !! l = Some ss ->
            (live = Some l /\ truthy_str (Some l) = true
             /\ ss = {[sid]} ∪ default ∅ (live_to_sessions r !! l))
            \/ (live_to_sessions r !! l = Some ss)).
  { intros l ss. subst idx. destruct live as [l0|]; [|by right].
    destruct (truthy_str (Some l0)) eqn:Ht; [|by right].
    destruct (decide (l = l0)) as [->|Hne].
    - rewrite lookup_insert_eq. intros [= <-]. by left.
    - rewrite lookup_insert_ne by done. by right. }
  split.
  - intros l ss sid' Hl Hin. cbn [live_to_sessions active_streams] in *.
    apply Hidx' in Hl as [(-> & Ht & ->)|Hl].
    + apply elem_of_union in Hin as [Hin|Hin].
      * apply elem_of_singleton in Hin as ->.
        eexists. rewrite lookup_insert_eq. by repeat split.
      * destruct (live_to_sessions r !! l) as [ss0|] eqn:Hl0;
          cbn [default from_option id] in Hin;
          [|by apply elem_of_empty in Hin].
        destruct (C l ss0 sid' Hl0 Hin) as (st & Hst & Hlive & Ht').
        exists st. rewrite lookup_insert_ne by congruence. by repeat split.
    + destruct (C l ss sid' Hl Hin) as (st & Hst & Hlive & Ht').
      exists st. rewrite lookup_insert_ne by congruence. by repeat split.
  - intros sid' st l Hst Hlive Ht. cbn [live_to_sessions active_streams] in *.
    destruct (decide (sid' = sid)) as [->|Hne].
    + rewrite lookup_insert_eq in Hst. injection Hst as <-.
      cbn [stream_live_id] in Hlive. subst live. subst idx. rewrite Ht.
      eexists. rewrite lookup_insert_eq. split; [reflexivity|].
      apply elem_of_union_l. by apply elem_of_singleton_2.
    + rewrite lookup_insert_ne in Hst by done.
      destruct (K sid' st l Hst Hlive Ht) as (ss & Hl & Hin).
      subst idx. destruct live as [l0|]; [|by exists ss].
      destruct (truthy_str (Some l0)); [|by exists ss].
      destruct (decide (l = l0)) as [->|Hne'].
      * eexists. rewrite lookup_insert_eq. split; [reflexivity|].
        rewrite Hl. cbn [default from_option id]. by apply elem_of_union_r.
      * exists ss. by rewrite lookup_insert_ne.
  - intros l ss Hl. cbn [live_to_sessions] in Hl.
    apply Hidx' in Hl as [(-> & Ht & ->)|Hl]; [|by eapply N].
    intros Hemp.
    assert (Hin : sid ∈ ({[sid]} ∪ default ∅ (live_to_sessions r !! l)
                         : gset string))
      by (apply elem_of_union_l; by apply elem_of_singleton_2).
    rewrite Hemp in Hin. by apply elem_of_empty in Hin.
  - intros sid1 sid2 st1 st2 H1 H2 He. cbn [active_streams] in *.
    destruct (decide (sid1 = sid)) as [->|Hn1];
      destruct (decide (sid2 = sid)) as [->|Hn2]; [done| | |].
    + rewrite lookup_insert_eq in H1. injection H1 as <-.
      rewrite lookup_insert_ne in H2 by done.
      pose proof (A sid2 st2 H2). cbn [cancel_event] in He. subst e. lia.
    + rewrite lookup_insert_eq in H2. injection H2 as <-.
      rewrite lookup_insert_ne in H1 by done.
      pose proof (A sid1 st1 H1). cbn [cancel_event] in He. subst e. lia.
    + rewrite lookup_insert_ne in H1, H2 by done. by eapply D.
  - intros sid' st Hst. cbn [active_streams next_event] in *.
    destruct (decide (sid' = sid)) as [->|Hne].
    + rewrite lookup_insert_eq in Hst. injection Hst as <-. cbn. lia.
    + rewrite lookup_insert_ne in Hst by done. pose proof (A sid' st Hst). lia.
Qed.


(** The room index after a release, entry by entry. *)
Lemma cleanup_index sid r st :
  well_formed r ->
  active_streams r !! sid = Some st ->
  let r' := cleanup_stream_session sid r in
  active_streams r' = delete sid (active_streams r)
  /\ next_event r' = next_event r
  /\ (forall l ss', live_to_sessions r' !! l = Some ss' ->
        ss' <> ∅
        /\ exists ss0, live_to_sessions r !! l = Some ss0
                       /\ forall x, x ∈ ss' <-> x ∈ ss0 /\ x <> sid)
  /\ (forall l ss0 x, live_to_sessions r !! l = Some ss0 -> x ∈ ss0 ->
        x <> sid ->
        exists ss', live_to_sessions r' !! l = Some ss' /\ x ∈ ss').
Proof.
  intros [C K N D A] Hst r'. subst r'. unfold cleanup_stream_session.
  rewrite Hst. cbn [active_streams next_event live_to_sessions].
  split; [done|]. split; [done|].
  assert (Hown : forall l ss, live_to_sessions r !! l = Some ss -> sid ∈ ss ->
                   stream_live_id st = Some l /\ truthy_str (Some l) = true).
  { intros l ss Hl Hin. destruct (C l ss sid Hl Hin) as (st' & Hst' & H1 & H2).
    rewrite Hst in Hst'. by injection Hst' as <-. }
  assert (Hkeep : (forall l ss', live_to_sessions r !! l = Some ss' ->
                     (forall l0, stream_live_id st = Some l0 ->
                                 truthy_str (Some l0) = true -> l <> l0) ->
                     ss' <> ∅
                     /\ exists ss0, live_to_sessions r !! l = Some ss0
                          /\ forall x, x ∈ ss' <-> x ∈ ss0 /\ x <> sid)).
  { intros l ss' Hl Hnot. split; [by eapply N|]. exists ss'.
    split; [done|]. intros x. split; [|by intros [? _]].
    intros Hx. split; [done|]. intros ->.
    destruct (Hown l ss' Hl Hx) as [H1 H2]. by eapply Hnot. }
  destruct (stream_live_id st) as [l0|] eqn:Hlive.
  2:{ split; [intros l ss' Hl; by apply Hkeep|].
      intros l ss0 x Hl Hx _. by exists ss0. }
  destruct (truthy_str (Some l0)) eqn:Ht.
  2:{ split; [intros l ss' Hl; apply Hkeep; [done|]; intros l1 [= <-]; congruence|].
      intros l ss0 x Hl Hx _. by exists ss0. }
  destruct (K sid st l0 Hst Hlive Ht) as (ss & Hl0 & Hin0).
  rewrite Hl0. rewrite bool_decide_eq_true_2 by done.
  assert (Hdiff : forall x, x ∈ ss ∖ {[sid]} <-> x ∈ ss /\ x <> sid).
  { intros x. rewrite elem_of_difference, elem_of_singleton. done. }
  case_bool_decide as Hemp.
  - split.
    + intros l ss' Hl. destruct (decide (l = l0)) as [->|Hne].
      * by rewrite lookup_delete_eq in Hl.
      * rewrite lookup_delete_ne in Hl by done. apply Hkeep; [done|].
        by intros l1 [= <-].
    + intros l ss0 x Hl Hx Hne. destruct (decide (l = l0)) as [->|Hnl].
      * assert (ss0 = ss) by congruence. subst ss0.
        assert (Hx' : x ∈ ss ∖ {[sid]}) by (by apply Hdiff).
        rewrite Hemp in Hx'. by apply elem_of_empty in Hx'.
      * exists ss0. by rewrite lookup_delete_ne.
  - split.
    + intros l ss' Hl. destruct (decide (l = l0)) as [->|Hne].
      * rewrite lookup_insert_eq in Hl. injection Hl as <-.
        split; [done|]. by exists ss.
      * rewrite lookup_insert_ne in Hl by done. apply Hkeep; [done|].
        by intros l1 [= <-].
    + intros l ss0 x Hl Hx Hne. destruct (decide (l = l0)) as [->|Hnl].
      * assert (ss0 = ss) by congruence. subst ss0. eexists.
        rewrite lookup_insert_eq. split; [reflexivity|]. by apply Hdiff.
      * exists ss0. by rewrite lookup_insert_ne.
Qed.

Lemma well_formed_cleanup sid r :
  well_formed r -> well_formed (cleanup_stream_session sid r).
Proof.
  intros Hwf. destruct (active_streams r !! sid) as [st|] eqn:Hst.
  2:{ unfold cleanup_stream_session. by rewrite Hst. }
  destruct (cleanup_index sid r st Hwf Hst) as (Ha & Hn & Hfrom & Hto).
  destruct Hwf as [C K N D A].
  split.
  - intros l ss' x Hl Hx.
    destruct (Hfrom l ss' Hl) as (_ & ss0 & Hl0 & Hmem).
    destruct (proj1 (Hmem x) Hx) as [Hx0 Hne].
    destruct (C l ss0 x Hl0 Hx0) as (stx & Hstx & H1 & H2).
    exists stx. rewrite Ha, lookup_delete_ne by done. by repeat split.
  - intros x stx l Hx Hlive Ht. rewrite Ha in Hx.
    apply lookup_delete_Some in Hx as [Hne Hx].
    destruct (K x stx l Hx Hlive Ht) as (ss0 & Hl0 & Hin).
    by apply (Hto l ss0 x).
  - intros l ss' Hl. by destruct (Hfrom l ss' Hl).
  - intros x1 x2 st1 st2 H1 H2. rewrite Ha in H1, H2.
    apply lookup_delete_Some in H1 as [_ H1].
    apply lookup_delete_Some in H2 as [_ H2]. by eapply D.
  - intros x stx Hx. rewrite Ha in Hx. rewrite Hn.
    apply lookup_delete_Some in Hx as [_ Hx]. by eapply A.
Qed.

Lemma well_formed_step r r' : step r r' -> well_formed r -> well_formed r'.
Proof.
  intros [sid live r0 Hfresh|sid r0|l r0|sid r0] Hwf.
  - by apply well_formed_register.
  - apply (well_formed_tables r0); [|apply cancel_session_next|done].
    apply cancel_session_tables.
  - unfold cancel_streams_by_live_id.
    apply (well_formed_tables r0); [|apply cancel_fold_next|done].
    apply cancel_fold_tables.
  - by apply well_formed_cleanup.
Qed.

(** X18. As long as no session id is registered while it is still
    registered, the registry stays well formed under every sequence of
    registrations, cancels (by session and by room) and releases: the room
    index lists exactly the registered sessions that named a room, each
    under its own room, no room is left with an empty set, and no two
    registered sessions share a cancel event. *)
Theorem registry_stays_well_formed (r : registry) :
  rtc step empty r -> well_formed r.
Proof.
  intros H. revert r H. apply (rtc_ind_r well_formed empty).
  - apply well_formed_empty.
  - intros r1 r2 _ Hs Hwf. by apply (well_formed_step r1).
Qed.


(** *** What a cancel touches *)

Lemma cancel_session_exact sid r sid' st' :
  distinct_events r ->
  active_streams r !! sid' = Some st' ->
  is_set (cancel_stream_by_session sid r).2 (cancel_event st')
  = if bool_decide (sid' = sid) then true else is_set r (cancel_event st').
Proof.
  intros D Hst'. case_bool_decide as Heq.
  - subst sid'. by apply cancel_session_tables.
  - unfold cancel_stream_by_session.
    destruct (active_streams r !! sid) as [st|] eqn:Hst; [|done].
    destruct (is_set r (cancel_event st)) eqn:Hset; cbn [negb snd]; [done|].
    unfold is_set. cbn [events]. rewrite lookup_insert_ne; [done|].
    intros He. apply Heq. symmetry. by apply (D sid sid' st st').
Qed.

Lemma cancel_fold_exact (sids : list string) (n : Z) (r : registry) :
  distinct_events r ->
  (forall sid, sid ∈ sids -> is_Some (active_streams r !! sid)) ->
  let res := fold_left
               (fun '(triggered, r) sid =>
                  let '(k, r') := cancel_stream_by_session sid r in
                  (triggered + k, r'))
               sids (n, r) in
  res.1 = n + Py.len sids
  /\ forall sid' st', active_streams r !! sid' = Some st' ->
       is_set res.2 (cancel_event st')
       = if bool_decide (sid' ∈ sids) then true else is_set r (cancel_event st').
Proof.
  revert n r. induction sids as [|sid sids IH]; intros n r D Hreg;
    cbn [fold_left].
  - split; [unfold Py.len; simpl; lia|]. intros sid' st' _.
    rewrite bool_decide_eq_false_2; [done|]. apply not_elem_of_nil.
  - destruct (Hreg sid ltac:(left)) as [st Hst].
    destruct (cancel_registered sid r st Hst) as (r1 & E1 & T1 & T2 & Hset).
    pose proof (fun sid' st' => cancel_session_exact sid r sid' st' D) as Hex.
    rewrite E1 in Hex |- *. cbn [snd] in Hex.
    destruct (IH (n + 1) r1) as [Hn Hflags].
    { unfold distinct_events. by rewrite T1. }
    { intros x Hx. rewrite T1. apply Hreg. by right. }
    cbv zeta in *. split.
    + rewrite Hn. unfold Py.len. simpl length. lia.
    + intros sid' st' Hst'. rewrite (Hflags sid' st') by (by rewrite T1).
      rewrite (Hex sid' st' Hst').
      destruct (decide (sid' = sid)) as [->|Hne].
      * rewrite (bool_decide_eq_true_2 (sid = sid)) by done.
        rewrite (bool_decide_eq_true_2 (sid ∈ sid :: sids)) by left.
        by destruct (bool_decide _).
      * rewrite (bool_decide_eq_false_2 (sid' = sid)) by done.
        destruct (decide (sid' ∈ sids)) as [Hin|Hnin].
        -- rewrite !bool_decide_eq_true_2; [done|by right|done].
        -- rewrite !bool_decide_eq_false_2; [done| |done].
           intros [?|?]%elem_of_cons; done.
Qed.

(** X19. On a well-formed registry a cancel touches exactly what it names:
    [cancel_stream_by_session] sets the signal of that session and leaves
    the signal of every other registered session as it was;
    [cancel_streams_by_live_id] returns the number of sessions of the room,
    sets the signals of exactly those, and changes neither table. *)
Theorem cancel_touches_exactly (r : registry) :
  well_formed r ->
  (forall sid sid' st',
      active_streams r !! sid' = Some st' ->
      is_set (cancel_stream_by_session sid r).2 (cancel_event st')
      = if bool_decide (sid' = sid) then true else is_set r (cancel_event st'))
  /\ (forall l,
        (cancel_streams_by_live_id l r).1 = Z.of_nat (size (room r l))
        /\ same_tables r (cancel_streams_by_live_id l r).2
        /\ forall sid' st',
             active_streams r !! sid' = Some st' ->
             is_set (cancel_streams_by_live_id l r).2 (cancel_event st')
             = if bool_decide (sid' ∈ room r l) then true
               else is_set r (cancel_event st')).
Proof.
  intros [C K N D A]. split.
  - intros sid sid' st' Hst'. by apply cancel_session_exact.
  - intros l. unfold cancel_streams_by_live_id. fold (room r l).
    destruct (cancel_fold_exact (elements (room r l)) 0 r D) as [Hn Hflags].
    { intros sid Hin. apply elem_of_elements in Hin. unfold room in Hin.
      destruct (live_to_sessions r !! l) as [ss|] eqn:Hl;
        cbn [default from_option id] in Hin; [|by apply elem_of_empty in Hin].
      destruct (C l ss sid Hl Hin) as (st & Hst & _). by exists st. }
    cbv zeta in *. split; [rewrite Hn; unfold Py.len; reflexivity|].
    split; [apply cancel_fold_tables|].
    intros sid' st' Hst'. rewrite (Hflags sid' st' Hst').
    destruct (decide (sid' ∈ room r l)) as [Hin|Hnin].
    + rewrite !bool_decide_eq_true_2; [done|done|by apply elem_of_elements].
    + rewrite !bool_decide_eq_false_2; [done|done|].
      by rewrite elem_of_elements.
Qed.

End RegistryWhole.

Lemma three_sessions_well_formed :
  RegistryOps.well_formed RegistryOps.three_sessions.
Proof.
  unfold RegistryOps.three_sessions.
  repeat (apply well_formed_register; [vm_compute; reflexivity|]).
  apply well_formed_empty.
Qed.

Lemma registry_stays_well_formed_witness :
  RegistryOps.well_formed RegistryOps.three_sessions.
Proof.
  apply registry_stays_well_formed. unfold RegistryOps.three_sessions.
  eapply rtc_l;
    [exact (RegistryOps.step_register "s1" (Some "a") Registry.empty eq_refl)|].
  eapply rtc_l;
    [apply (RegistryOps.step_register "s2" (Some "a")); vm_compute; reflexivity|].
  eapply rtc_l;
    [apply (RegistryOps.step_register "s3" (Some "b")); vm_compute; reflexivity|].
  apply rtc_refl.
Defined.

Lemma cancel_touches_exactly_witness :
  (Registry.cancel_streams_by_live_id "a" RegistryOps.three_sessions).1 = 2
  /\ Registry.is_set
       (Registry.cancel_streams_by_live_id "a" RegistryOps.three_sessions).2 2
     = false.
Proof.
  pose proof (proj2 (cancel_touches_exactly RegistryOps.three_sessions
                       three_sessions_well_formed) "a") as (Hn & _ & Hf).
  split; [exact Hn|].
  exact (Hf "s3" (Registry.mkStream (Some "b") 2) eq_refl).
Defined.

(** ** The join coordinator: bounds, success, and the sweep *)

Section JoinBounds.

Import Avatar Coordinator.



Lemma check_existing_bounds live c s s' :
  check_existing live c s = Some s' ->
  connect_calls s' = connect_calls s /\ tasks s' = tasks s
  /\ connection_lock s' = connection_lock s
  /\ pending_requests s' = pending_requests s
  /\ failed_requests s' = failed_requests s.
Proof.
  unfold check_existing. intros H.
  destruct (active_sessions s !! live) as [sess|]; [|by injection H as <-].
  destruct (String.eqb _ _); [|by injection H as <-].
  destruct (_ && _); [done|].
  destruct (bool_decide _); by injection H as <-.
Qed.




(** *** A join that succeeds *)

(** X21. When [join_room] answers with success, the room is recorded as
    active, the avatar client is open and bound to the room, the room has
    no pending entry and the lock is free; and as long as nothing else
    changes, every further request for the room is answered "already
    active" and changes nothing. *)
Theorem join_success (now t_fail : float) (N : task_net) (live : string)
    (s s' : state) :
  join_room now t_fail N live s = (Return Joined, s') ->
  active_sessions s' !! live = Some (mkSession "active")
  /\ (exists c, digital_human_client s' = Some c
                /\ is_connected c = true /\ Avatar.live_id c = Some live)
  /\ pending_requests s' !! live = None
  /\ connection_lock s' = false
  /\ forall now' t_fail' N',
       join_room now' t_fail' N' live s' = (Return AlreadyActive, s').
Proof.
  intros H. unfold join_room in H.
  destruct (join_room_entry now live s) as [[r|e| |] s1] eqn:Ee; [| done | done |].
  { exfalso. injection H as -> _. unfold join_room_entry in Ee.
    destruct (digital_human_client s) as [c|]; [|done].
    destruct (check_existing live c s) as [s0|]; [|done].
    destruct (join_pending s0 live); [done|].
    by destruct (check_cooldown now live s0). }
  clear Ee.
  destruct (join_room_locked live s1) as [e|[t s2]]; [done|].
  unfold join_room_resume in H.
  destruct (digital_human_client s2) as [c|]; [|done].
  destruct (overall_timeout N); [done|].
  unfold join_room_task in H.
  destruct (connect_loop N 3 0 c (connect_calls s2)) as [[r c1] calls1] eqn:El.
  destruct r; try (cbn in H; done).
  apply connect_loop_return in El; [|done].
  assert (Hw : websocket c1 = Some OPEN)
    by (unfold is_connected in El; by apply bool_decide_eq_true in El).
  rewrite Hw in H. destruct (start_live N); try (cbn in H; done).
  cbn in H. injection H as <-.
  assert (Hact : active_sessions
                   (set_lock false
                      (set_tasks (<[t := true]> (tasks s2))
                         (set_pending (delete live (pending_requests s2))
                            (set_active
                               (<[live := mkSession "active"]> (active_sessions s2))
                               (set_client (Some (mkClient (Some OPEN) (Some live)))
                                  (mkState (Some c1) (active_sessions s2)
                                     (pending_requests s2) (tasks s2)
                                     (failed_requests s2) (connection_lock s2)
                                     calls1)))))) !! live
                 = Some (mkSession "active")).
  { cbn. by rewrite lookup_insert_eq. }
  split; [cbn; by rewrite lookup_insert_eq|].
  split; [by eexists; cbn|].
  split; [cbn; by rewrite lookup_delete_eq|].
  split; [done|].
  intros now' t_fail' N'. unfold join_room, join_room_entry, check_existing.
  cbn [digital_human_client set_lock set_tasks set_pending set_active set_client].
  rewrite Hact. cbn [status]. 
  change (String.eqb "active" "active") with true. cbv iota.
  cbn [Avatar.live_id Avatar.websocket is_connected].
  rewrite !bool_decide_eq_true_2 by done. reflexivity.
Qed.

End JoinBounds.

Section SweepProps.

Import Avatar Coordinator Sweep.

(** [a < b] and [b < a] do not both hold, on doubles as on numbers. *)
Lemma SFltb_asym (x y : spec_float) : SFltb x y = true -> SFltb y x = false.
Proof.
  unfold SFltb.
  destruct x as [sx|sx| |sx mx ex], y as [sy|sy| |sy my ey]; cbn;
    try done; try (by destruct sx); try (by destruct sy);
    try (by destruct sx, sy).
  assert (H : PosDef.Pos.compare_cont Eq my mx
              = CompOpp (PosDef.Pos.compare_cont Eq mx my)) by apply ZC4.
  destruct sx, sy; try done; rewrite (Z.compare_antisym ex ey), H;
    destruct (ex ?= ey)%Z; cbn; try done;
    by destruct (PosDef.Pos.compare_cont Eq mx my).
Qed.

Lemma float_ltb_asym (a b : float) :
  PrimFloat.ltb a b = true -> PrimFloat.ltb b a = false.
Proof. rewrite !ltb_spec. apply SFltb_asym. Qed.


(** The retry loop does not look at the call counter. *)
Lemma connect_pass_counter a c calls1 calls2 :
  (connect_pass a c calls1).1 = (connect_pass a c calls2).1.
Proof.
  unfold connect_pass.
  destruct (match websocket c with
            | Some st => bool_decide (st = CLOSED)
            | None => true
            end).
  - destruct (conn a); cbn [fst]; try done.
    destruct (negb _); [done|]. by destruct (health a).
  - destruct (negb _); [done|]. by destruct (health a).
Qed.

Lemma connect_loop_counter N fuel rc c calls1 calls2 :
  (connect_loop N fuel rc c calls1).1 = (connect_loop N fuel rc c calls2).1.
Proof.
  revert rc c calls1 calls2.
  induction fuel as [|fuel IH]; intros rc c calls1 calls2; [done|].
  cbn [connect_loop].
  pose proof (connect_pass_counter (attempts N rc) c calls1 calls2) as Hp.
  destruct (connect_pass (attempts N rc) c calls1) as [[r1 c1] k1].
  destruct (connect_pass (attempts N rc) c calls2) as [[r2 c2] k2].
  cbn [fst] in Hp. injection Hp as -> ->.
  destruct r2; [done| |].
  - destruct fuel; [done|]. apply IH.
  - destruct (disconnect c2 (cleanup (attempts N rc))) as [[[|e] c3] tr];
      [|done].
    destruct fuel; [done|]. apply IH.
Qed.

Lemma join_room_task_result N live t1 t2 c s1 s2 :
  (join_room_task N live t1 c s1).1 = (join_room_task N live t2 c s2).1.
Proof.
  unfold join_room_task.
  pose proof (connect_loop_counter N 3 0 c (connect_calls s1) (connect_calls s2))
    as Hl.
  destruct (connect_loop N 3 0 c (connect_calls s1)) as [[r1 c1] k1].
  destruct (connect_loop N 3 0 c (connect_calls s2)) as [[r2 c2] k2].
  cbn [fst] in Hl. injection Hl as -> ->.
  destruct r2; try done.
  destruct (websocket c2); [|done]. by destruct (start_live N).
Qed.

Lemma join_room_resume_result t_fail N live t1 t2 s1 s2 :
  digital_human_client s1 = digital_human_client s2 ->
  (join_room_resume t_fail N live t1 s1).1
  = (join_room_resume t_fail N live t2 s2).1.
Proof.
  intros Hc. unfold join_room_resume. rewrite Hc.
  destruct (digital_human_client s2) as [c|]; [|done].
  destruct (overall_timeout N); [done|].
  pose proof (join_room_task_result N live t1 t2 c s1 s2) as Ht.
  destruct (join_room_task N live t1 c s1) as [r1 a].
  destruct (join_room_task N live t2 c s2) as [r2 b].
  cbn [fst] in Ht. subst r2. by destruct r1.
Qed.

Lemma sweep_alike t s : alike t (sweep t s) s.
Proof.
  unfold alike, sweep. cbn. repeat split.
  intros l. unfold join_pending. cbn [pending_requests set_failed set_pending].
  change (task_done (set_failed _ (set_pending _ s))) with (task_done s).
  destruct (pending_requests s !! l) as [k|] eqn:Hl.
  - destruct (task_done s k) eqn:Hd.
    + rewrite (proj2 (map_lookup_filter_None _ _ l)); [done|].
      right. intros x Hx. rewrite Hl in Hx. injection Hx as <-. cbn. congruence.
    + rewrite (proj2 (map_lookup_filter_Some _ _ l k)); [by rewrite Hd|done].
  - rewrite (proj2 (map_lookup_filter_None _ _ l)); [done|by left].
Qed.

Lemma check_existing_alike t live c s1 s2 :
  alike t s1 s2 ->
  match check_existing live c s1, check_existing live c s2 with
  | None, None => True
  | Some a, Some b => alike t a b
  | _, _ => False
  end.
Proof.
  intros (Hc & Ha & Ht & Hp & Hf). unfold check_existing. rewrite Ha.
  destruct (active_sessions s2 !! live) as [sess|]; [|by repeat split].
  destruct (String.eqb _ _).
  - destruct (_ && _); [done|].
    destruct (bool_decide _); repeat split; cbn;
      first [done | by rewrite Ha].
  - repeat split; cbn; first [done | by rewrite Ha].
Qed.

(** The sweep at clock [t] and a request at clock [now] agree on a
    failure record: what the sweep calls expired, the request does not
    call fresh. *)
Lemma sweep_then_join (t now t_fail : float) (N : task_net)
    (live : string) (s : state) :
  (forall ft, failed_requests s !! live = Some ft ->
     PrimFloat.ltb COOLDOWN_PERIOD (PrimFloat.sub t ft) = true ->
     PrimFloat.ltb (PrimFloat.sub now ft) COOLDOWN_PERIOD = false) ->
  (join_room now t_fail N live (sweep t s)).1
  = (join_room now t_fail N live s).1.
Proof.
  intros Hagree. pose proof (sweep_alike t s) as Hal.
  pose proof Hal as (Hc & Ha & Ht & Hp & Hf).
  unfold join_room, join_room_entry.
  rewrite Hc. destruct (digital_human_client s) as [c|] eqn:Hcl; [|done].
  pose proof (check_existing_alike t live c (sweep t s) s Hal) as He.
  destruct (check_existing live c (sweep t s)) as [a|];
    destruct (check_existing live c s) as [b|] eqn:Eb; try done.
  destruct He as (Hc1 & Ha1 & Ht1 & Hp1 & Hf1).
  apply check_existing_bounds in Eb as (_ & _ & _ & _ & Hfb).
  rewrite Hp1. destruct (join_pending b live) eqn:Hjp; [done|].
  assert (Hlock : forall a' b',
            digital_human_client a' = digital_human_client b' ->
            tasks a' = tasks b' ->
            join_pending a' live = join_pending b' live ->
            (match join_room_locked live a' with
             | inl e => on_http t_fail live e a'
             | inr (k, s0) => join_room_resume t_fail N live k s0
             end).1
            = (match join_room_locked live b' with
               | inl e => on_http t_fail live e b'
               | inr (k, s0) => join_room_resume t_fail N live k s0
               end).1).
  { intros a' b' Hc' Ht' Hp'. unfold join_room_locked. rewrite Hp'.
    destruct (join_pending b' live); [done|].
    apply join_room_resume_result. cbn. exact Hc'. }
  unfold check_cooldown. rewrite Hf1.
  destruct (failed_requests b !! live) as [ft|] eqn:Hft.
  - destruct (PrimFloat.ltb COOLDOWN_PERIOD (PrimFloat.sub t ft)) eqn:Hexp.
    + rewrite (proj2 (map_lookup_filter_None _ _ live)).
      2:{ right. intros x Hx. rewrite Hft in Hx. injection Hx as <-.
          cbn [snd]. congruence. }
      rewrite (Hagree ft); [|by rewrite <- Hfb|exact Hexp].
      by apply Hlock.
    + rewrite (proj2 (map_lookup_filter_Some _ _ live ft)) by done.
      destruct (PrimFloat.ltb (PrimFloat.sub now ft) COOLDOWN_PERIOD).
      * by destruct (py_int _).
      * apply Hlock; [exact Hc1|exact Ht1|exact (Hp1 live)].
  - rewrite (proj2 (map_lookup_filter_None _ _ live)) by (by left).
    by apply Hlock.
Qed.

(** X22. The periodic sweep only reclaims what no request would read.  A
    join request is answered as it would have been without an earlier
    sweep, provided the two agree on the room's failure record: if the
    sweep found it older than COOLDOWN_PERIOD at its clock value [t], the
    request does not find it younger at its own clock value [now].  A
    request that reads the very clock value of the sweep always agrees
    with it. *)
Theorem sweep_invisible_to_join (t now t_fail : float) (N : task_net)
    (live : string) (s : state) :
  ((forall ft, failed_requests s !! live = Some ft ->
      PrimFloat.ltb COOLDOWN_PERIOD (PrimFloat.sub t ft) = true ->
      PrimFloat.ltb (PrimFloat.sub now ft) COOLDOWN_PERIOD = false) ->
   (join_room now t_fail N live (sweep t s)).1
   = (join_room now t_fail N live s).1)
  /\ (join_room t t_fail N live (sweep t s)).1
     = (join_room t t_fail N live s).1.
Proof.
  split; [apply sweep_then_join|].
  apply sweep_then_join. intros ft _. apply float_ltb_asym.
Qed.

End SweepProps.

Lemma join_success_witness :
  exists s',
    Coordinator.join_room 0 0 Coordinator.obliging "room"
      Coordinator.fresh_server = (Coordinator.Return Coordinator.Joined, s')
    /\ Coordinator.active_sessions s' !! "room"
       = Some (Coordinator.mkSession "active")
    /\ Coordinator.connection_lock s' = false
    /\ Coordinator.join_room 1 1 Coordinator.obliging "room" s'
       = (Coordinator.Return Coordinator.AlreadyActive, s').
Proof.
  eexists. split; [vm_compute; reflexivity|].
  pose proof (join_success 0 0 Coordinator.obliging "room"
                Coordinator.fresh_server _ eq_refl) as (H1 & _ & _ & H4 & H5).
  split; [exact H1|]. split; [exact H4|].
  exact (H5 1%float 1%float Coordinator.obliging).
Defined.

(** Room "old" failed at clock 0 and room "new" at clock 25; the sweep
    at clock 30 drops the record of "old" and the finished join.  A
    request for "old" at clock 35 joins, and a request for "new" at clock
    30 is turned away with 5 seconds to wait, both as without the
    sweep. *)
Lemma sweep_invisible_to_join_witness :
  (Coordinator.join_room 35 36 Coordinator.obliging "old"
     (Sweep.sweep 30 Sweep.littered_server)).1
  = Coordinator.Return Coordinator.Joined
  /\ (Coordinator.join_room 30 31 Coordinator.obliging "new"
        (Sweep.sweep 30 Sweep.littered_server)).1
     = Coordinator.RaiseHTTP (Coordinator.mkHTTP 429 (Coordinator.CooldownWait 5))
  /\ Coordinator.failed_requests (Sweep.sweep 30 Sweep.littered_server) !! "old"
     = None.
Proof.
  split; [|split; [|vm_compute; reflexivity]].
  - etransitivity;
      [apply (proj1 (sweep_invisible_to_join 30 35 36 Coordinator.obliging
                       "old" Sweep.littered_server))|vm_compute; reflexivity].
    intros ft Hft _. vm_compute in Hft. injection Hft as <-.
    vm_compute. reflexivity.
  - etransitivity;
      [apply (proj2 (sweep_invisible_to_join 30 30 31 Coordinator.obliging
                       "new" Sweep.littered_server))|vm_compute; reflexivity].
Defined.

(** ** The avatar client *)

Section AvatarClient.

Import Avatar AvatarLive.

Lemma sleeps_handshake s t : sleeps (AHandshake s :: t) = sleeps t.
Proof. reflexivity. Qed.

Lemma sleeps_sleep t : sleeps (ASleep2 :: t) = S (sleeps t).
Proof. reflexivity. Qed.

Lemma handshakes_handshake s t :
  handshakes (AHandshake s :: t) = s :: handshakes t.
Proof. reflexivity. Qed.

Lemma handshakes_sleep t : handshakes (ASleep2 :: t) = handshakes t.
Proof. reflexivity. Qed.

Lemma connect_loop_spec (net : nat -> handshake) (sleep_ok : nat -> bool)
    (strategies : list strategy) (i : nat) (last : option last_error)
    (c : DigitalHumanClient) :
  (i + length strategies = 3)%nat ->
  let r := (connect_loop net sleep_ok strategies i last c).1.1 in
  let c' := (connect_loop net sleep_ok strategies i last c).1.2 in
  let t := (connect_loop net sleep_ok strategies i last c).2 in
  (r = ConnectTrue -> websocket c' = Some OPEN)
  /\ live_id c' = live_id c
  /\ handshakes t `prefix_of` strategies
  /\ (sleeps t + Nat.min i 2 <= 2)%nat
  /\ (r <> ConnectCancelled -> strategies <> [] ->
      S (sleeps t) = length (handshakes t))
  /\ (r <> ConnectTrue ->
      websocket c' = websocket c
      \/ exists k st, (i <= k < 3)%nat /\ net k = Socket st
                      /\ websocket c' = Some st /\ st <> OPEN)
  /\ (forall m, r = ConnectRaise m -> handshakes t = strategies).
Proof.
  revert i last c. induction strategies as [|s rest IH]; intros i last c Hi.
  { cbn in *. repeat split; try done; try lia. by left. }
  cbn [length] in Hi. cbn [connect_loop].
  change (length connection_strategies - 1)%nat with 2%nat.
  assert (Hfail : forall e c1,
            live_id c1 = live_id c ->
            (websocket c1 = websocket c
             \/ exists st, net i = Socket st /\ websocket c1 = Some st
                           /\ st <> OPEN) ->
            let res :=
              (if (i <? 2)%nat then
                 if sleep_ok i then
                   let '(r, c2, t) :=
                     connect_loop net sleep_ok rest (S i) (Some e) c1 in
                   (r, c2, AHandshake s :: ASleep2 :: t)
                 else (ConnectCancelled, c1, [AHandshake s; ASleep2])
               else
                 let '(r, c2, t) :=
                   connect_loop net sleep_ok rest (S i) (Some e) c1 in
                 (r, c2, AHandshake s :: t)) in
            (res.1.1 = ConnectTrue -> websocket res.1.2 = Some OPEN)
            /\ live_id res.1.2 = live_id c
            /\ handshakes res.2 `prefix_of` s :: rest
            /\ (sleeps res.2 + Nat.min i 2 <= 2)%nat
            /\ (res.1.1 <> ConnectCancelled -> s :: rest <> [] ->
                S (sleeps res.2) = length (handshakes res.2))
            /\ (res.1.1 <> ConnectTrue ->
                websocket res.1.2 = websocket c
                \/ exists k st, (i <= k < 3)%nat /\ net k = Socket st
                                /\ websocket res.1.2 = Some st /\ st <> OPEN)
            /\ (forall m, res.1.1 = ConnectRaise m ->
                          handshakes res.2 = s :: rest)).
  { intros e c1 Hl Hw.
    assert (Hw' : forall c2,
              (websocket c2 = websocket c1
               \/ exists k st, (S i <= k < 3)%nat /\ net k = Socket st
                               /\ websocket c2 = Some st /\ st <> OPEN) ->
              websocket c2 = websocket c
              \/ exists k st, (i <= k < 3)%nat /\ net k = Socket st
                              /\ websocket c2 = Some st /\ st <> OPEN).
    { intros c2 [H|(k & st & Hk & Hn & H1 & H2)].
      - destruct Hw as [Hw|(st & Hn & H1 & H2)]; [left; congruence|].
        right. exists i, st. repeat split; try done; try lia. congruence.
      - right. exists k, st. repeat split; try done; lia. }
    destruct (Nat.ltb_spec i 2) as [Hlt|Hge].
    - destruct (sleep_ok i).
      + destruct (IH (S i) (Some e) c1 ltac:(lia))
          as (I1 & I2 & I3 & I4 & I5 & I6 & I7).
        destruct (connect_loop net sleep_ok rest (S i) (Some e) c1)
          as [[r c2] t]. cbn [fst snd] in *.
        assert (Hrest : rest <> []) by (destruct rest; [cbn in Hi; lia|done]).
        rewrite sleeps_handshake, sleeps_sleep, handshakes_handshake,
          handshakes_sleep. cbn [length].
        repeat split; try done.
        * congruence.
        * by apply prefix_cons.
        * lia.
        * intros Hr _. specialize (I5 Hr Hrest). lia.
        * intros Hr. by apply Hw', I6.
        * intros m Hr. f_equal. by apply (I7 m).
      + cbn. repeat split; try done; try lia.
        * by exists rest.
        * intros _. destruct Hw as [Hw|(st & Hn & H1 & H2)]; [by left|].
          right. exists i, st. repeat split; try done; lia.
    - destruct (IH (S i) (Some e) c1 ltac:(lia))
        as (I1 & I2 & I3 & I4 & I5 & I6 & I7).
      assert (Hrest : rest = []) by (destruct rest; [done|cbn in Hi; lia]).
      subst rest. cbn [connect_loop] in *. cbn. repeat split; try done; try lia.
      intros _. apply Hw'. by left. }
  destruct (net i) as [st| | | | |] eqn:En.
  - case_bool_decide as Hopen.
    + subst st. cbn. repeat split; try done; try lia.
      by exists rest.
    + apply Hfail; [done|]. right. by exists st.
  - apply Hfail; [done|by left].
  - apply Hfail; [done|by left].
  - apply Hfail; [done|by left].
  - apply Hfail; [done|by left].
  - cbn. repeat split; try done; try lia.
    + by exists rest.
    + intros _. by left.
Qed.

Lemma connect_loop_message (net : nat -> handshake) (sleep_ok : nat -> bool)
    (strategies : list strategy) (i : nat) (last : option last_error)
    (c : DigitalHumanClient) (m : connect_failure) :
  (i + length strategies = 3)%nat ->
  (connect_loop net sleep_ok strategies i last c).1.1 = ConnectRaise m ->
  m = match strategies with
      | [] => failure_of last
      | _ => match net 2%nat with
             | HandshakeTimeout => ConnectTimedOut
             | InvalidStatusCode => ServerAnswerAbnormal
             | HandshakeClosed => HandshakeFailed
             | _ => ConnectFailedWith
             end
      end.
Proof.
  revert i last c. induction strategies as [|s rest IH]; intros i last c Hi H.
  { cbn in H. by injection H as <-. }
  cbn [length] in Hi. cbn [connect_loop] in H.
  change (length connection_strategies - 1)%nat with 2%nat in H.
  assert (Hfail : forall e c1,
            (if (i <? 2)%nat then
               if sleep_ok i then
                 let '(r, c2, t) :=
                   connect_loop net sleep_ok rest (S i) (Some e) c1 in
                 (r, c2, AHandshake s :: ASleep2 :: t)
               else (ConnectCancelled, c1, [AHandshake s; ASleep2])
             else
               let '(r, c2, t) :=
                 connect_loop net sleep_ok rest (S i) (Some e) c1 in
               (r, c2, AHandshake s :: t)).1.1 = ConnectRaise m ->
            (rest = [] -> i = 2%nat /\ m = failure_of (Some e))
            /\ (rest <> [] ->
                m = match net 2%nat with
                    | HandshakeTimeout => ConnectTimedOut
                    | InvalidStatusCode => ServerAnswerAbnormal
                    | HandshakeClosed => HandshakeFailed
                    | _ => ConnectFailedWith
                    end)).
  { intros e c1 Hr.
    pose proof (IH (S i) (Some e) c1 ltac:(lia)) as IH'.
    destruct (Nat.ltb_spec i 2) as [Hlt|Hge].
    - destruct (sleep_ok i); [|done].
      destruct (connect_loop net sleep_ok rest (S i) (Some e) c1)
        as [[r c2] t]. cbn [fst] in *. specialize (IH' Hr).
      split; [intros ->; cbn in Hi; lia|]. intros Hne. by destruct rest.
    - destruct (connect_loop net sleep_ok rest (S i) (Some e) c1)
        as [[r c2] t]. cbn [fst] in *. specialize (IH' Hr).
      split; [intros ->; split; [cbn in Hi; lia|done]|].
      intros Hne. destruct rest; [done|cbn in Hi; lia]. }
  destruct (net i) as [st| | | | |] eqn:En.
  - case_bool_decide; [done|].
    destruct (Hfail _ _ H) as [H1 H2]. destruct rest as [|s' rest'].
    + destruct (H1 eq_refl) as [-> ->]. by rewrite En.
    + by apply H2.
  - destruct (Hfail _ _ H) as [H1 H2]. destruct rest as [|s' rest'].
    + destruct (H1 eq_refl) as [-> ->]. by rewrite En.
    + by apply H2.
  - destruct (Hfail _ _ H) as [H1 H2]. destruct rest as [|s' rest'].
    + destruct (H1 eq_refl) as [-> ->]. by rewrite En.
    + by apply H2.
  - destruct (Hfail _ _ H) as [H1 H2]. destruct rest as [|s' rest'].
    + destruct (H1 eq_refl) as [-> ->]. by rewrite En.
    + by apply H2.
  - destruct (Hfail _ _ H) as [H1 H2]. destruct rest as [|s' rest'].
    + destruct (H1 eq_refl) as [-> ->]. by rewrite En.
    + by apply H2.
  - done.
Qed.

(** X23. [connect] tries the three strategies in their order and no more:
    it answers [True] only with a socket in state OPEN, never touches
    [live_id], sleeps only between two attempts (at most twice, never after
    the last), and when all three have failed the message of its error is
    chosen by the failure of the third alone; a socket it leaves behind
    after a failure is one that a handshake returned in another state than
    OPEN. *)
Theorem connect_attempts (net : nat -> handshake) (sleep_ok : nat -> bool)
    (c : DigitalHumanClient) :
  let r := (connect net sleep_ok c).1.1 in
  let c' := (connect net sleep_ok c).1.2 in
  let t := (connect net sleep_ok c).2 in
  (r = ConnectTrue -> websocket c' = Some OPEN)
  /\ live_id c' = live_id c
  /\ handshakes t `prefix_of` connection_strategies
  /\ (sleeps t <= 2)%nat
  /\ (r <> ConnectCancelled -> S (sleeps t) = length (handshakes t))
  /\ (forall m, r = ConnectRaise m ->
        handshakes t = connection_strategies
        /\ m = match net 2%nat with
               | HandshakeTimeout => ConnectTimedOut
               | InvalidStatusCode => ServerAnswerAbnormal
               | HandshakeClosed => HandshakeFailed
               | _ => ConnectFailedWith
               end)
  /\ (r <> ConnectTrue ->
      websocket c' = websocket c
      \/ exists k st, (k < 3)%nat /\ net k = Socket st
                      /\ websocket c' = Some st /\ st <> OPEN).
Proof.
  cbv zeta. unfold connect.
  destruct (connect_loop_spec net sleep_ok connection_strategies 0 None c
              eq_refl) as (H1 & H2 & H3 & H4 & H5 & H6 & H7).
  cbv zeta in *. repeat split; try done.
  - cbn [Nat.min] in H4. lia.
  - intros Hr. by apply H5.
  - by apply (H7 m).
  - by apply (connect_loop_message net sleep_ok connection_strategies 0 None c).
  - intros Hr. destruct (H6 Hr) as [H|(k & st & Hk & H)]; [by left|].
    right. exists k, st. split; [lia|done].
Qed.

(** *** Starting a room *)

Lemma prefix_split (p s : string) :
  String.prefix p s = true -> exists rest, s = (p +:+ rest)%string.
Proof.
  revert s. induction p as [|a p IH]; intros s H; [by exists s|].
  destruct s as [|b s]; [done|]. cbn in H.
  destruct (Ascii.ascii_dec a b) as [->|]; [|done].
  destruct (IH s H) as [rest ->]. by exists rest.
Qed.

Lemma heartbeat_not_reply s :
  String.prefix "|MSG|02|" s = true ->
  String.prefix "|MSG|00|" s = false /\ String.prefix "|MSG|01|" s = false.
Proof. intros H. apply prefix_split in H as [rest ->]. by split. Qed.


Section StartLiveProps.

Context {pyfloat : Type}.
Context (float_eq : pyfloat -> Z -> bool).
Context (json_loads : string -> option (STTParse.value pyfloat)).

Lemma wait_confirmation_heartbeats (heartbeats : list string)
    (incoming : list recv) :
  Forall (fun s => String.prefix "|MSG|02|" s = true) heartbeats ->
  wait_confirmation float_eq json_loads ((RText <$> heartbeats) ++ incoming)
  = wait_confirmation float_eq json_loads incoming.
Proof.
  induction 1 as [|s hs Hs _ IH]; [done|].
  cbn [fmap list_fmap app wait_confirmation].
  destruct (heartbeat_not_reply s Hs) as [-> _]. by rewrite Hs.
Qed.

(** X24. [_start_live_internal] is blind to heartbeats: any number of
    [|MSG|02|] messages before the reply changes nothing.  Without a
    socket it raises before sending and leaves the client alone; with one,
    the room is bound before the message is sent and stays bound however
    the wait ends, error replies, timeouts and closed connections
    included. *)
Theorem start_live_binds_and_skips_heartbeats (live : string)
    (send : await_result) (heartbeats : list string) (incoming : list recv)
    (c : DigitalHumanClient) :
  Forall (fun s => String.prefix "|MSG|02|" s = true) heartbeats ->
  let run := _start_live_internal float_eq json_loads live send in
  run ((RText <$> heartbeats) ++ incoming) c = run incoming c
  /\ (websocket c = None ->
      run incoming c = (StartRaise NotConnected, c, false))
  /\ (forall st, websocket c = Some st ->
      (run incoming c).1.2 = mkClient (Some st) (Some live)
      /\ (run incoming c).2 = true).
Proof.
  intros Hhb run. subst run. unfold _start_live_internal.
  split; [|split].
  - destruct (websocket c); [|done]. destruct send; [|done].
    by rewrite wait_confirmation_heartbeats.
  - by intros ->.
  - intros st ->. by destruct send.
Qed.

End StartLiveProps.

(** *** Stopping twice *)

(** X25. [stop_live] can be repeated: once it has returned, no room is
    bound, the socket is the one it found, and a further call sends nothing
    and changes nothing. *)
Theorem stop_live_idempotent (c : DigitalHumanClient)
    (send send' : await_result) :
  (stop_live c send).1.1 = Returned ->
  let c1 := (stop_live c send).1.2 in
  live_bound c1 = false
  /\ websocket c1 = websocket c
  /\ stop_live c1 send' = (Returned, c1, []).
Proof.
  unfold stop_live. intros H.
  destruct (websocket c) as [st|] eqn:Hw; [|by cbn; rewrite ?Hw].
  destruct (negb (live_bound c)) eqn:Hb.
  - cbn. rewrite Hw, Hb. repeat split; try done. by apply negb_true_iff in Hb.
  - destruct send as [|e]; [by cbn|].
    destruct (is_Exception e); [by cbn|done].
Qed.

(** *** Configuration values *)

(** X26. The configuration helpers only emit values inside the ranges their
    docstrings give (width and height 240..1920, bitrate 100..8000, role
    width 100..5760, top offset not negative), pass values inside the
    range unchanged, and leave out exactly the keys that were not given. *)
Theorem config_values_in_range (width height rate : Z)
    (role_w left top : option Z) :
  let v := create_video_config width height rate in
  let r := create_role_config role_w left top in
  (240 <= video_width v <= 1920 /\ 240 <= video_height v <= 1920
   /\ 100 <= bitrate v <= 8000)
  /\ (240 <= width <= 1920 -> video_width v = width)
  /\ (240 <= height <= 1920 -> video_height v = height)
  /\ (100 <= rate <= 8000 -> bitrate v = rate)
  /\ (forall w, role_width r = Some w -> 100 <= w <= 5760)
  /\ (forall t, role_top_offset r = Some t -> 0 <= t)
  /\ role_left_offset r = left
  /\ (role_width r = None <-> role_w = None)
  /\ (role_top_offset r = None <-> top = None)
  /\ (forall w, role_w = Some w -> 100 <= w <= 5760 -> role_width r = Some w).
Proof.
  cbv zeta. unfold create_video_config, create_role_config.
  cbn [video_width video_height bitrate role_width role_top_offset
       role_left_offset].
  split; [lia|]. split; [lia|]. split; [lia|]. split; [lia|].
  split; [intros w H; destruct role_w; cbn in H; [injection H as <-; lia|done]|].
  split; [intros t H; destruct top; cbn in H; [injection H as <-; lia|done]|].
  split; [done|].
  split; [split; [by destruct role_w|by intros ->]|].
  split; [split; [by destruct top|by intros ->]|].
  intros w -> Hw. cbn. f_equal. lia.
Qed.

End AvatarClient.

Lemma connect_attempts_witness :
  (AvatarLive.connect AvatarLive.second_try (fun _ => true) Avatar.init).1.1
  = AvatarLive.ConnectTrue
  /\ Avatar.websocket
       (AvatarLive.connect AvatarLive.second_try (fun _ => true) Avatar.init).1.2
     = Some Avatar.OPEN
  /\ AvatarLive.sleeps
       (AvatarLive.connect AvatarLive.second_try (fun _ => true) Avatar.init).2
     = 1%nat.
Proof.
  split; [reflexivity|]. split; [|reflexivity].
  apply (connect_attempts AvatarLive.second_try (fun _ => true) Avatar.init).
  reflexivity.
Defined.

Lemma start_live_binds_and_skips_heartbeats_witness :
  AvatarLive._start_live_internal (pyfloat := unit) (fun _ _ => false)
    (fun _ => None) "room" Avatar.Ok
    ((AvatarLive.RText <$> ["|MSG|02|"%string; "|MSG|02|{}"%string])
     ++ [AvatarLive.RRaise Avatar.ConnectionClosed])
    (Avatar.mkClient (Some Avatar.OPEN) None)
  = (AvatarLive.StartRaise AvatarLive.Disconnected,
     Avatar.mkClient (Some Avatar.OPEN) (Some "room"), true).
Proof.
  etransitivity;
    [exact (proj1 (start_live_binds_and_skips_heartbeats (fun _ _ => false)
                     (fun _ => None) "room" Avatar.Ok
                     ["|MSG|02|"%string; "|MSG|02|{}"%string]
                     [AvatarLive.RRaise Avatar.ConnectionClosed]
                     (Avatar.mkClient (Some Avatar.OPEN) None)
                     ltac:(repeat constructor)))|].
  reflexivity.
Defined.

Lemma stop_live_idempotent_witness :
  Avatar.live_bound
    (Avatar.stop_live (Avatar.mkClient (Some Avatar.OPEN) (Some "room"))
       Avatar.Ok).1.2 = false
  /\ Avatar.stop_live
       (Avatar.stop_live (Avatar.mkClient (Some Avatar.OPEN) (Some "room"))
          Avatar.Ok).1.2 Avatar.Ok
     = (Avatar.Returned, Avatar.mkClient (Some Avatar.OPEN) None, []).
Proof.
  pose proof (stop_live_idempotent
                (Avatar.mkClient (Some Avatar.OPEN) (Some "room"))
                Avatar.Ok Avatar.Ok eq_refl) as (H1 & _ & H3).
  split; [exact H1|exact H3].
Defined.


(** *** What [safe_tts_synthesize] hands back *)

Section SafeTTS.

Import Registry Pipeline PipelineRun.

Lemma collect_chunks_all E ce incoming acc s audio_chunks s' :
  collect_chunks E ce incoming acc s = (Some audio_chunks, s') ->
  audio_chunks = acc ++ incoming /\ attempts s' = attempts s.
Proof.
  revert acc s. induction incoming as [|ch rest IH]; intros acc s;
    cbn [collect_chunks].
  - intros [= <- <-]. by rewrite app_nil_r.
  - destruct (cancelled ce (pause E s)); [done|]. intros H.
    apply IH in H as [-> H]. by rewrite <- app_assoc.
Qed.

Lemma tts_retry_chunks E ce fuel s audio_chunks s' :
  tts_retry E ce fuel s = (TtsChunks audio_chunks, s') ->
  fuel <> 0%nat ->
  audio_chunks <> []
  /\ exists k, (attempts s <= k < attempts s + fuel)%nat
               /\ audio_chunks = chunks (tts E k)
               /\ stream_ends (tts E k) = true
               /\ ensure (tts E k) <> EnsureFailed.
Proof.
  revert s. induction fuel as [|fuel IH]; intros s H Hf; [done|].
  cbn [tts_retry] in H. destruct (cancelled ce s); [done|].
  assert (Hfail : forall s1,
            attempts s1 = S (attempts s) ->
            match fuel with
            | O => (TtsException, s1)
            | S _ => tts_retry E ce fuel (pause E s1)
            end = (TtsChunks audio_chunks, s') ->
            audio_chunks <> []
            /\ exists k, (attempts s <= k < attempts s + S fuel)%nat
                         /\ audio_chunks = chunks (tts E k)
                         /\ stream_ends (tts E k) = true
                         /\ ensure (tts E k) <> EnsureFailed).
  { intros s1 Ha Hr. destruct fuel; [done|].
    apply IH in Hr as (Hne & k & Hk & Hrest); [|done].
    split; [done|]. exists k. split; [|done].
    change (attempts (pause E s1)) with (attempts s1) in Hk. lia. }
  assert (Hrun : forall s1,
            attempts s1 = S (attempts s) ->
            ensure (tts E (attempts s)) <> EnsureFailed ->
            match collect_chunks E ce (chunks (tts E (attempts s))) [] s1 with
            | (None, s0) => (TtsCancelledError, s0)
            | (Some ac, s0) =>
                if negb (stream_ends (tts E (attempts s)))
                then match fuel with
                     | O => (TtsException, s0)
                     | S _ => tts_retry E ce fuel (pause E s0)
                     end
                else if Py.len ac =? 0
                then match fuel with
                     | O => (TtsException, s0)
                     | S _ => tts_retry E ce fuel (pause E s0)
                     end
                else (TtsChunks ac, s0)
            end = (TtsChunks audio_chunks, s') ->
            audio_chunks <> []
            /\ exists k, (attempts s <= k < attempts s + S fuel)%nat
                         /\ audio_chunks = chunks (tts E k)
                         /\ stream_ends (tts E k) = true
                         /\ ensure (tts E k) <> EnsureFailed).
  { intros s1 Ha Hens Hr.
    destruct (collect_chunks E ce (chunks (tts E (attempts s))) [] s1)
      as [[ac|] s0] eqn:Ec; [|done].
    apply collect_chunks_all in Ec as [-> Ha0]. cbn [app] in Hr.
    destruct (stream_ends (tts E (attempts s))) eqn:Hends; cbn [negb] in Hr;
      [|apply (Hfail s0); [congruence|done]].
    destruct (Py.len (chunks (tts E (attempts s))) =? 0) eqn:Hlen;
      [apply (Hfail s0); [congruence|done]|].
    injection Hr as <- <-. split.
    - intros Hnil. rewrite Hnil in Hlen. done.
    - exists (attempts s). repeat split; try done; lia. }
  destruct (ensure (tts E (attempts s))) eqn:Hens.
  - eapply Hrun; [| |exact H]; [reflexivity|congruence].
  - eapply Hrun; [| |exact H]; [reflexivity|congruence].
  - eapply Hfail; [|exact H]. reflexivity.
Qed.

(** X27. The audio that [safe_tts_synthesize] returns is never empty and
    is the whole output of one attempt, one of the at most three of this
    call: the chunks of an attempt whose stream ended normally and whose
    [ensure_tts_connection] succeeded, with nothing of a failed attempt
    mixed in. *)
Theorem safe_tts_returns_one_whole_synthesis E ce text s audio_chunks s' :
  safe_tts_synthesize E ce text s = (TtsChunks audio_chunks, s') ->
  audio_chunks <> []
  /\ exists k, (attempts s <= k < attempts s + 3)%nat
               /\ audio_chunks = chunks (tts E k)
               /\ stream_ends (tts E k) = true
               /\ ensure (tts E k) <> EnsureFailed.
Proof.
  unfold safe_tts_synthesize. intros H.
  by apply tts_retry_chunks in H.
Qed.

End SafeTTS.

Lemma safe_tts_returns_one_whole_synthesis_witness :
  exists s',
    Pipeline.safe_tts_synthesize (Pipeline.one_sentence PipelineRun.idle) 0
      [72; 105; 46] (Pipeline.mkState Registry.empty 0 [] [] [] 0 0 0)
    = (Pipeline.TtsChunks [[1; 2]; [3; 4]], s')
    /\ exists k, (0 <= k < 0 + 3)%nat
         /\ [[1; 2]; [3; 4]]
            = Pipeline.chunks
                (Pipeline.tts (Pipeline.one_sentence PipelineRun.idle) k)
         /\ Pipeline.stream_ends
              (Pipeline.tts (Pipeline.one_sentence PipelineRun.idle) k) = true
         /\ Pipeline.ensure
              (Pipeline.tts (Pipeline.one_sentence PipelineRun.idle) k)
            <> Pipeline.EnsureFailed.
Proof.
  eexists. split; [vm_compute; reflexivity|].
  exact (proj2 (safe_tts_returns_one_whole_synthesis
                  (Pipeline.one_sentence PipelineRun.idle) 0 [72; 105; 46]
                  (Pipeline.mkState Registry.empty 0 [] [] [] 0 0 0)
                  [[1; 2]; [3; 4]] _ eq_refl)).
Defined.

(** ** Leaving a room, resetting the server *)

Section LifecycleProps.

Import Avatar Registry Coordinator PipelineRun RegistryOps Lifecycle.

Lemma cancel_all_fold (sids : list string) (r : registry) :
  let r' := fold_left (fun r sid => (cancel_stream_by_session sid r).2) sids r in
  same_tables r r'
  /\ next_event r' = next_event r
  /\ (forall e, is_set r e = true -> is_set r' e = true)
  /\ (forall sid st, sid ∈ sids -> active_streams r !! sid = Some st ->
                     is_set r' (cancel_event st) = true).
Proof.
  revert r. induction sids as [|sid sids IH]; intros r; cbn [fold_left].
  - repeat split; try done. intros sid st Hin. by apply elem_of_nil in Hin.
  - destruct (cancel_session_tables sid r) as ([T1 T2] & M & C).
    pose proof (cancel_session_next sid r) as Hn.
    destruct (IH (cancel_stream_by_session sid r).2) as ([T3 T4] & Hn' & M' & C').
    cbv zeta in *. split; [split; congruence|]. split; [congruence|].
    split; [by intros e He; apply M', M|].
    intros sid' st Hin Hst. apply elem_of_cons in Hin as [->|Hin].
    + by apply M', C.
    + apply (C' sid'); [done|]. by rewrite T1.
Qed.

Lemma disconnect_socket c n :
  websocket (disconnect c n).1.2 = None.
Proof.
  unfold disconnect. destruct (websocket c) eqn:Hw; [|done].
  by destruct (disconnect_body c n) as [[r c'] t].
Qed.

(** X29. When [reset_connections] returns, the two counts it reports
    are 0, [active_sessions], [pending_requests], [active_streams] and
    [live_to_sessions] are empty, [failed_requests] is as it was, the
    avatar client has no socket, the cancel event of every stream that
    was registered is set, and a late [cleanup_stream_session] of such a
    stream changes nothing. *)
Theorem reset_clears (n : reset_net) (w w' : server) (a b : Z) :
  reset_connections n w = (ResetOk a b, w') ->
  a = 0 /\ b = 0
  /\ active_sessions (coord w') = ∅
  /\ pending_requests (coord w') = ∅
  /\ active_streams (streams w') = ∅
  /\ live_to_sessions (streams w') = ∅
  /\ failed_requests (coord w') = failed_requests (coord w)
  /\ (forall c', digital_human_client (coord w') = Some c' ->
                 websocket c' = None)
  /\ (forall sid st, active_streams (streams w) !! sid = Some st ->
                     is_set (streams w') (cancel_event st) = true)
  /\ (forall sid, cleanup_stream_session sid (streams w') = streams w').
Proof.
  unfold reset_connections. intros H.
  destruct (cancel_all_fold (map_to_list (active_streams (streams w))).*1
              (streams w)) as (_ & _ & _ & Hset).
  fold (cancel_all (streams w)) in Hset. cbv zeta in Hset.
  set (r := cancel_all (streams w)) in *.
  destruct (digital_human_client (set_pending ∅ (coord w))) as [c|] eqn:Hc.
  - pose proof (disconnect_socket c (reset_avatar n)) as Hd.
    destruct (disconnect c (reset_avatar n)) as [[o c1] t]. cbn [fst snd] in Hd.
    destruct (match o with
              | Returned => None
              | Raised e => if is_Exception e then None else Some e
              end); [done|].
    destruct (swallowed (reset_tts n)); [done|].
    destruct (swallowed (reset_stt n)); [done|].
    injection H as <- <- <-. cbn.
    repeat split; try done.
    + intros c' [= <-]. exact Hd.
    + intros sid st Hst. unfold is_set. cbn [events].
      apply (Hset sid st); [|done].
      apply list_elem_of_fmap. exists (sid, st). split; [done|].
      by apply elem_of_map_to_list.
  - destruct (swallowed (reset_tts n)); [done|].
    destruct (swallowed (reset_stt n)); [done|].
    injection H as <- <- <-. cbn. cbn in Hc.
    repeat split; try done.
    + intros c'. by rewrite Hc.
    + intros sid st Hst. unfold is_set. cbn [events].
      apply (Hset sid st); [|done].
      apply list_elem_of_fmap. exists (sid, st). split; [done|].
      by apply elem_of_map_to_list.
Qed.


Lemma leave_avatar_unbinds n live c c' :
  leave_avatar n live c = (None, c') -> live_id c' <> Some live.
Proof.
  unfold leave_avatar.
  destruct (match websocket c with
            | Some _ =>
                if is_connected c && bool_decide (live_id c = Some live) then
                  let '(o, c', t) := stop_live c (stop_send n) in
                  let c' :=
                    match t with
                    | [] => c'
                    | _ => mkClient (socket_becomes (state_after_stop_live n)
                                       (websocket c')) (live_id c')
                    end in
                  (match o with
                   | Returned => None
                   | Raised e => if is_Exception e then None else Some e
                   end, c')
                else (None, c)
            | None => (None, c)
            end) as [[e|] c1]; [done|].
  set (c2 := if bool_decide (live_id c1 = Some live)
             then mkClient (websocket c1) None else c1).
  assert (H2 : live_id c2 <> Some live).
  { subst c2. case_bool_decide; [done|done]. }
  destruct (websocket c2) as [st|]; [|by intros [= <-]].
  case_bool_decide; [by intros [= <-]|].
  destruct (disconnect c2 (avatar n)) as [[o c3] t] eqn:Ed.
  intros [= _ <-].
  unfold disconnect in Ed. destruct (websocket c2); [|by injection Ed as _ <- _].
  destruct (disconnect_body c2 (avatar n)) as [[r0 c0] t0].
  by injection Ed as _ <- _.
Qed.

Lemma join_never_already_active now t_fail N live s :
  active_sessions s !! live = None ->
  (join_room now t_fail N live s).1 <> Return AlreadyActive.
Proof.
  intros Ha. unfold join_room, join_room_entry.
  destruct (digital_human_client s) as [c|]; [|done].
  unfold check_existing. rewrite Ha.
  destruct (join_pending s live); [done|].
  destruct (check_cooldown now live s) as [e| |s1]; [done|done|].
  destruct (join_room_locked live s1) as [e|[t s2]]; [done|].
  unfold join_room_resume.
  destruct (digital_human_client s2) as [c2|]; [|done].
  destruct (overall_timeout N); [done|].
  destruct (join_room_task N live t c2 s2) as [[] s3]; done.
Qed.

(** X28. When [leave_room] returns, the room has no entry in
    [active_sessions] and none in [pending_requests]; [cleaned_up] tells
    whether there was a session; the stream tables are as they were, with
    the cancel event of every stream of the room set; after a clean-up
    the avatar client is no longer bound to the room; and the next
    [join_room] for the room is not answered with the recorded session. *)
Theorem leave_room_leaves (n : leave_net) (live : string) (w w' : server)
    (cleaned_up : bool) :
  leave_room n live w = (LeaveOk cleaned_up, w') ->
  active_sessions (coord w') !! live = None
  /\ pending_requests (coord w') !! live = None
  /\ (cleaned_up = true <-> is_Some (active_sessions (coord w) !! live))
  /\ same_tables (streams w) (streams w')
  /\ (forall sid st, sid ∈ room (streams w) live ->
        active_streams (streams w) !! sid = Some st ->
        is_set (streams w') (cancel_event st) = true)
  /\ (cleaned_up = true ->
      forall c', digital_human_client (coord w') = Some c' ->
                 live_id c' <> Some live)
  /\ (forall now t_fail N,
        (join_room now t_fail N live (coord w')).1 <> Return AlreadyActive).
Proof.
  unfold leave_room. intros H.
  destruct (cancel_fold_tables (elements (room (streams w) live)) 0 (streams w))
    as (T & _ & Hset).
  cbv zeta in T, Hset.
  fold (cancel_streams_by_live_id live (streams w)) in T, Hset.
  assert (Hroom : forall sid st, sid ∈ room (streams w) live ->
            active_streams (streams w) !! sid = Some st ->
            is_set (cancel_streams_by_live_id live (streams w)).2
                   (cancel_event st) = true).
  { intros sid st Hin Hst. apply (Hset sid st); [|done].
    by apply elem_of_elements. }
  clear Hset.
  set (r := (cancel_streams_by_live_id live (streams w)).2) in *.
  cbn [active_sessions set_pending] in H.
  destruct (active_sessions (coord w) !! live) as [sess|] eqn:Hact.
  2:{ injection H as <- <-. cbn [coord streams].
      split; [exact Hact|].
      split; [cbn; by rewrite lookup_delete_eq|].
      split; [split; [done|by intros [? ?]]|].
      split; [exact T|]. split; [exact Hroom|]. split; [done|].
      intros now t_fail N. by apply join_never_already_active. }
  assert (Hfinal : forall s0,
            active_sessions s0 = active_sessions (coord w) ->
            pending_requests s0 = delete live (pending_requests (coord w)) ->
            (forall c', digital_human_client s0 = Some c' ->
                        live_id c' <> Some live) ->
            match swallowed (tts_disconnect n) with
            | Some e =>
                (LeaveRaise e,
                 mkServer (set_active (delete live (active_sessions s0)) s0) r)
            | None =>
                match swallowed (stt_disconnect n) with
                | Some e =>
                    (LeaveRaise e,
                     mkServer (set_active (delete live (active_sessions s0)) s0) r)
                | None =>
                    (LeaveOk true,
                     mkServer (set_active (delete live (active_sessions s0)) s0) r)
                end
            end = (LeaveOk cleaned_up, w') ->
            active_sessions (coord w') !! live = None
            /\ pending_requests (coord w') !! live = None
            /\ (cleaned_up = true <-> is_Some (Some sess))
            /\ same_tables (streams w) (streams w')
            /\ (forall sid st, sid ∈ room (streams w) live ->
                  active_streams (streams w) !! sid = Some st ->
                  is_set (streams w') (cancel_event st) = true)
            /\ (cleaned_up = true ->
                forall c', digital_human_client (coord w') = Some c' ->
                           live_id c' <> Some live)
            /\ (forall now t_fail N,
                  (join_room now t_fail N live (coord w')).1
                  <> Return AlreadyActive)).
  { intros s0 Ha Hp Hcl Hr.
    destruct (swallowed (tts_disconnect n)); [done|].
    destruct (swallowed (stt_disconnect n)); [done|].
    injection Hr as <- <-. cbn [coord streams].
    assert (Hgone : active_sessions
                      (set_active (delete live (active_sessions s0)) s0) !! live
                    = None) by (cbn; by rewrite lookup_delete_eq).
    split; [exact Hgone|].
    split; [cbn; rewrite Hp; by rewrite lookup_delete_eq|].
    split; [split; [by eexists|done]|].
    split; [exact T|]. split; [exact Hroom|].
    split; [intros _ c' Hc'; by apply Hcl|].
    intros now t_fail N. by apply join_never_already_active. }
  destruct (digital_human_client (set_pending (delete live (pending_requests (coord w)))
                                    (coord w))) as [c|] eqn:Hc.
  - destruct (leave_avatar n live c) as [[e|] c1] eqn:El; [done|].
    apply leave_avatar_unbinds in El.
    eapply Hfinal; [| | |exact H]; [reflexivity|reflexivity|].
    intros c' [= <-]. exact El.
  - eapply Hfinal; [| | |exact H]; [reflexivity|reflexivity|].
    intros c'. by rewrite Hc.
Qed.

End LifecycleProps.

Lemma reset_clears_witness :
  exists w',
    Lifecycle.reset_connections Lifecycle.calm_reset Lifecycle.busy_server
    = (Lifecycle.ResetOk 0 0, w')
    /\ Registry.active_streams (Lifecycle.streams w') = ∅
    /\ Registry.is_set (Lifecycle.streams w') 2 = true.
Proof.
  eexists. split; [vm_compute; reflexivity|].
  pose proof (reset_clears Lifecycle.calm_reset Lifecycle.busy_server _ 0 0
                eq_refl) as (_ & _ & _ & _ & H5 & _ & _ & _ & H9 & _).
  split; [exact H5|].
  exact (H9 "s3" (Registry.mkStream (Some "b") 2) eq_refl).
Defined.

Lemma leave_room_leaves_witness :
  exists w',
    Lifecycle.leave_room Lifecycle.calm "a" Lifecycle.busy_server
    = (Lifecycle.LeaveOk true, w')
    /\ Coordinator.active_sessions (Lifecycle.coord w') !! "a" = None
    /\ Registry.is_set (Lifecycle.streams w') 0 = true.
Proof.
  eexists. split; [vm_compute; reflexivity|].
  pose proof (leave_room_leaves Lifecycle.calm "a" Lifecycle.busy_server _ true
                eq_refl) as (H1 & _ & _ & _ & H5 & _).
  split; [exact H1|].
  apply (H5 "s1" (Registry.mkStream (Some "a") 0)); [|reflexivity].
  vm_compute. auto.
Defined.
